(** * useSignLanguageModel: model acquisition cascade, frame buffer and predictor

    A shallow embedding of [src/hooks/useSignLanguageModel.js].  The source
    file holds three variants of the hook:

    - the cascade hook (local model, IndexedDB, localStorage, ZIP download,
      direct URL, mock model), embedded in the top-level modules below;
    - the cached hook, which differs in [getModelDataFromSession] (a version
      tag and a one-hour freshness window), embedded in [Module Cached];
    - the simplified hook, embedded in [Module Simplified].

    JavaScript numbers are IEEE-754 doubles: landmark coordinates and
    confidences are primitive floats.  The confidences are read from a
    [Float32Array]: they are the doubles that hold a float32 value
    ([Module Float32]).  Time stamps and delays, on which the
    code only subtracts and compares, are exact rationals (milliseconds).
    React state setters are taken to act at once on the state record.
    Line numbers are those of the source file. *)

From Stdlib Require Import ZArith QArith Qround Lqa Lia List Floats.
From Stdlib Require Import Strings.String Strings.Ascii Strings.Byte DecimalString.
From stdpp Require Import base list strings gmap.

Set Warnings "-inexact-float".
Set Default Proof Using "Type".

Open Scope nat_scope.

(** ** JavaScript arrays *)

Module JS.

(** [arr[i] = v]: inside the array the slot is overwritten; at or past the
    end the array grows, the slots skipped over being holes.  A hole reads
    back as [undefined], which a numeric consumer turns into NaN. *)
Definition array_set (i : nat) (v : float) (arr : list float) : list float :=
  if decide (i < length arr) then <[i:=v]> arr
  else arr ++ replicate (i - length arr) nan ++ [v].

(** [arr.forEach((x, i) => body)], threading what the body mutates. *)
Fixpoint forEach_from {A St : Type} (body : A -> nat -> St -> St)
    (i : nat) (arr : list A) (s : St) : St :=
  match arr with
  | [] => s
  | x :: rest => forEach_from body (S i) rest (body x i s)
  end.

Definition forEach {A St : Type} (body : A -> nat -> St -> St)
    (arr : list A) (s : St) : St :=
  forEach_from body 0 arr s.

(** [for (let i = lo; i < lo + n; i++) body(i)]. *)
Fixpoint for_range {St : Type} (body : nat -> St -> St) (lo n : nat) (s : St) : St :=
  match n with
  | 0 => s
  | S n' => for_range body (S lo) n' (body lo s)
  end.

(** [arr[i]] for an integer index: [undefined] out of range. *)
Definition index {A : Type} (arr : list A) (i : Z) : option A :=
  if (i <? 0)%Z then None else arr !! Z.to_nat i.

End JS.

(** ** Frame vectors and the frame buffer *)

Definition FRAME_BUFFER_SIZE : nat := 30.

Module Landmark.
Record t := { x : float; y : float; z : float }.
End Landmark.

Abbreviation Hand := (list Landmark.t).

(** The landmarker result: [landmarks] may be absent. *)
Record LandmarkerResult := { landmarks : option (list Hand) }.

Abbreviation Frame := (list float).

Module FrameVector.

(** Body of the inner [forEach] of [processHandLandmarks]. *)
Definition storeLandmark (handIndex : nat) (landmark : Landmark.t)
    (landmarkIndex : nat) (handLandmarksArray : Frame) : Frame :=
  let baseIndex := handIndex * 63 + landmarkIndex * 3 in
  let a0 := JS.array_set baseIndex (Landmark.x landmark) handLandmarksArray in
  let a1 := JS.array_set (baseIndex + 1) (Landmark.y landmark) a0 in
  JS.array_set (baseIndex + 2) (Landmark.z landmark) a1.

(** Body of the outer [forEach]: hands from index 2 on return at once. *)
Definition storeHand (handLandmarks : Hand) (handIndex : nat)
    (handLandmarksArray : Frame) : Frame :=
  if decide (2 <= handIndex) then handLandmarksArray
  else JS.forEach (storeLandmark handIndex) handLandmarks handLandmarksArray.

(** Lines 784-802: [new Array(126).fill(0)] and the two nested loops. *)
Definition handLandmarksArray (landmarkerResult : LandmarkerResult) : Frame :=
  let arr := replicate 126 0%float in
  match landmarks landmarkerResult with
  | Some hands => JS.forEach storeHand hands arr
  | None => arr
  end.

End FrameVector.

(** What [runPrediction] emits and [setPrediction] stores. *)
Record Prediction := {
  label : option string;      (* [classLabels[safeIndex]], [undefined] when out of range *)
  confidence : float;
  isMock : bool
}.

Module Buffer.

(** Lines 804-810: [bufferRef.current.push(frame)], then [shift()] when the
    buffer got longer than [FRAME_BUFFER_SIZE]. *)
Definition push_bounded (frame : Frame) (buffer : list Frame) : list Frame :=
  let pushed := buffer ++ [frame] in
  if decide (FRAME_BUFFER_SIZE < length pushed) then drop 1 pushed else pushed.

End Buffer.

(** ** Numbers *)

Module Num.

(** [Math.floor] of a double, as an integer; NaN and the infinities have
    none. *)
Definition floor (f : float) : option Z :=
  match Prim2SF f with
  | S754_zero _ => Some 0%Z
  | S754_finite s m e =>
      let n := if s then Z.neg m else Z.pos m in
      Some (if (0 <=? e)%Z then n * 2 ^ e else n / 2 ^ (- e))%Z
  | _ => None
  end.

(** An array length as a double. *)
Definition of_nat (n : nat) : float :=
  PrimFloat.of_uint63 (Uint63.of_Z (Z.of_nat n)).

(** [a < b] on time stamps. *)
Definition Qltb (a b : Q) : bool := negb (Qle_bool b a).

End Num.

(** ** Float32Array

    [predictions.data()] resolves to a [Float32Array] (lines 887 and 2001):
    the numbers read from it are float32 values, widened to doubles. *)

Module Float32.

(** [Math.fround]: the float32 nearest to a double, ties to even, as a
    double; what comes back from a [Float32Array] slot the double was
    stored in.  24 bits of precision, exponents up to 2^128. *)
Definition fround (x : float) : float :=
  match Prim2SF x with
  | S754_finite s m e =>
      SF2Prim (binary_normalize 24 128 (if s then Z.neg m else Z.pos m) e s)
  | _ => x
  end.

(** The doubles that can be read from a [Float32Array]: NaN and the
    doubles that [fround] leaves as they are. *)
Definition representable (x : float) : bool :=
  PrimFloat.is_nan x || PrimFloat.eqb (fround x) x.

(** The element whose four bytes are [bits]: sign, eight bits of
    exponent, twenty-three bits of fraction. *)
Definition ofBits (bits : Z) : float :=
  let sign := Z.testbit bits 31 in
  let exponent := Z.land (Z.shiftr bits 23) 255 in
  let fraction := Z.land bits (2 ^ 23 - 1) in
  if (exponent =? 255)%Z then
    if (fraction =? 0)%Z then (if sign then neg_infinity else infinity) else nan
  else
    let '(m, e) := if (exponent =? 0)%Z then (fraction, -149)%Z
                   else (fraction + 2 ^ 23, exponent - 150)%Z in
    let magnitude := Z.ldexp (PrimFloat.of_uint63 (Uint63.of_Z m)) e in
    if sign then (- magnitude)%float else magnitude.

(** [new Float32Array(values)], read back. *)
Definition array (values : list float) : list float := map fround values.

End Float32.

(** ** The predictor of the cascade hook *)

Definition CONFIDENCE_THRESHOLD : float := 0.7%float.
Definition USE_MOCK_MODEL : bool := false.

Definition DEFAULT_CLASS_LABELS : list string :=
  ["Hello"; "Thank you"; "Yes"; "No"; "Please"; "Sorry";
   "Good"; "Bad"; "Name"; "What"; "Where"; "When"; "How";
   "Help"; "Want"; "Love"; "Like"; "Need"; "Time"; "Now"]%string.

(** A loaded model as the predictor sees it.  [predict] is absent when
    [typeof model.predict !== 'function'].  It stands for
    [tf.tensor3d([buffer], [1, 30, 126])], [model.predict] and
    [predictions.data()] together: [None] when one of them throws, else the
    prediction array.  The array is a [Float32Array]: the code reads float32
    values from it, those for which [Float32.representable] holds; a property
    that depends on it assumes it of the array. *)
Record Model := {
  predict : option (list Frame -> option (list float));
  mockModel : bool
}.

(** The part of the hook's closure that ingestion and prediction touch. *)
Record Hook := {
  model : option Model;
  classLabels : list string;
  bufferRef : list Frame;
  isBufferFull : bool;
  prediction : option Prediction;
  lastPredictionTimeRef : Q;
  (* bookkeeping of the embedding: runs of the inference step so far *)
  predictCalls : nat
}.

Definition initialHook (m : option Model) : Hook :=
  {| model := m; classLabels := DEFAULT_CLASS_LABELS; bufferRef := [];
     isBufferFull := false; prediction := None;
     lastPredictionTimeRef := 0%Q; predictCalls := 0 |}.

Definition set_buffer (b : list Frame) (full : bool) (s : Hook) : Hook :=
  {| model := model s; classLabels := classLabels s; bufferRef := b;
     isBufferFull := full; prediction := prediction s;
     lastPredictionTimeRef := lastPredictionTimeRef s;
     predictCalls := predictCalls s |}.

Definition setPrediction (p : option Prediction) (s : Hook) : Hook :=
  {| model := model s; classLabels := classLabels s; bufferRef := bufferRef s;
     isBufferFull := isBufferFull s; prediction := p;
     lastPredictionTimeRef := lastPredictionTimeRef s;
     predictCalls := predictCalls s |}.

Definition set_lastPredictionTime (t : Q) (s : Hook) : Hook :=
  {| model := model s; classLabels := classLabels s; bufferRef := bufferRef s;
     isBufferFull := isBufferFull s; prediction := prediction s;
     lastPredictionTimeRef := t;
     predictCalls := predictCalls s |}.

Definition count_predict (s : Hook) : Hook :=
  {| model := model s; classLabels := classLabels s; bufferRef := bufferRef s;
     isBufferFull := isBufferFull s; prediction := prediction s;
     lastPredictionTimeRef := lastPredictionTimeRef s;
     predictCalls := S (predictCalls s) |}.

(** Lines 780-817. *)
Definition processHandLandmarks (landmarkerResult : LandmarkerResult)
    (s : Hook) : Hook * bool :=
  let frame := FrameVector.handLandmarksArray landmarkerResult in
  let buffer := Buffer.push_bounded frame (bufferRef s) in
  let isFull := bool_decide (length buffer = FRAME_BUFFER_SIZE) in
  (set_buffer buffer isFull s, isFull).

(** Lines 942-946. *)
Definition resetBuffer (s : Hook) : Hook :=
  setPrediction None (set_buffer [] false s).

Module Predictor.

(** Lines 893-902: the arg-max loop, [maxProb] and [maxIndex] starting at 0. *)
Definition argmax_step (v : float) (i : nat) (acc : float * nat) : float * nat :=
  if PrimFloat.ltb (fst acc) v then (v, i) else acc.

Definition argmax (predictionArray : list float) : float * nat :=
  JS.forEach argmax_step predictionArray (0%float, 0).

(** Lines 904-906. *)
Definition safeIndex (maxIndex : nat) (labels : list string) : Z :=
  Z.min (Z.of_nat maxIndex) (Z.of_nat (length labels) - 1).

Definition selectLabel (predictionArray : list float) (labels : list string)
    : option string * float :=
  let '(maxProb, maxIndex) := argmax predictionArray in
  (JS.index labels (safeIndex maxIndex labels), maxProb).

(** Line 843. *)
Definition throttled (currentTime : Q) (s : Hook) : bool :=
  Num.Qltb (currentTime - lastPredictionTimeRef s) 200.

(** Line 852. *)
Definition shouldChangeRandomly (currentTime : Q) : bool :=
  (Z.rem (Qfloor (currentTime / 3000)) 3 =? 0)%Z.

(** Lines 855-864; [random1] and [random2] are the two draws of
    [Math.random()]. *)
Definition newMockPrediction (random1 random2 : float) (labels : list string)
    : Prediction :=
  let randomIndex := Num.floor (random1 * Num.of_nat (length labels)) in
  let mockConfidence := (0.7 + random2 * 0.28)%float in
  {| label := randomIndex ≫= JS.index labels;
     confidence := mockConfidence; isMock := true |}.

(** Lines 914-932: the confidence gate on the result of the inference. *)
Definition gate (predictionResult : option string * float) (s : Hook)
    : Hook * option Prediction :=
  let '(predictedLabel, predictedConfidence) := predictionResult in
  if PrimFloat.leb CONFIDENCE_THRESHOLD predictedConfidence then
    let newPrediction :=
      {| label := predictedLabel; confidence := predictedConfidence;
         isMock := USE_MOCK_MODEL |} in
    (setPrediction (Some newPrediction) s, Some newPrediction)
  else (s, None).

(** Lines 872-912: the body handed to [tf.tidy]. *)
Definition infer (infer_fn : list Frame -> option (list float)) (s : Hook)
    : Hook * option (option string * float) :=
  if negb (bool_decide (length (bufferRef s) = FRAME_BUFFER_SIZE)) then (s, None)
  else
    let s := count_predict s in
    match infer_fn (bufferRef s) with
    | None => (s, None)
    | Some [] => (s, None)
    | Some predictionArray => (s, Some (selectLabel predictionArray (classLabels s)))
    end.

End Predictor.

(** Lines 821-937.  [currentTime] is the reading of [performance.now()]. *)
Definition runPrediction (currentTime : Q) (random1 random2 : float)
    (s : Hook) : Hook * option Prediction :=
  match model s with
  | None => (s, None)
  | Some m =>
    if negb (isBufferFull s) then (s, None)
    else match predict m with
    | None => (s, None)
    | Some infer_fn =>
      if Predictor.throttled currentTime s then (s, None)
      else
        let s := set_lastPredictionTime currentTime s in
        if (USE_MOCK_MODEL || mockModel m) && Predictor.shouldChangeRandomly currentTime
        then
          let p := Predictor.newMockPrediction random1 random2 (classLabels s) in
          (setPrediction (Some p) s, Some p)
        else
          match Predictor.infer infer_fn s with
          | (s, None) => (s, None)
          | (s, Some predictionResult) => Predictor.gate predictionResult s
          end
    end
  end.

(** ** Results of fallible calls *)

Inductive result (A : Type) : Type :=
| Ok (a : A)
| Throw (message : string).
Arguments Ok {A} a.
Arguments Throw {A} message.

(** Template literals with a number in them. *)
Definition show_nat (n : nat) : string :=
  NilEmpty.string_of_uint (Nat.to_uint n).

(** ** The simplified hook (third variant in the source file) *)

Module Simplified.

Record Prediction := { label : string; confidence : float }.

(** [predict] stands for [tf.tensor3d], [model.predict] and [preds.data()]
    together (lines 1992-2001): what one of them throws, or the
    [Float32Array] of the predictions. *)
Record Model := {
  predict : option (list Frame -> result (list float));
  outputNames : option (list string)
}.

Record Hook := {
  model : option Model;
  error : option string;
  bufferRef : list Frame;
  bufferLength : nat;
  isBufferFull : bool;
  isPredicting : bool;
  prediction : option Prediction
}.

Definition initialHook (m : option Model) : Hook :=
  {| model := m; error := None; bufferRef := []; bufferLength := 0;
     isBufferFull := false; isPredicting := false; prediction := None |}.

Definition set_buffer (b : list Frame) (len : nat) (full : bool) (s : Hook) : Hook :=
  {| model := model s; error := error s; bufferRef := b; bufferLength := len;
     isBufferFull := full; isPredicting := isPredicting s;
     prediction := prediction s |}.

Definition setPrediction (p : option Prediction) (s : Hook) : Hook :=
  {| model := model s; error := error s; bufferRef := bufferRef s;
     bufferLength := bufferLength s; isBufferFull := isBufferFull s;
     isPredicting := isPredicting s; prediction := p |}.

Definition setError (e : string) (s : Hook) : Hook :=
  {| model := model s; error := Some e; bufferRef := bufferRef s;
     bufferLength := bufferLength s; isBufferFull := isBufferFull s;
     isPredicting := isPredicting s; prediction := prediction s |}.

Definition setIsPredicting (b : bool) (s : Hook) : Hook :=
  {| model := model s; error := error s; bufferRef := bufferRef s;
     bufferLength := bufferLength s; isBufferFull := isBufferFull s;
     isPredicting := b; prediction := prediction s |}.

(** Lines 1931-1943: the body of the loop over the 21 landmark slots of
    hand [hi]. *)
Definition storeSlot (hi : nat) (hand : Hand) (li : nat) (arr : Frame) : Frame :=
  let baseIdx := hi * 63 + li * 3 in
  match hand !! li with
  | Some lm =>
      let a0 := JS.array_set baseIdx (Landmark.x lm) arr in
      let a1 := JS.array_set (baseIdx + 1) (Landmark.y lm) a0 in
      JS.array_set (baseIdx + 2) (Landmark.z lm) a1
  | None => arr
  end.

(** Lines 1928-1944: the body of the loop over the hands. *)
Definition storeHand (hands : list Hand) (hi : nat) (arr : Frame) : Frame :=
  match hands !! hi with
  | Some hand => JS.for_range (storeSlot hi hand) 0 21 arr
  | None => arr
  end.

(** Lines 1921-1945: the zeroed array and the loop over the first
    [min(hands.length, 2)] hands. *)
Definition frameOf (landmarkerResult : LandmarkerResult) : Frame :=
  let arr := replicate 126 0%float in
  let hands := default [] (landmarks landmarkerResult) in
  JS.for_range (storeHand hands) 0 (Nat.min (length hands) 2) arr.

(** Lines 1918-1968. *)
Definition processHandLandmarks (landmarkerResult : LandmarkerResult)
    (s : Hook) : Hook * bool :=
  let arr := frameOf landmarkerResult in
  let buffer := Buffer.push_bounded arr (bufferRef s) in
  let len := length buffer in
  let full := bool_decide (len = FRAME_BUFFER_SIZE) in
  (set_buffer buffer len full s, full).

(** Lines 2012-2013: [model.outputNames?.[idx] || `class_${idx}`]. *)
Definition labelOf (m : Model) (idx : nat) : string :=
  match outputNames m ≫= (.!! idx) with
  | Some name => if String.eqb name "" then "class_" +:+ show_nat idx else name
  | None => "class_" +:+ show_nat idx
  end.

(** Lines 1978-2017: the [try] block; a [Throw] is what the [catch] receives. *)
Definition tryPredict (m : Model) (s : Hook) : result Hook :=
  if negb (bool_decide (length (bufferRef s) = FRAME_BUFFER_SIZE)) then
    Throw ("Invalid buffer size: " +:+ show_nat (length (bufferRef s)) +:+ "/"
             +:+ show_nat FRAME_BUFFER_SIZE)
  else
    match List.find (fun frame => negb (bool_decide (length frame = 126))) (bufferRef s) with
    | Some frameWithWrongSize =>
        Throw ("Invalid frame size: " +:+ show_nat (length frameWithWrongSize)
                 +:+ "/126 values")
    | None =>
        match predict m with
        | None => Throw "model.predict is not a function"
        | Some infer_fn =>
            match infer_fn (bufferRef s) with
            | Throw e => Throw e
            | Ok data =>
                let '(max, idx) := Predictor.argmax data in
                if PrimFloat.leb CONFIDENCE_THRESHOLD max then
                  Ok (setPrediction
                        (Some {| label := labelOf m idx; confidence := max |}) s)
                else
                  Ok (setPrediction
                        (Some {| label := "No confident prediction";
                                 confidence := max |}) s)
            end
        end
    end.

(** Lines 1969-2029.  The function returns no value; its effect is the
    new state. *)
Definition runPrediction (s : Hook) : Hook :=
  match model s with
  | None => s
  | Some m =>
    if negb (isBufferFull s) then s
    else
      let s := setIsPredicting true s in
      let s :=
        match tryPredict m s with
        | Ok s' => s'
        | Throw e => setError ("Prediction error: " +:+ e) s
        end in
      set_buffer [] 0 false (setIsPredicting false s)
  end.

(** Lines 2049-2054. *)
Definition resetBuffer (s : Hook) : Hook :=
  setPrediction None (set_buffer [] 0 false s).

End Simplified.

(** ** Sequences of calls and the expected slot contents *)

(** [processHandLandmarks] called once per landmarker result, in order. *)
Definition ingestAll (results : list LandmarkerResult) (s : Hook) : Hook :=
  foldl (fun s r => fst (processHandLandmarks r s)) s results.

(** Coordinate [c] (0 = x, 1 = y, 2 = z) of a landmark. *)
Definition coordinate (c : nat) (lm : Landmark.t) : float :=
  match c with
  | 0 => Landmark.x lm
  | 1 => Landmark.y lm
  | _ => Landmark.z lm
  end.

(** What slot [h * 63 + l * 3 + c] is to hold: the coordinate of landmark [l]
    of hand [h] when the result has one, zero otherwise. *)
Definition slotValue (hands : list Hand) (h l c : nat) : float :=
  match hands !! h ≫= (.!! l) with
  | Some lm => coordinate c lm
  | None => 0%float
  end.


(** ** Sample inputs *)

Module Sample.

(** A model whose inference always answers [output]. *)
Definition constantModel (output : list float) : Model :=
  {| predict := Some (fun _ => Some output); mockModel := false |}.

Definition noHands : LandmarkerResult := {| landmarks := None |}.

(** The cascade hook after thirty ingested frames. *)
Definition fullHook (output : list float) : Hook :=
  ingestAll (replicate 30 noHands) (initialHook (Some (constantModel output))).

Definition simplifiedModel (output : list float) : Simplified.Model :=
  {| Simplified.predict := Some (fun _ => Ok output);
     Simplified.outputNames := None |}.

(** The simplified hook with a full buffer and a prediction on display. *)
Definition simplifiedFullHook (output : list float) : Simplified.Hook :=
  let shown := {| Simplified.label := "class_1"; Simplified.confidence := 0.9%float |} in
  Simplified.setPrediction (Some shown)
    (foldl (fun s r => fst (Simplified.processHandLandmarks r s))
           (Simplified.initialHook (Some (simplifiedModel output)))
           (replicate 30 noHands)).

End Sample.

(** ** JavaScript strings *)

Module Str.

Definition endsWith (s suffix : string) : bool :=
  String.prefix (String.rev suffix) (String.rev s).

Definition includes (s sub : string) : bool :=
  match String.index 0 sub s with
  | Some _ => true
  | None => false
  end.

Fixpoint lastIndexOf_from (c : ascii) (i : nat) (s : string)
    (found : option nat) : option nat :=
  match s with
  | EmptyString => found
  | String a rest =>
      lastIndexOf_from c (S i) rest (if Ascii.eqb a c then Some i else found)
  end.

(** [s.lastIndexOf(c)], [None] for -1. *)
Definition lastIndexOf (s : string) (c : ascii) : option nat :=
  lastIndexOf_from c 0 s None.

(** [path.replace(/^\.\//, '')]. *)
Definition stripDotSlash (path : string) : string :=
  if String.prefix "./" path
  then String.substring 2 (String.length path - 2) path
  else path.

(** [array.join(separator)]. *)
Definition join (separator : string) (parts : list string) : string :=
  String.concat separator parts.

(** A string is truthy when it is not empty. *)
Definition truthy (s : option string) : bool :=
  match s with
  | Some v => negb (String.eqb v "")
  | None => false
  end.

(** The white space that [parseInt] skips, among the characters of ASCII:
    tab, line feed, vertical tab, form feed, carriage return and space.
    The strings of the embedding are sequences of bytes, and the white
    space that JavaScript has past ASCII (U+00A0, U+FEFF, the Unicode
    spaces and line separators) is not told apart from other characters:
    a time stamp that starts with one of these does not parse here. *)
Definition isWhiteSpace (c : ascii) : bool :=
  let n := nat_of_ascii c in
  bool_decide (n = 32 \/ (9 <= n /\ n <= 13)).

Fixpoint trimStart (s : string) : string :=
  match s with
  | String c rest => if isWhiteSpace c then trimStart rest else s
  | EmptyString => s
  end.

Definition digitValue (radix : Z) (c : ascii) : option Z :=
  let n := Z.of_nat (nat_of_ascii c) in
  let v := if (48 <=? n)%Z && (n <=? 57)%Z then Some (n - 48)%Z
           else if (97 <=? n)%Z && (n <=? 122)%Z then Some (n - 87)%Z
           else if (65 <=? n)%Z && (n <=? 90)%Z then Some (n - 55)%Z
           else None in
  match v with
  | Some d => if (d <? radix)%Z then Some d else None
  | None => None
  end.

(** The longest run of leading digits, [None] when there is none. *)
Fixpoint digits (radix : Z) (s : string) (acc : option Z) : option Z :=
  match s with
  | String c rest =>
      match digitValue radix c with
      | Some d => digits radix rest (Some (radix * default 0%Z acc + d)%Z)
      | None => acc
      end
  | EmptyString => acc
  end.

Definition unsignedInt (s : string) : option Z :=
  if String.prefix "0x" s || String.prefix "0X" s
  then digits 16 (String.substring 2 (String.length s - 2) s) None
  else digits 10 s None.

(** [parseInt(s)] with no radix; [None] is NaN. *)
Definition parseInt (s : string) : option Z :=
  match trimStart s with
  | String "-" rest => Z.opp <$> unsignedInt rest
  | String "+" rest => unsignedInt rest
  | t => unsignedInt t
  end.

(** [n.toString()] of an integer. *)
Definition ofZ (n : Z) : string := NilZero.string_of_int (Z.to_int n).

End Str.

(** ** Archives, descriptors and artifacts *)

Abbreviation bytes := (list byte).

(** [zipContents.files]: the entries by name, in the order of [Object.keys]. *)
Abbreviation ZipFiles := (list (string * list byte)).

Module Zip.

Definition keys (files : ZipFiles) : list string := map fst files.

(** [files[name]], [undefined] when there is no such entry. *)
Definition file (files : ZipFiles) (name : string) : option bytes :=
  snd <$> List.find (fun entry => String.eqb (fst entry) name) files.

End Zip.

Module Descriptor.

Record WeightSpec := { name : string; shape : list nat; dtype : string }.

Record Group := { paths : list string; weights : list WeightSpec }.

Record ModelJSON := {
  modelTopology : string;
  weightsManifest : list Group;
  format : option string;
  generatedBy : option string;
  convertedBy : option string
}.

End Descriptor.

Record ModelArtifacts := {
  artifactTopology : string;
  weightSpecs : list Descriptor.WeightSpec;
  weightData : bytes;
  artifactFormat : option string;
  artifactGeneratedBy : option string;
  artifactConvertedBy : option string
}.

(** ** Byte arrays *)

Module Uint8Array.

(** [view.set(source, offset)] on a byte array; past the end it is a
    RangeError, which the callers below never reach. *)
Definition set (view source : bytes) (offset : nat) : bytes :=
  if decide (offset + length source <= length view)
  then take offset view ++ source ++ drop (offset + length source) view
  else view.

(** Lines 298-306, 421-431 and 436-444: a zeroed buffer of the total
    length, each part copied in at the running offset. *)
Definition combine (buffers : list bytes) : bytes :=
  let totalByteLength := foldl (fun acc buf => acc + length buf) 0 buffers in
  let combinedView := replicate totalByteLength x00 in
  fst (foldl (fun '(view, offset) buf => (set view buf offset, offset + length buf))
             (combinedView, 0) buffers).

End Uint8Array.

(** ** The IO handler over an extracted archive (lines 360-464) *)

Module ZipIO.

(** What the handler writes with [console.error]. *)
Inductive ConsoleError :=
| AttemptedPaths (possiblePaths : list string)
| HandlerError (message : string).

(** A computation that logs and may throw. *)
Definition Logged (A : Type) : Type := list ConsoleError * result A.

(** Lines 393-399. *)
Definition possiblePaths (modelDir path : string) : list string :=
  [ modelDir +:+ path;
    path;
    "model/" +:+ path;
    "assets/" +:+ path;
    Str.stripDotSlash path ].

(** Lines 402-409: the loop over the candidates, left at the first hit. *)
Fixpoint findWeightFile (files : ZipFiles) (tryPaths : list string)
    : option (string * bytes) :=
  match tryPaths with
  | [] => None
  | tryPath :: rest =>
      match Zip.file files tryPath with
      | Some weightFile => Some (tryPath, weightFile)
      | None => findWeightFile files rest
      end
  end.

(** Lines 391-417: the callback mapped over the paths of a group. *)
Definition loadWeight (files : ZipFiles) (modelDir path : string) : Logged bytes :=
  match findWeightFile files (possiblePaths modelDir path) with
  | Some (_, weightFile) => ([], Ok weightFile)
  | None =>
      ([AttemptedPaths (possiblePaths modelDir path)],
       Throw ("Weight file not found in ZIP for path: " +:+ path))
  end.

(** [Promise.all(items.map(async ...))]: every callback runs, the results
    keep the order of the items, and the first rejection in that order is
    the one thrown. *)
Fixpoint promiseAll {A : Type} (runs : list (Logged A)) : Logged (list A) :=
  match runs with
  | [] => ([], Ok [])
  | (log, r) :: rest =>
      let '(logs, rs) := promiseAll rest in
      (log ++ logs,
       match r, rs with
       | Throw e, _ => Throw e
       | Ok _, Throw e => Throw e
       | Ok a, Ok others => Ok (a :: others)
       end)
  end.

(** Lines 388-432: one group of the manifest. *)
Definition loadGroup (files : ZipFiles) (modelDir : string)
    (group : Descriptor.Group) : Logged bytes :=
  let '(log, buffers) :=
    promiseAll (map (loadWeight files modelDir) (Descriptor.paths group)) in
  (log, match buffers with
        | Ok buffers => Ok (Uint8Array.combine buffers)
        | Throw e => Throw e
        end).

(** Lines 376-379. *)
Definition modelDirOf (modelJsonFile : string) : string :=
  match Str.lastIndexOf modelJsonFile "/" with
  | Some i => String.substring 0 (i + 1) modelJsonFile
  | None => ""
  end.

(** Lines 368-370: the test that finds the descriptor among the entries. *)
Definition isModelJson (name : string) : bool :=
  Str.endsWith name "model.json" || String.eqb name "model.json".

(** Lines 363-457: the [try] block of [load].  [parse] stands for
    [async('text')] followed by [JSON.parse]. *)
Definition tryLoad (parse : bytes -> result Descriptor.ModelJSON)
    (files : ZipFiles) : Logged ModelArtifacts :=
  match List.find isModelJson (Zip.keys files) with
  | None => ([], Throw "model.json not found in ZIP file")
  | Some modelJsonFile =>
      let modelDir := modelDirOf modelJsonFile in
      match Zip.file files modelJsonFile with
      | None => ([], Throw "Cannot read properties of undefined (reading 'async')")
      | Some content =>
          match parse content with
          | Throw e => ([], Throw e)
          | Ok modelJSON =>
              let manifest := Descriptor.weightsManifest modelJSON in
              let weightSpecs := flat_map Descriptor.weights manifest in
              let '(log, weightData) :=
                promiseAll (map (loadGroup files modelDir) manifest) in
              (log, match weightData with
                    | Throw e => Throw e
                    | Ok weightData =>
                        Ok {| artifactTopology := Descriptor.modelTopology modelJSON;
                              weightSpecs := weightSpecs;
                              weightData := Uint8Array.combine weightData;
                              artifactFormat := Descriptor.format modelJSON;
                              artifactGeneratedBy := Descriptor.generatedBy modelJSON;
                              artifactConvertedBy := Descriptor.convertedBy modelJSON |}
                    end)
          end
      end
  end.

(** Lines 458-461: the [catch] logs the error and throws it again. *)
Definition load (parse : bytes -> result Descriptor.ModelJSON)
    (files : ZipFiles) : Logged ModelArtifacts :=
  match tryLoad parse files with
  | (log, Throw e) => (log ++ [HandlerError e], Throw e)
  | done => done
  end.

End ZipIO.

(** ** The model acquisition cascade *)

Definition CACHE_KEY : string := "sign-language-model-v5".

Module Loader.

Record Response := {
  ok : bool;
  status : nat;
  statusText : string;
  (* the chunks handed out by [response.body.getReader()] *)
  body : result (list bytes)
}.

(** What the browser, the network and TensorFlow.js answer.  [Date.now()]
    has one reading for the whole run. *)
Record Env := {
  now : Z;                                   (* [Date.now()] *)
  atob : string -> result bytes;
  toBase64 : bytes -> string;                (* payload of [readAsDataURL] *)
  fetch : nat -> result Response;            (* the k-th [fetch] of the ZIP *)
  loadAsync : bytes -> result ZipFiles;      (* [JSZip.loadAsync], CRC check on *)
  parse : bytes -> result Descriptor.ModelJSON;
  tf_ready : result unit;                    (* [tf.ready()] *)
  modelExists : bool;                        (* [checkModelFile(LOCAL_MODEL)] *)
  weightsExist : bool;
  configureBackend : result unit;            (* lines 490-514 *)
  loadLocal : result Model;                  (* [tf.loadLayersModel] per source *)
  loadIndexedDB : result Model;
  loadLocalStorage : result Model;
  loadRemote : result Model;
  modelFromArtifacts : ModelArtifacts -> result Model;
  createMockModel : nat -> result Model      (* the k-th [createMockModel()] *)
}.

(** The state the loader works on.  The download and extraction
    percentages, which only the display reads, are left out. *)
Record World := {
  model : option Model;
  isLoading : bool;
  error : option string;
  modelLoadingStage : string;
  zipCacheRef : option ZipFiles;
  sessionStorage : gmap string string;
  (* bookkeeping of the embedding *)
  fetches : nat;                             (* calls of [fetch(zipUrl)], line 250, so far *)
  delays : list Q;                           (* [setTimeout] delays waited, oldest first *)
  mockModels : nat                           (* calls of [createMockModel] so far *)
}.

Definition initialWorld (session : gmap string string) : World :=
  {| model := None; isLoading := true; error := None;
     modelLoadingStage := "initializing"; zipCacheRef := None;
     sessionStorage := session; fetches := 0; delays := []; mockModels := 0 |}.

(** A step of an [async] function: it changes the world and returns or
    throws. *)
Definition M (A : Type) : Type := World -> World * result A.

Definition ret {A : Type} (a : A) : M A := fun w => (w, Ok a).

Definition throw {A : Type} (message : string) : M A := fun w => (w, Throw message).

Definition bind {A B : Type} (c : M A) (k : A -> M B) : M B :=
  fun w => match c w with
           | (w', Ok a) => k a w'
           | (w', Throw e) => (w', Throw e)
           end.

(** [try { c } catch (e) { handler(e) }]. *)
Definition tryCatch {A : Type} (c : M A) (handler : string -> M A) : M A :=
  fun w => match c w with
           | (w', Throw e) => handler e w'
           | done => done
           end.

Definition lift {A : Type} (r : result A) : M A := fun w => (w, r).

Definition modify (f : World -> World) : M unit := fun w => (f w, Ok tt).

Definition read {A : Type} (f : World -> A) : M A := fun w => (w, Ok (f w)).

Declare Scope loader_scope.
Delimit Scope loader_scope with loader.
Notation "'let*' x ':=' c 'in' k" := (bind c (fun x => k))
  (at level 10, x name, c at level 100, k at level 200) : loader_scope.
Notation "c ';;' k" := (bind c (fun _ => k))
  (at level 100, k at level 200, right associativity) : loader_scope.

Definition setModel (m : Model) (w : World) : World :=
  {| model := Some m; isLoading := isLoading w; error := error w;
     modelLoadingStage := modelLoadingStage w; zipCacheRef := zipCacheRef w;
     sessionStorage := sessionStorage w; fetches := fetches w;
     delays := delays w; mockModels := mockModels w |}.

Definition setIsLoading (b : bool) (w : World) : World :=
  {| model := model w; isLoading := b; error := error w;
     modelLoadingStage := modelLoadingStage w; zipCacheRef := zipCacheRef w;
     sessionStorage := sessionStorage w; fetches := fetches w;
     delays := delays w; mockModels := mockModels w |}.

Definition setError (e : string) (w : World) : World :=
  {| model := model w; isLoading := isLoading w; error := Some e;
     modelLoadingStage := modelLoadingStage w; zipCacheRef := zipCacheRef w;
     sessionStorage := sessionStorage w; fetches := fetches w;
     delays := delays w; mockModels := mockModels w |}.

Definition setModelLoadingStage (stage : string) (w : World) : World :=
  {| model := model w; isLoading := isLoading w; error := error w;
     modelLoadingStage := stage; zipCacheRef := zipCacheRef w;
     sessionStorage := sessionStorage w; fetches := fetches w;
     delays := delays w; mockModels := mockModels w |}.

Definition setZipCache (z : ZipFiles) (w : World) : World :=
  {| model := model w; isLoading := isLoading w; error := error w;
     modelLoadingStage := modelLoadingStage w; zipCacheRef := Some z;
     sessionStorage := sessionStorage w; fetches := fetches w;
     delays := delays w; mockModels := mockModels w |}.

Definition setSessionItem (key value : string) (w : World) : World :=
  {| model := model w; isLoading := isLoading w; error := error w;
     modelLoadingStage := modelLoadingStage w; zipCacheRef := zipCacheRef w;
     sessionStorage := <[key:=value]> (sessionStorage w); fetches := fetches w;
     delays := delays w; mockModels := mockModels w |}.

Definition countFetch (w : World) : World :=
  {| model := model w; isLoading := isLoading w; error := error w;
     modelLoadingStage := modelLoadingStage w; zipCacheRef := zipCacheRef w;
     sessionStorage := sessionStorage w; fetches := S (fetches w);
     delays := delays w; mockModels := mockModels w |}.

(** [await new Promise(resolve => setTimeout(resolve, delay))]. *)
Definition sleep (delay : Q) (w : World) : World :=
  {| model := model w; isLoading := isLoading w; error := error w;
     modelLoadingStage := modelLoadingStage w; zipCacheRef := zipCacheRef w;
     sessionStorage := sessionStorage w; fetches := fetches w;
     delays := delays w ++ [delay]; mockModels := mockModels w |}.

Definition countMockModel (w : World) : World :=
  {| model := model w; isLoading := isLoading w; error := error w;
     modelLoadingStage := modelLoadingStage w; zipCacheRef := zipCacheRef w;
     sessionStorage := sessionStorage w; fetches := fetches w;
     delays := delays w; mockModels := S (mockModels w) |}.

Local Open Scope loader_scope.

(** Lines 112-127.  [retries <= 0] on a count is [retries = 0]; the
    exponent [3 - retries] is an integer, negative from four retries on. *)
Fixpoint retryWithBackoff {A : Type} (operation : M A) (retries : nat)
    (baseDelay : Q) (onRetry : nat -> Q -> M unit) : M A :=
  tryCatch operation (fun error =>
    match retries with
    | 0 => throw error
    | S retries' =>
        let delay := (baseDelay * 2 ^ (3 - Z.of_nat retries))%Q in
        onRetry retries delay;;
        modify (sleep delay);;
        retryWithBackoff operation retries' baseDelay onRetry
    end).

(** The callback the download passes, lines 266-269. *)
Definition onDownloadRetry (retriesLeft : nat) (delay : Q) : M unit :=
  modify (setModelLoadingStage "download-retry").

(** The world after [failed] failed calls of the retried download, each
    followed by the callback and the wait, [retries] being left at first. *)
Fixpoint retried (baseDelay : Q) (retries failed : nat) (w : World) : World :=
  match failed with
  | 0 => w
  | S failed' =>
      retried baseDelay (retries - 1) failed'
        (sleep (baseDelay * 2 ^ (3 - Z.of_nat retries))%Q
           (setModelLoadingStage "download-retry" (countFetch w)))
  end.

(** The defaults of the parameter list: three retries, 300 ms, no callback. *)
Definition retryWithBackoff_default {A : Type} (operation : M A) : M A :=
  retryWithBackoff operation 3 300 (fun _ _ => ret tt).

(** Lines 250-262: what the k-th call of the retried operation gives. *)
Definition attempt (env : Env) (k : nat) : result Response :=
  match fetch env k with
  | Ok resp =>
      if ok resp then Ok resp
      else Throw ("Failed to download model ZIP: " +:+ show_nat (status resp)
                    +:+ " " +:+ statusText resp)
  | Throw e => Throw e
  end.

(** Lines 249-263: the operation retried by the download. *)
Definition fetchZip (env : Env) : M Response :=
  let* k := read fetches in
  modify countFetch;;
  lift (attempt env k).

(** Lines 132-155, in the case where the [FileReader] callback runs at
    once and [sessionStorage] takes both items.  [Module SessionWrite] has
    the callback as a step of its own, whose [setItem] can throw. *)
Definition storeModelDataInSession (env : Env) (data : bytes) : M unit :=
  if decide (length data < 10 * 1024 * 1024) then
    modify (setSessionItem (CACHE_KEY +:+ "-data") (toBase64 env data));;
    modify (setSessionItem (CACHE_KEY +:+ "-timestamp") (Str.ofZ (now env)))
  else ret tt.

(** The freshness test [Date.now() - parseInt(timestamp) < window]; a
    time stamp that does not parse gives NaN, and the test is false. *)
Definition fresh (env : Env) (timestamp : string) (window : Z) : bool :=
  match Str.parseInt timestamp with
  | Some t => (now env - t <? window)%Z
  | None => false
  end.

(** Lines 160-184. *)
Definition getModelDataFromSession (env : Env) (w : World) : option bytes :=
  let timestamp := sessionStorage w !! (CACHE_KEY +:+ "-timestamp") in
  let base64data := sessionStorage w !! (CACHE_KEY +:+ "-data") in
  match timestamp, base64data with
  | Some timestamp, Some base64data =>
      if Str.truthy (Some timestamp) && Str.truthy (Some base64data)
         && fresh env timestamp (10 * 60 * 1000)
      then match atob env base64data with
           | Ok bytes => Some bytes
           | Throw _ => None
           end
      else None
  | _, _ => None
  end.

Definition hasModelJson (zipContents : ZipFiles) : bool :=
  existsb (fun file => Str.includes file "model.json") (Zip.keys zipContents).

Section Download.

(** The two session helpers, which differ between the cascade hook and
    the cached hook. *)
Variable getSession : Env -> World -> option bytes.
Variable storeSession : Env -> bytes -> M unit.
Variable env : Env.

(** Lines 208-244: the cached bytes are extracted again; [None] stands
    for the [catch] that falls back to the download. *)
Definition extractSessionData (sessionStorageData : bytes) : M (option ZipFiles) :=
  modify (setModelLoadingStage "extracting");;
  tryCatch
    (let* zipContents := lift (loadAsync env sessionStorageData) in
     modify (setZipCache zipContents);;
     if negb (hasModelJson zipContents)
     then throw "Invalid ZIP structure in session storage"
     else ret (Some zipContents))
    (fun sessionError => ret None).

(** Lines 247-350: the download, with its retries, and the extraction. *)
Definition downloadFresh : M ZipFiles :=
  let* response :=
    retryWithBackoff (fetchZip env) 3 500 onDownloadRetry in
  let* chunks := lift (body response) in
  let zipData := Uint8Array.combine chunks in
  storeSession env zipData;;
  modify (setModelLoadingStage "extracting");;
  let* zipContents := lift (loadAsync env zipData) in
  modify (setZipCache zipContents);;
  if negb (hasModelJson zipContents)
  then throw ("Invalid model ZIP: Missing model.json file. Available files: "
                +:+ Str.join ", " (Zip.keys zipContents))
  else ret zipContents.

(** Lines 189-355 (and 1155-1320).  The outer [catch] logs the error and
    throws it again. *)
Definition downloadAndExtractModelZipWith : M ZipFiles :=
  tryCatch
    (modify (setModelLoadingStage "downloading");;
     let* cached := read zipCacheRef in
     match cached with
     | Some zipContents => ret zipContents
     | None =>
         let* sessionStorageData := read (getSession env) in
         let* reused :=
           match sessionStorageData with
           | Some data => extractSessionData data
           | None => ret None
           end in
         match reused with
         | Some zipContents => ret zipContents
         | None => downloadFresh
         end
     end)
    (fun error => throw error).

End Download.

Definition downloadAndExtractModelZip : Env -> M ZipFiles :=
  downloadAndExtractModelZipWith getModelDataFromSession storeModelDataInSession.

End Loader.

(** ** [loadModel] of the cascade hook (lines 467-751) *)

Module Cascade.

Import Loader.
Local Open Scope loader_scope.

Definition predictIsFunction (m : Model) : bool :=
  match predict m with
  | Some _ => true
  | None => false
  end.

(** [createMockModel()], lines 69-107. *)
Definition mockModel (env : Env) : M Model :=
  let* k := read mockModels in
  modify countMockModel;;
  lift (createMockModel env k).

(** One source of the cascade: [attempt] runs when nothing was loaded yet,
    and what it throws is caught and logged. *)
Definition trySource (attempt : M Model) (loadedModel : option Model)
    : M (option Model) :=
  match loadedModel with
  | Some m => ret (Some m)
  | None => tryCatch (let* m := attempt in ret (Some m)) (fun _ => ret None)
  end.

(** Lines 526-537. *)
Definition localSource (env : Env) : M Model :=
  modify (setModelLoadingStage "loading-local");;
  lift (loadLocal env).

(** Lines 540-551. *)
Definition indexedDBSource (env : Env) : M Model :=
  modify (setModelLoadingStage "loading-from-cache");;
  lift (loadIndexedDB env).

(** Lines 554-563. *)
Definition localStorageSource (env : Env) : M Model :=
  lift (loadLocalStorage env).

(** [tf.loadLayersModel(zipIOHandler)]: the handler's [load], then the
    model built from the artifacts. *)
Definition loadLayersModelFromZip (env : Env) (zipContents : ZipFiles) : M Model :=
  modify (setModelLoadingStage "loading");;
  let* artifacts := lift (snd (ZipIO.load (parse env) zipContents)) in
  lift (modelFromArtifacts env artifacts).

(** Lines 566-591; what saving to the cache throws is caught. *)
Definition zipSource (env : Env) : M Model :=
  let* zipContents := downloadAndExtractModelZip env in
  let* loadedModel := loadLayersModelFromZip env zipContents in
  modify (setModelLoadingStage "caching");;
  ret loadedModel.

(** Lines 594-621. *)
Definition remoteSource (env : Env) : M Model :=
  modify (setModelLoadingStage "loading-from-server");;
  lift (loadRemote env).

(** The message of line 627. *)
Definition mockFallbackMessage : string :=
  "❌ Could not load real model. Using mock model for demonstration only.".

(** Lines 522-628: the sources in order, then the mock model. *)
Definition acquire (env : Env) : M Model :=
  let* m1 :=
    if modelExists env && weightsExist env
    then trySource (localSource env) None else ret None in
  let* m2 := trySource (indexedDBSource env) m1 in
  let* m3 := trySource (localStorageSource env) m2 in
  let* m4 := trySource (zipSource env) m3 in
  let* m5 := trySource (remoteSource env) m4 in
  match m5 with
  | Some loadedModel => ret loadedModel
  | None =>
      let* loadedModel := mockModel env in
      modify (setError mockFallbackMessage);;
      ret loadedModel
  end.

(** Lines 468-725: the [try] block.  Warm-up, summary and validation
    catch what they throw and only write to the console. *)
Definition tryLoadModel (env : Env) : M unit :=
  modify (setIsLoading true);;
  modify (setModelLoadingStage "initializing");;
  lift (tf_ready env);;
  lift (configureBackend env);;
  let* loadedModel :=
    if USE_MOCK_MODEL then mockModel env else acquire env in
  modify (setModelLoadingStage "warming-up");;
  modify (setModelLoadingStage "ready");;
  if predictIsFunction loadedModel
  then modify (setModel loadedModel)
  else throw "Model validation failed - model or predict function not available".

(** Lines 726-747: the [catch] block. *)
Definition recover (env : Env) (message : string) : M unit :=
  modify (setError ("Failed to load model: " +:+ message));;
  modify (setModelLoadingStage "error");;
  if negb USE_MOCK_MODEL then
    tryCatch
      (let* mock := mockModel env in
       if predictIsFunction mock then
         modify (setModel mock);;
         modify (setError
           "Using mock model for demonstration purposes. The actual model failed to load.")
       else
         modify (setError ("Complete failure: " +:+ message
                             +:+ ". Mock model creation also failed.")))
      (fun mockError =>
         modify (setError ("Complete failure: " +:+ message
                             +:+ ". Mock model also failed: " +:+ mockError)))
  else ret tt.

(** Lines 467-751. *)
Definition loadModel (env : Env) (w : World) : World :=
  let '(w, _) := tryCatch (tryLoadModel env) (recover env) w in
  setIsLoading false w.


End Cascade.

(** ** The cached hook (second variant in the source file) *)

Module Cached.

Import Loader.
Local Open Scope loader_scope.

(** Lines 1096-1117, in the case where the [FileReader] callback runs at
    once and [sessionStorage] takes the three items; see
    [SessionWrite.cachedOnload] for the callback on its own. *)
Definition storeModelDataInSession (env : Env) (data : bytes) : M unit :=
  if decide (length data < 10 * 1024 * 1024) then
    modify (setSessionItem "modelZipData" (toBase64 env data));;
    modify (setSessionItem "modelZipTimestamp" (Str.ofZ (now env)));;
    modify (setSessionItem "modelZipVersion" CACHE_KEY)
  else ret tt.

(** Lines 1123-1149. *)
Definition getModelDataFromSession (env : Env) (w : World) : option bytes :=
  let base64data := sessionStorage w !! "modelZipData" in
  let timestamp := sessionStorage w !! "modelZipTimestamp" in
  let version := sessionStorage w !! "modelZipVersion" in
  match base64data, timestamp with
  | Some base64data, Some timestamp =>
      if Str.truthy (Some base64data) && Str.truthy (Some timestamp)
         && bool_decide (version = Some CACHE_KEY)
      then
        if fresh env timestamp (60 * 60 * 1000)
        then match atob env base64data with
             | Ok bytes => Some bytes
             | Throw _ => None
             end
        else None
      else None
  | _, _ => None
  end.

(** Lines 1155-1320. *)
Definition downloadAndExtractModelZip : Env -> M ZipFiles :=
  downloadAndExtractModelZipWith getModelDataFromSession storeModelDataInSession.

End Cached.

(** ** Sample archives *)

Module SampleZip.

(** A descriptor with the groups [a.bin, b.bin] and [./c.bin]. *)
Definition twoGroups : Descriptor.ModelJSON :=
  {| Descriptor.modelTopology := "sequential";
     Descriptor.weightsManifest :=
       [ {| Descriptor.paths := ["a.bin"; "b.bin"]; Descriptor.weights := [] |};
         {| Descriptor.paths := ["./c.bin"]; Descriptor.weights := [] |} ];
     Descriptor.format := Some "layers-model";
     Descriptor.generatedBy := None;
     Descriptor.convertedBy := None |}.

Definition parseTwoGroups (content : bytes) : result Descriptor.ModelJSON :=
  Ok twoGroups.

(** The three weight files under three different layouts. *)
Definition scattered : ZipFiles :=
  [ ("pkg/model.json", [x7b; x7d]);
    ("assets/a.bin", [x01; x01; x01]);
    ("pkg/b.bin", [x02; x02]);
    ("c.bin", [x03]) ].

Definition bytesOf (path : string) : bytes :=
  if String.eqb path "a.bin" then [x01; x01; x01]
  else if String.eqb path "b.bin" then [x02; x02]
  else [x03].

(** An archive with the descriptor and none of the weight files. *)
Definition descriptorOnly : ZipFiles := [ ("model.json", [x7b; x7d]) ].

(** A descriptor with the single path [group1.bin]. *)
Definition oneWeight : Descriptor.ModelJSON :=
  {| Descriptor.modelTopology := "sequential";
     Descriptor.weightsManifest :=
       [ {| Descriptor.paths := ["group1.bin"]; Descriptor.weights := [] |} ];
     Descriptor.format := Some "layers-model";
     Descriptor.generatedBy := None;
     Descriptor.convertedBy := None |}.

Definition parseOneWeight (content : bytes) : result Descriptor.ModelJSON :=
  Ok oneWeight.

End SampleZip.

(** ** Sample environments *)

Module SampleEnv.

Import Loader.

Definition noPredict : list Frame -> option (list float) := fun _ => None.

Definition mock : Model := {| predict := Some noPredict; mockModel := false |}.

(** The server answers 503 to every request, no cache holds a model, and
    the local files are missing. *)
Definition offline : Env :=
  {| now := 1700000000000;
     atob := fun _ => Ok [x50; x4b];
     toBase64 := fun _ => "";
     fetch := fun _ => Ok {| ok := false; status := 503;
                             statusText := "Service Unavailable";
                             body := Ok [] |};
     loadAsync := fun _ => Throw "Corrupted zip: can't find end of central directory";
     parse := fun _ => Throw "Unexpected end of JSON input";
     tf_ready := Ok tt;
     modelExists := false;
     weightsExist := false;
     configureBackend := Ok tt;
     loadLocal := Throw "Request to /models/sign_language_model/model.json failed";
     loadIndexedDB := Throw "Cannot find model in IndexedDB";
     loadLocalStorage := Throw "Cannot find model in localStorage";
     loadRemote := Throw "Failed to fetch";
     modelFromArtifacts := fun _ => Throw "Invalid model artifacts";
     createMockModel := fun _ => Ok mock |}.

(** The same, with an archive that extracts but holds no descriptor. *)
Definition offlineWithArchive : Env :=
  {| now := now offline;
     atob := atob offline;
     toBase64 := toBase64 offline;
     fetch := fetch offline;
     loadAsync := fun _ => Ok [("readme.txt", [x68; x69])];
     parse := parse offline;
     tf_ready := tf_ready offline;
     modelExists := modelExists offline;
     weightsExist := weightsExist offline;
     configureBackend := configureBackend offline;
     loadLocal := loadLocal offline;
     loadIndexedDB := loadIndexedDB offline;
     loadLocalStorage := loadLocalStorage offline;
     loadRemote := loadRemote offline;
     modelFromArtifacts := modelFromArtifacts offline;
     createMockModel := createMockModel offline |}.

(** A session store as the cached hook leaves it. *)
Definition session (timestamp version : string) : gmap string string :=
  <["modelZipData" := "UEs="]>
    (<["modelZipTimestamp" := timestamp]>
       (<["modelZipVersion" := version]> ∅)).

(** Stored five minutes before [now offline], under the current key. *)
Definition freshSession : gmap string string :=
  session "1699999700000" CACHE_KEY.

End SampleEnv.
(** * Further definitions *)

From Stdlib Require DecimalPos.


(** ** Sequences of hook operations *)

Module Ops.

(** What a caller can do with the cascade hook between two renders. *)
Inductive Op :=
| Ingest (landmarkerResult : LandmarkerResult)
| Predict (currentTime : Q) (random1 random2 : float)
| Reset.

Definition step (op : Op) (s : Hook) : Hook :=
  match op with
  | Ingest r => fst (processHandLandmarks r s)
  | Predict t random1 random2 => fst (runPrediction t random1 random2 s)
  | Reset => resetBuffer s
  end.

Definition run (ops : list Op) (s : Hook) : Hook :=
  foldl (fun s op => step op s) s ops.

(** The calls of [runPrediction] among [ops] all read a clock value in the
    200 ms from [t0] on. *)
Definition predictionsWithin (t0 : Q) (ops : list Op) : Prop :=
  forall t random1 random2,
    Predict t random1 random2 ∈ ops -> (t0 <= t)%Q /\ (t < t0 + 200)%Q.

(** The consistency the operations keep between the buffer and the flag. *)
Definition consistent (m : option Model) (s : Hook) : Prop :=
  length (bufferRef s) <= FRAME_BUFFER_SIZE
  /\ isBufferFull s = bool_decide (length (bufferRef s) = FRAME_BUFFER_SIZE)
  /\ classLabels s = DEFAULT_CLASS_LABELS
  /\ model s = m.

(** The same for the simplified hook, whose [runPrediction] takes nothing. *)
Inductive SimplifiedOp :=
| SIngest (landmarkerResult : LandmarkerResult)
| SPredict
| SReset.

Definition simplifiedStep (op : SimplifiedOp) (s : Simplified.Hook) : Simplified.Hook :=
  match op with
  | SIngest r => fst (Simplified.processHandLandmarks r s)
  | SPredict => Simplified.runPrediction s
  | SReset => Simplified.resetBuffer s
  end.

Definition simplifiedRun (ops : list SimplifiedOp) (s : Simplified.Hook)
    : Simplified.Hook :=
  foldl (fun s op => simplifiedStep op s) s ops.

(** The consistency the simplified hook keeps: the mirrored length, the flag,
    the frame width and the idle [isPredicting]. *)
Definition simplifiedConsistent (m : option Simplified.Model) (s : Simplified.Hook)
    : Prop :=
  length (Simplified.bufferRef s) <= FRAME_BUFFER_SIZE
  /\ Simplified.bufferLength s = length (Simplified.bufferRef s)
  /\ Simplified.isBufferFull s
     = bool_decide (length (Simplified.bufferRef s) = FRAME_BUFFER_SIZE)
  /\ Forall (fun frame : Frame => length frame = 126) (Simplified.bufferRef s)
  /\ Simplified.isPredicting s = false
  /\ Simplified.model s = m.

End Ops.

(** ** Reloading the page *)

Module Page.

(** A reload of the page: the state and the refs of the hook start over
    (lines 47-64), the session storage of the tab is kept. *)
Definition reload (w : Loader.World) : Loader.World :=
  Loader.initialWorld (Loader.sessionStorage w).

End Page.

(** ** Requests for the archive *)

(** The requests for the archive so far.  [Loader.fetches] counts the
    calls of [fetch(zipUrl)] in the retried operation of the download
    (line 250) and no other call of [fetch]: not the two of
    [checkModelFile] (line 22, called at lines 479-480 in every load of the
    cascade hook), nor the requests [tf.loadLayersModel] makes for a model
    URL. *)
Definition zipFetches (w : Loader.World) : nat := Loader.fetches w.

(** ** The [FileReader] callback that writes the session cache *)

Module SessionWrite.

Import Loader.
Local Open Scope loader_scope.

(** What [sessionStorage] answers to [setItem(key, value)], given what it
    holds: it takes the item, or throws (a [QuotaExceededError] when there
    is no room for it). *)
Definition Quota : Type := string -> string -> gmap string string -> result unit.

Definition setItem (room : Quota) (key value : string) : M unit :=
  let* session := read sessionStorage in
  lift (room key value session);;
  modify (setSessionItem key value).

(** Lines 140-149: [reader.onload] of the cascade hook.  It runs in a
    task of its own once the blob has been read, with [env] the
    environment of that time; what [setItem] throws is caught there
    (lines 146-148). *)
Definition onload (room : Quota) (env : Env) (data : bytes) : M unit :=
  tryCatch
    (setItem room (CACHE_KEY +:+ "-data") (toBase64 env data);;
     setItem room (CACHE_KEY +:+ "-timestamp") (Str.ofZ (now env)))
    (fun e => ret tt).

(** Lines 1105-1110: [reader.onload] of the cached hook, in which nothing
    catches what [setItem] throws. *)
Definition cachedOnload (room : Quota) (env : Env) (data : bytes) : M unit :=
  setItem room "modelZipData" (toBase64 env data);;
  setItem room "modelZipTimestamp" (Str.ofZ (now env));;
  setItem room "modelZipVersion" CACHE_KEY.

(** Lines 132-155 with the callback.  The call changes nothing by
    itself: for data under 10 MiB it starts a [FileReader], whose callback
    [reader] runs later, on the state of that time; the function gives
    the step from the state the callback finds to the state it leaves. *)
Definition storeModelDataInSession (reader : bytes -> M unit) (data : bytes)
    : M unit :=
  if decide (length data < 10 * 1024 * 1024) then reader data else ret tt.

(** A storage with room for everything. *)
Definition roomy : Quota := fun _ _ _ => Ok tt.

(** A storage that takes no value longer than [limit] characters. *)
Definition upTo (limit : nat) : Quota :=
  fun key value session =>
    if decide (String.length value <= limit) then Ok tt
    else Throw "QuotaExceededError".

End SessionWrite.

(** ** A server that delivers the archive *)

Module SampleServer.

Import Loader.

(** The archive [SampleZip.scattered] arrives in two chunks and loads into
    a model with a working [predict]; no cache holds a model and the local
    files are missing. *)
Definition online : Env :=
  {| now := 1700000000000;
     atob := fun _ => Ok [x50; x4b; x03; x04];
     toBase64 := fun _ => "UEsDBA==";
     fetch := fun _ => Ok {| ok := true; status := 200; statusText := "OK";
                             body := Ok [[x50; x4b]; [x03; x04]] |};
     loadAsync := fun _ => Ok SampleZip.scattered;
     parse := SampleZip.parseTwoGroups;
     tf_ready := Ok tt;
     modelExists := false;
     weightsExist := false;
     configureBackend := Ok tt;
     loadLocal := Throw "Request to /models/sign_language_model/model.json failed";
     loadIndexedDB := Throw "Cannot find model in IndexedDB";
     loadLocalStorage := Throw "Cannot find model in localStorage";
     loadRemote := Throw "Failed to fetch";
     modelFromArtifacts := fun _ => Ok (Sample.constantModel [0.1; 0.9]%float);
     createMockModel := fun _ => Ok SampleEnv.mock |}.

(** The same environment [elapsed] milliseconds later. *)
Definition later (elapsed : Z) (env : Env) : Env :=
  {| now := (now env + elapsed)%Z;
     atob := atob env;
     toBase64 := toBase64 env;
     fetch := fetch env;
     loadAsync := loadAsync env;
     parse := parse env;
     tf_ready := tf_ready env;
     modelExists := modelExists env;
     weightsExist := weightsExist env;
     configureBackend := configureBackend env;
     loadLocal := loadLocal env;
     loadIndexedDB := loadIndexedDB env;
     loadLocalStorage := loadLocalStorage env;
     loadRemote := loadRemote env;
     modelFromArtifacts := modelFromArtifacts env;
     createMockModel := createMockModel env |}.

(** The server delivers an archive that holds no descriptor. *)
Definition wrongArchive : Env :=
  {| now := now online;
     atob := atob online;
     toBase64 := toBase64 online;
     fetch := fetch online;
     loadAsync := fun _ => Ok [("readme.txt", [x68; x69])];
     parse := parse online;
     tf_ready := tf_ready online;
     modelExists := modelExists online;
     weightsExist := weightsExist online;
     configureBackend := configureBackend online;
     loadLocal := loadLocal online;
     loadIndexedDB := loadIndexedDB online;
     loadLocalStorage := loadLocalStorage online;
     loadRemote := loadRemote online;
     modelFromArtifacts := modelFromArtifacts online;
     createMockModel := createMockModel online |}.

(** TensorFlow.js does not start, and no mock model can be built either. *)
Definition noBackend : Env :=
  {| now := now online;
     atob := atob online;
     toBase64 := toBase64 online;
     fetch := fetch online;
     loadAsync := loadAsync online;
     parse := parse online;
     tf_ready := Throw "No backend found in registry";
     modelExists := modelExists online;
     weightsExist := weightsExist online;
     configureBackend := configureBackend online;
     loadLocal := loadLocal online;
     loadIndexedDB := loadIndexedDB online;
     loadLocalStorage := loadLocalStorage online;
     loadRemote := loadRemote online;
     modelFromArtifacts := modelFromArtifacts online;
     createMockModel := fun _ => Throw "No backend found in registry" |}.

(** The model sits in the IndexedDB cache. *)
Definition cached : Env :=
  {| now := now online;
     atob := atob online;
     toBase64 := toBase64 online;
     fetch := fetch online;
     loadAsync := loadAsync online;
     parse := parse online;
     tf_ready := tf_ready online;
     modelExists := modelExists online;
     weightsExist := weightsExist online;
     configureBackend := configureBackend online;
     loadLocal := loadLocal online;
     loadIndexedDB := Ok (Sample.constantModel [0.1; 0.9]%float);
     loadLocalStorage := loadLocalStorage online;
     loadRemote := loadRemote online;
     modelFromArtifacts := modelFromArtifacts online;
     createMockModel := createMockModel online |}.

(** IndexedDB holds an object that loads but has no [predict]. *)
Definition brokenCache : Env :=
  {| now := now online;
     atob := atob online;
     toBase64 := toBase64 online;
     fetch := fetch online;
     loadAsync := loadAsync online;
     parse := parse online;
     tf_ready := tf_ready online;
     modelExists := modelExists online;
     weightsExist := weightsExist online;
     configureBackend := configureBackend online;
     loadLocal := loadLocal online;
     loadIndexedDB := Ok {| predict := None; mockModel := false |};
     loadLocalStorage := loadLocalStorage online;
     loadRemote := loadRemote online;
     modelFromArtifacts := modelFromArtifacts online;
     createMockModel := createMockModel online |}.



End SampleServer.

(** ** What a computation of the loader leaves alone *)

Module Frame.

(** The computation [c] keeps the relation [R] between the world it starts
    in and the world it ends in, whether it returns or throws. *)
Definition preserves (R : Loader.World -> Loader.World -> Prop) {A : Type}
    (c : Loader.M A) : Prop :=
  forall w, R w (fst (c w)).

(** The model is that of [w], and the error is that of [w] or has been set
    to the message of line 627. *)
Definition sameModel (w w' : Loader.World) : Prop :=
  Loader.model w' = Loader.model w
  /\ (Loader.error w' = Loader.error w
      \/ Loader.error w' = Some Cascade.mockFallbackMessage).

(** The model, the error and the count of mock models are those of [w]. *)
Definition untouched (w w' : Loader.World) : Prop :=
  Loader.model w' = Loader.model w
  /\ Loader.error w' = Loader.error w
  /\ Loader.mockModels w' = Loader.mockModels w.

(** The model is that of [w]. *)
Definition modelKept (w w' : Loader.World) : Prop :=
  Loader.model w' = Loader.model w.

End Frame.

(** ** [loadModel] of the simplified hook (lines 1875-1916) *)

Module SimplifiedLoader.

(** The loading state of the simplified hook; [downloadTimer] tells
    whether the interval of line 1884 is running. *)
Record State := {
  model : option Simplified.Model;
  isLoading : bool;
  error : option string;
  modelLoadingStage : string;
  downloadProgress : nat;
  extractionProgress : nat;
  isMockModel : bool;
  downloadTimer : bool
}.

(** Lines 1857-1866. *)
Definition initial : State :=
  {| model := None; isLoading := true; error := None;
     modelLoadingStage := "initializing"; downloadProgress := 0;
     extractionProgress := 0; isMockModel := false; downloadTimer := false |}.

(** Lines 1877-1894: [tf.ready()] has resolved, the progress is set to 10
    and the interval is started. *)
Definition started (s : State) : State :=
  {| model := model s; isLoading := isLoading s; error := error s;
     modelLoadingStage := "downloading"; downloadProgress := 10;
     extractionProgress := extractionProgress s; isMockModel := isMockModel s;
     downloadTimer := true |}.

(** Lines 1884-1893: one firing of the interval, every 200 ms. *)
Definition tick (s : State) : State :=
  if downloadTimer s then
    let newValue := downloadProgress s + 10 in
    if 100 <=? newValue then
      {| model := model s; isLoading := isLoading s; error := error s;
         modelLoadingStage := "loading"; downloadProgress := 100;
         extractionProgress := extractionProgress s;
         isMockModel := isMockModel s; downloadTimer := false |}
    else
      {| model := model s; isLoading := isLoading s; error := error s;
         modelLoadingStage := modelLoadingStage s; downloadProgress := newValue;
         extractionProgress := extractionProgress s;
         isMockModel := isMockModel s; downloadTimer := downloadTimer s |}
  else s.

Fixpoint ticks (n : nat) (s : State) : State :=
  match n with
  | 0 => s
  | S n' => ticks n' (tick s)
  end.

(** Lines 1896-1914: [tf.loadLayersModel(MODEL_PATH)] settles, then the
    [finally] block. *)
Definition settled (loaded : result Simplified.Model) (s : State) : State :=
  match loaded with
  | Ok m =>
      {| model := Some m; isLoading := false; error := error s;
         modelLoadingStage := "ready"; downloadProgress := 100;
         extractionProgress := 100; isMockModel := isMockModel s;
         downloadTimer := downloadTimer s |}
  | Throw message =>
      {| model := model s; isLoading := false;
         error := Some ("Model load failed (using mock data): " +:+ message);
         modelLoadingStage := "ready"; downloadProgress := downloadProgress s;
         extractionProgress := extractionProgress s; isMockModel := true;
         downloadTimer := downloadTimer s |}
  end.

(** Lines 1909-1914: [tf.ready()] has rejected. *)
Definition failed (message : string) (s : State) : State :=
  {| model := model s; isLoading := false;
     error := Some ("Model load failed: " +:+ message);
     modelLoadingStage := "initializing"; downloadProgress := downloadProgress s;
     extractionProgress := extractionProgress s; isMockModel := true;
     downloadTimer := downloadTimer s |}.

(** [loadModel] with the interval firing [ticksBefore] times while the
    load is pending and [ticksAfter] times once it has settled. *)
Definition loadModel (ready : result unit) (loaded : result Simplified.Model)
    (ticksBefore ticksAfter : nat) : State :=
  match ready with
  | Throw message => failed message initial
  | Ok _ => ticks ticksAfter (settled loaded (ticks ticksBefore (started initial)))
  end.

End SimplifiedLoader.

(** ** [loadModel] of the cached hook (lines 1435-1642) *)

Module CachedCascade.

Import Loader.
Local Open Scope loader_scope.

(** Lines 1476-1496: IndexedDB, then localStorage; with neither, the
    block throws its own error. *)
Definition cacheSource (env : Env) : M Model :=
  modify (setModelLoadingStage "loading-from-cache");;
  tryCatch (lift (loadIndexedDB env))
    (fun indexedDBError =>
       tryCatch (lift (loadLocalStorage env))
         (fun localStorageError => throw "No cached model available")).

(** Lines 1501-1560; what saving to the cache throws is caught. *)
Definition zipSource (env : Env) : M Model :=
  let* zipContents := Cached.downloadAndExtractModelZip env in
  let* loadedModel := Cascade.loadLayersModelFromZip env zipContents in
  modify (setModelLoadingStage "caching");;
  ret loadedModel.

(** Lines 1565-1579. *)
Definition remoteSource (env : Env) : M Model :=
  modify (setModelLoadingStage "loading-from-server");;
  lift (loadRemote env).

(** Lines 1584-1588. *)
Definition localSource (env : Env) : M Model :=
  modify (setModelLoadingStage "loading-from-local");;
  lift (loadLocal env).

(** The message of line 1595. *)
Definition mockFallbackMessage : string :=
  "Could not load sign language recognition model. Using a simulated model for demonstration purposes only.".

(** Lines 1475-1599: each source is tried in the [catch] of the one
    before. *)
Definition acquire (env : Env) : M Model :=
  tryCatch (cacheSource env) (fun cacheError =>
    tryCatch (zipSource env) (fun zipError =>
      tryCatch (remoteSource env) (fun remoteError =>
        tryCatch (localSource env) (fun localError =>
          let* loadedModel := Cascade.mockModel env in
          modify (setError mockFallbackMessage);;
          ret loadedModel)))).

(** Lines 1436-1621: the [try] block.  [warmUp] stands for the dummy
    prediction of lines 1606-1613, which nothing catches. *)
Definition tryLoadModel (warmUp : Model -> result unit) (env : Env) : M unit :=
  modify (setIsLoading true);;
  modify (setModelLoadingStage "initializing");;
  lift (tf_ready env);;
  lift (configureBackend env);;
  let* loadedModel :=
    if USE_MOCK_MODEL then Cascade.mockModel env else acquire env in
  modify (setModelLoadingStage "warming-up");;
  lift (warmUp loadedModel);;
  modify (setModelLoadingStage "ready");;
  modify (setModel loadedModel).

(** Lines 1623-1638: the [catch] block. *)
Definition recover (env : Env) (message : string) : M unit :=
  modify (setError ("Failed to load model: " +:+ message));;
  modify (setModelLoadingStage "error");;
  if negb USE_MOCK_MODEL then
    tryCatch
      (let* mock := Cascade.mockModel env in
       modify (setModel mock);;
       modify (setError
         "Using mock model for demonstration purposes. The actual model failed to load."))
      (fun mockError =>
         modify (setError ("Complete failure: " +:+ message
                             +:+ ". Mock model also failed: " +:+ mockError)))
  else ret tt.

(** Lines 1435-1642. *)
Definition loadModel (warmUp : Model -> result unit) (env : Env) (w : World)
    : World :=
  let '(w, _) := tryCatch (tryLoadModel warmUp env) (recover env) w in
  setIsLoading false w.

End CachedCascade.

(** * Verification *)

(** ** The frame buffer *)

Section FrameBufferFacts.

Lemma push_bounded_last (frame : Frame) (buffer : list Frame) :
  length buffer <= FRAME_BUFFER_SIZE ->
  Buffer.push_bounded frame buffer
  = drop (length (buffer ++ [frame]) - FRAME_BUFFER_SIZE) (buffer ++ [frame]).
Proof.
  intros Hlen. unfold Buffer.push_bounded, FRAME_BUFFER_SIZE in *.
  rewrite length_app in *. simpl in *.
  case_decide as Hfull.
  - replace (length buffer + 1 - 30) with 1 by lia. reflexivity.
  - replace (length buffer + 1 - 30) with 0 by lia. reflexivity.
Qed.

Lemma push_bounded_length (frame : Frame) (buffer : list Frame) :
  length buffer <= FRAME_BUFFER_SIZE ->
  length (Buffer.push_bounded frame buffer) <= FRAME_BUFFER_SIZE.
Proof.
  intros Hlen. rewrite push_bounded_last by assumption.
  rewrite length_drop. unfold FRAME_BUFFER_SIZE in *. lia.
Qed.

Lemma ingestAll_buffer (results : list LandmarkerResult) : forall s : Hook,
  length (bufferRef s) <= FRAME_BUFFER_SIZE ->
  let frames := bufferRef s ++ map FrameVector.handLandmarksArray results in
  bufferRef (ingestAll results s) = drop (length frames - FRAME_BUFFER_SIZE) frames.
Proof.
  induction results as [|r results IH]; intros s Hlen; simpl.
  - rewrite app_nil_r.
    replace (length (bufferRef s) - FRAME_BUFFER_SIZE) with 0 by lia.
    reflexivity.
  - unfold ingestAll in *. simpl.
    rewrite IH; simpl.
    + rewrite push_bounded_last by assumption.
      set (f := FrameVector.handLandmarksArray r).
      set (fs := map FrameVector.handLandmarksArray results).
      rewrite (cons_middle f (bufferRef s) fs), app_assoc.
      set (b := bufferRef s ++ [f]).
      assert (Hb : length b - FRAME_BUFFER_SIZE <= length b) by lia.
      rewrite !length_app, length_drop.
      rewrite <- (drop_app_le b fs _ Hb).
      rewrite drop_drop. f_equal. lia.
    + apply push_bounded_length; assumption.
Qed.

End FrameBufferFacts.

(** C1.  From the initial hook state, after any sequence of calls of
    [processHandLandmarks] the frame buffer holds at most
    [FRAME_BUFFER_SIZE] = 30 frame vectors, and it is exactly the last 30
    ingested frame vectors (all of them while fewer than 30 were ingested),
    in insertion order: the oldest frame is the one evicted. *)
Theorem frame_buffer_fifo (m : option Model) (results : list LandmarkerResult) :
  let frames := map FrameVector.handLandmarksArray results in
  let s := ingestAll results (initialHook m) in
  length (bufferRef s) <= FRAME_BUFFER_SIZE
  /\ length (bufferRef s) = Nat.min (length results) FRAME_BUFFER_SIZE
  /\ bufferRef s = drop (length results - FRAME_BUFFER_SIZE) frames.
Proof.
  intros frames s.
  assert (Hbuf : bufferRef s = drop (length results - FRAME_BUFFER_SIZE) frames).
  { subst s frames. rewrite ingestAll_buffer by (simpl; lia).
    simpl. rewrite length_map. reflexivity. }
  rewrite Hbuf, length_drop. subst frames. rewrite length_map.
  repeat split; unfold FRAME_BUFFER_SIZE; lia.
Qed.

(** ** Frame vectors *)

Section FrameVectorFacts.

Lemma array_set_in_range (i : nat) (v : float) (arr : list float) :
  i < length arr -> JS.array_set i v arr = <[i:=v]> arr.
Proof. intros Hi. unfold JS.array_set. case_decide; [reflexivity | lia]. Qed.

(** One landmark written inside the array: three slots change. *)
Lemma storeLandmark_in_range (h l : nat) (lm : Landmark.t) (arr : Frame) :
  h * 63 + l * 3 + 2 < length arr ->
  length (FrameVector.storeLandmark h lm l arr) = length arr
  /\ (forall c, c < 3 ->
        FrameVector.storeLandmark h lm l arr !! (h * 63 + l * 3 + c)
        = Some (coordinate c lm))
  /\ (forall j, j < h * 63 + l * 3 \/ h * 63 + l * 3 + 3 <= j ->
        FrameVector.storeLandmark h lm l arr !! j = arr !! j).
Proof.
  intros Hin. unfold FrameVector.storeLandmark. cbv zeta.
  rewrite (array_set_in_range (h * 63 + l * 3)) by lia.
  rewrite (array_set_in_range (h * 63 + l * 3 + 1)) by (rewrite length_insert; lia).
  rewrite (array_set_in_range (h * 63 + l * 3 + 2)) by (rewrite !length_insert; lia).
  split; [by rewrite !length_insert|]. split.
  - intros c Hc.
    destruct c as [|[|[|c]]]; [| | |lia]; cbn [coordinate]; rewrite ?Nat.add_0_r.
    + rewrite !list_lookup_insert_ne by lia.
      apply list_lookup_insert_eq. lia.
    + rewrite list_lookup_insert_ne by lia.
      apply list_lookup_insert_eq. rewrite length_insert. lia.
    + apply list_lookup_insert_eq. rewrite !length_insert. lia.
  - intros j Hj. rewrite !list_lookup_insert_ne by lia. reflexivity.
Qed.



Lemma slotValue_hand (hands : list Hand) (h l c : nat) (hand : Hand) :
  hands !! h = Some hand ->
  slotValue hands h l c = default 0%float (coordinate c <$> hand !! l).
Proof. intros Hh. unfold slotValue. rewrite Hh. simpl. by destruct (hand !! l). Qed.

Lemma slotValue_no_hand (hands : list Hand) (h l c : nat) :
  hands !! h = None -> slotValue hands h l c = 0%float.
Proof. intros Hh. unfold slotValue. by rewrite Hh. Qed.



(** The inner loop of the simplified hook over landmark slots [k .. k+n-1]. *)
Lemma for_range_storeSlot (h : nat) (hand : Hand) (n : nat) :
  forall (k : nat) (arr : Frame),
  h * 63 + (k + n) * 3 <= length arr ->
  let res := JS.for_range (Simplified.storeSlot h hand) k n arr in
  length res = length arr
  /\ (forall l c, c < 3 -> k <= l < k + n ->
        res !! (h * 63 + l * 3 + c)
        = match hand !! l with
          | Some lm => Some (coordinate c lm)
          | None => arr !! (h * 63 + l * 3 + c)
          end)
  /\ (forall j, j < h * 63 + k * 3 \/ h * 63 + (k + n) * 3 <= j ->
        res !! j = arr !! j).
Proof.
  induction n as [|n IH]; intros k arr Hfit; cbn [JS.for_range]; cbv zeta.
  - split; [reflexivity|]. split; [intros; lia | reflexivity].
  - set (arr1 := Simplified.storeSlot h hand k arr).
    assert (H1 : length arr1 = length arr
                 /\ (forall c, c < 3 ->
                       arr1 !! (h * 63 + k * 3 + c)
                       = match hand !! k with
                         | Some lm => Some (coordinate c lm)
                         | None => arr !! (h * 63 + k * 3 + c)
                         end)
                 /\ (forall j, j < h * 63 + k * 3 \/ h * 63 + k * 3 + 3 <= j ->
                       arr1 !! j = arr !! j)).
    { subst arr1. unfold Simplified.storeSlot. cbv zeta.
      destruct (hand !! k) as [lm|]; [|done].
      apply (storeLandmark_in_range h k lm arr). lia. }
    destruct H1 as (Hlen1 & Hin1 & Hout1).
    destruct (IH (S k) arr1) as (Hlen & Hin & Hout); [rewrite Hlen1; lia|].
    split; [congruence|]. split.
    + intros l c Hc Hl. destruct (decide (l = k)) as [->|Hne].
      * rewrite Hout by lia. by apply Hin1.
      * rewrite Hin by lia. destruct (hand !! l); [reflexivity|].
        apply Hout1. lia.
    + intros j Hj. rewrite Hout by lia. apply Hout1. lia.
Qed.

Lemma simplified_storeHand_slots (hands : list Hand) (h : nat) (hand : Hand)
    (arr : Frame) :
  h < 2 -> hands !! h = Some hand -> length arr = 126 ->
  (forall l c, l < 21 -> c < 3 -> arr !! (h * 63 + l * 3 + c) = Some 0%float) ->
  let res := Simplified.storeHand hands h arr in
  length res = 126
  /\ (forall l c, l < 21 -> c < 3 ->
        res !! (h * 63 + l * 3 + c)
        = Some (default 0%float (coordinate c <$> hand !! l)))
  /\ (forall j, j < h * 63 \/ h * 63 + 63 <= j -> res !! j = arr !! j).
Proof.
  intros Hh Hhand Harr Hzero. unfold Simplified.storeHand. rewrite Hhand.
  destruct (for_range_storeSlot h hand 21 0 arr) as (Hl & Hin & Hout); [lia|].
  cbv zeta. split; [lia|]. split.
  - intros l c Hl21 Hc. rewrite Hin by lia.
    destruct (hand !! l); [reflexivity|]. by apply Hzero.
  - intros j Hj. apply Hout. lia.
Qed.

(** The simplified hook's frame, slot by slot; no assumption on the hands. *)
Lemma frameOf_slots (r : LandmarkerResult) :
  let hands := default [] (landmarks r) in
  let frame := Simplified.frameOf r in
  length frame = 126
  /\ forall h l c, h < 2 -> l < 21 -> c < 3 ->
       frame !! (h * 63 + l * 3 + c) = Some (slotValue hands h l c).
Proof.
  unfold Simplified.frameOf. cbv zeta.
  set (hands := default [] (landmarks r)).
  set (zeros := replicate 126 0%float).
  assert (Hz : length zeros = 126) by apply length_replicate.
  assert (Hz0 : forall j, j < 126 -> zeros !! j = Some 0%float).
  { intros j Hj. apply lookup_replicate_2. assumption. }
  destruct hands as [|h0 rest] eqn:Hhands; cbn [length Nat.min JS.for_range].
  { split; [assumption|]. intros h l c Hh Hl Hc.
    rewrite slotValue_no_hand by apply lookup_nil. apply Hz0. lia. }
  destruct (simplified_storeHand_slots (h0 :: rest) 0 h0 zeros)
    as (Hlen0 & Hin0 & Hout0);
    [lia | reflexivity | assumption | intros; apply Hz0; lia |].
  set (arr0 := Simplified.storeHand (h0 :: rest) 0 zeros) in *.
  destruct rest as [|h1 rest]; cbn [length Nat.min JS.for_range].
  { split; [assumption|]. intros h l c Hh Hl Hc.
    destruct h as [|[|h]]; [| |lia].
    - rewrite (slotValue_hand _ 0 l c h0) by reflexivity. by apply Hin0.
    - rewrite slotValue_no_hand by reflexivity.
      rewrite Hout0 by lia. apply Hz0. lia. }
  rewrite Nat.min_0_r. cbn [JS.for_range].
  destruct (simplified_storeHand_slots (h0 :: h1 :: rest) 1 h1 arr0)
    as (Hlen1 & Hin1 & Hout1);
    [lia | reflexivity | assumption
    | intros; rewrite Hout0 by lia; apply Hz0; lia |].
  split; [assumption|]. intros h l c Hh Hl Hc.
  destruct h as [|[|h]]; [| |lia].
  - rewrite (slotValue_hand _ 0 l c h0) by reflexivity.
    rewrite Hout1 by lia. by apply Hin0.
  - rewrite (slotValue_hand _ 1 l c h1) by reflexivity. by apply Hin1.
Qed.



End FrameVectorFacts.

(** Past 21 landmarks the cascade hook writes on: a 22nd landmark of the
    second hand lands at index 126 and the frame grows to 129 slots, which
    is why the slot layout is stated for hands of at most 21 landmarks. *)
Remark overlong_hand_grows_frame :
  let lm := {| Landmark.x := 0.5%float; Landmark.y := 0.5%float;
               Landmark.z := 0.5%float |} in
  length (FrameVector.handLandmarksArray
            {| landmarks := Some [[]; replicate 22 lm] |}) = 129
  /\ length (Simplified.frameOf {| landmarks := Some [[]; replicate 22 lm] |}) = 126.
Proof. split; reflexivity. Qed.



(** ** The predictor *)

Section PredictorFacts.

Local Ltac frame_solve :=
  repeat split; first [reflexivity | assumption | congruence | lia].

Lemma Qltb_true (a b : Q) : Num.Qltb a b = true <-> (a < b)%Q.
Proof.
  unfold Num.Qltb. rewrite negb_true_iff. split.
  - intros H. apply Qnot_le_lt. intros Hle.
    apply Qle_bool_iff in Hle. congruence.
  - intros H. destruct (Qle_bool b a) eqn:E; [|reflexivity].
    apply Qle_bool_iff in E. exfalso. apply (Qlt_not_le _ _ H E).
Qed.

Lemma Qltb_false (a b : Q) : Num.Qltb a b = false <-> (b <= a)%Q.
Proof.
  unfold Num.Qltb. rewrite negb_false_iff. apply Qle_bool_iff.
Qed.

(** What a call of [runPrediction] leaves alone, and how far it can move
    the counters. *)
Lemma infer_frame (f : list Frame -> option (list float)) (s : Hook) :
  let s' := fst (Predictor.infer f s) in
  model s' = model s /\ isBufferFull s' = isBufferFull s
  /\ bufferRef s' = bufferRef s /\ classLabels s' = classLabels s
  /\ prediction s' = prediction s
  /\ lastPredictionTimeRef s' = lastPredictionTimeRef s
  /\ predictCalls s <= predictCalls s' <= S (predictCalls s).
Proof.
  unfold Predictor.infer. destruct (negb _); simpl; [frame_solve|].
  destruct (f (bufferRef s)) as [[|v arr]|]; simpl; frame_solve.
Qed.

Lemma gate_frame (res : option string * float) (s : Hook) :
  let s' := fst (Predictor.gate res s) in
  model s' = model s /\ isBufferFull s' = isBufferFull s
  /\ bufferRef s' = bufferRef s /\ classLabels s' = classLabels s
  /\ lastPredictionTimeRef s' = lastPredictionTimeRef s
  /\ predictCalls s' = predictCalls s.
Proof.
  unfold Predictor.gate. destruct res as [lbl conf].
  destruct (PrimFloat.leb _ _); simpl; repeat split.
Qed.

Lemma runPrediction_frame (t : Q) (r1 r2 : float) (s : Hook) :
  let s' := fst (runPrediction t r1 r2 s) in
  model s' = model s /\ isBufferFull s' = isBufferFull s
  /\ bufferRef s' = bufferRef s /\ classLabels s' = classLabels s
  /\ predictCalls s <= predictCalls s' <= S (predictCalls s).
Proof.
  unfold runPrediction.
  destruct (model s) as [m|] eqn:Hm; simpl; [|frame_solve].
  destruct (isBufferFull s) eqn:Hfull; simpl; [|frame_solve].
  destruct (predict m) as [f|]; simpl; [|frame_solve].
  destruct (Predictor.throttled t s); simpl; [frame_solve|].
  destruct (_ && _); simpl; [frame_solve|].
  set (s0 := set_lastPredictionTime t s).
  pose proof (infer_frame f s0) as Hi.
  destruct (Predictor.infer f s0) as [s1 [res|]]; simpl in *.
  - pose proof (gate_frame res s1) as Hg.
    destruct (Predictor.gate res s1) as [s2 out]; simpl in *.
    destruct Hi as (? & ? & ? & ? & _ & _ & Hc).
    destruct Hg as (? & ? & ? & ? & _ & ?).
    frame_solve.
  - destruct Hi as (? & ? & ? & ? & _ & _ & Hc).
    frame_solve.
Qed.

(** A call that gets past the throttle records its own time stamp. *)
Lemma runPrediction_stamps (t : Q) (r1 r2 : float) (s : Hook) (m : Model)
    (f : list Frame -> option (list float)) :
  model s = Some m -> isBufferFull s = true -> predict m = Some f ->
  Predictor.throttled t s = false ->
  lastPredictionTimeRef (fst (runPrediction t r1 r2 s)) = t.
Proof.
  intros Hm Hfull Hf Hgate. unfold runPrediction.
  rewrite Hm, Hfull, Hf, Hgate. simpl.
  destruct (_ && _); simpl; [reflexivity|].
  set (s0 := set_lastPredictionTime t s).
  pose proof (infer_frame f s0) as Hi.
  destruct (Predictor.infer f s0) as [s1 [res|]]; simpl in *.
  - pose proof (gate_frame res s1) as Hg.
    destruct (Predictor.gate res s1) as [s2 out]; simpl in *.
    destruct Hi as (_ & _ & _ & _ & _ & Ht & _).
    destruct Hg as (_ & _ & _ & _ & -> & _). exact Ht.
  - destruct Hi as (_ & _ & _ & _ & _ & Ht & _). exact Ht.
Qed.

(** A throttled call returns nothing and touches nothing. *)
Lemma runPrediction_throttled (t : Q) (r1 r2 : float) (s : Hook) :
  Predictor.throttled t s = true ->
  runPrediction t r1 r2 s = (s, None).
Proof.
  intros Hgate. unfold runPrediction.
  destruct (model s) as [m|]; [|reflexivity].
  destruct (negb (isBufferFull s)); [reflexivity|].
  destruct (predict m); [|reflexivity]. by rewrite Hgate.
Qed.

End PredictorFacts.

(** C4 (as amended).  Of two calls of [runPrediction] less than 200 ms apart,
    with a loaded model and a full buffer, at most one runs the inference;
    and when the first of the two got past the throttle, the second returns
    nothing and leaves the whole state, the stored prediction included, as
    it was. *)
Theorem prediction_throttle (s : Hook) (m : Model)
    (f : list Frame -> option (list float)) (t1 t2 : Q) (a1 a2 b1 b2 : float) :
  model s = Some m -> predict m = Some f -> isBufferFull s = true ->
  (t2 - t1 < 200)%Q ->
  let s1 := fst (runPrediction t1 a1 a2 s) in
  let second := runPrediction t2 b1 b2 s1 in
  predictCalls (fst second) <= S (predictCalls s)
  /\ (Predictor.throttled t1 s = false -> second = (s1, None)).
Proof.
  intros Hm Hf Hfull Hnear s1 second.
  destruct (Predictor.throttled t1 s) eqn:Hgate.
  - assert (Hs1 : s1 = s).
    { subst s1. by rewrite runPrediction_throttled. }
    split; [|discriminate].
    subst second. rewrite Hs1.
    pose proof (runPrediction_frame t2 b1 b2 s) as (_ & _ & _ & _ & Hc).
    lia.
  - assert (Hlast : lastPredictionTimeRef s1 = t1).
    { subst s1. by apply (runPrediction_stamps t1 a1 a2 s m f). }
    assert (Hsecond : second = (s1, None)).
    { subst second. apply runPrediction_throttled.
      unfold Predictor.throttled. rewrite Hlast. by apply Qltb_true. }
    split; [|by intros _].
    rewrite Hsecond. simpl. subst s1.
    pose proof (runPrediction_frame t1 a1 a2 s) as (_ & _ & _ & _ & Hc).
    lia.
Qed.

Lemma prediction_throttle_witness :
  let s := Sample.fullHook [0.1; 0.9]%float in
  let s1 := fst (runPrediction 1000 0 0 s) in
  Predictor.throttled 1000 s = false
  /\ runPrediction 1150 0 0 s1 = (s1, None).
Proof.
  intros s s1. split; [reflexivity|].
  refine (proj2 (prediction_throttle s (Sample.constantModel [0.1; 0.9]%float)
                   (fun _ => Some [0.1; 0.9]%float) 1000 1150 0 0 0 0
                   eq_refl eq_refl eq_refl _) eq_refl).
  reflexivity.
Defined.

(** C4 as stated fails: calls at 1000 ms (runs), 1150 ms (throttled) and
    1250 ms.  The last two are 100 ms apart, the buffer is full and the model
    loaded, yet the last one runs the inference and returns a prediction. *)
Lemma prediction_throttle_counterexample :
  let s := Sample.fullHook [0.1; 0.9]%float in
  let s1 := fst (runPrediction 1000 0 0 s) in
  let '(s2, o2) := runPrediction 1150 0 0 s1 in
  let '(s3, o3) := runPrediction 1250 0 0 s2 in
  (1250 - 1150 < 200)%Q
  /\ isBufferFull s2 = true /\ is_Some (model s2)
  /\ o2 = None
  /\ o3 = Some {| label := Some "Thank you"%string; confidence := 0.9%float;
                  isMock := false |}
  /\ predictCalls s3 = S (predictCalls s2).
Proof.
  vm_compute. repeat split; eauto.
Qed.

Section GateFacts.

(** [runPrediction] of the cascade hook once the inference answered. *)
Lemma runPrediction_inferred (s : Hook) (m : Model)
    (f : list Frame -> option (list float)) (t : Q) (r1 r2 : float)
    (v : float) (arr : list float) :
  model s = Some m -> predict m = Some f -> mockModel m = false ->
  isBufferFull s = true -> length (bufferRef s) = FRAME_BUFFER_SIZE ->
  Predictor.throttled t s = false ->
  f (bufferRef s) = Some (v :: arr) ->
  runPrediction t r1 r2 s
  = Predictor.gate (Predictor.selectLabel (v :: arr) (classLabels s))
      (count_predict (set_lastPredictionTime t s)).
Proof.
  intros Hm Hf Hmock Hfull Hlen Hgate Hout. unfold runPrediction.
  rewrite Hm, Hfull, Hf, Hgate, Hmock. simpl.
  unfold Predictor.infer. simpl. rewrite Hlen, Hout.
  rewrite bool_decide_eq_true_2 by reflexivity. reflexivity.
Qed.

(** The [try] block of the simplified hook once the inference answered. *)
Lemma simplified_runPrediction_inferred (s : Simplified.Hook)
    (m : Simplified.Model) (f : list Frame -> result (list float))
    (data : list float) :
  Simplified.model s = Some m -> Simplified.predict m = Some f ->
  Simplified.isBufferFull s = true ->
  length (Simplified.bufferRef s) = FRAME_BUFFER_SIZE ->
  Forall (fun frame => length frame = 126) (Simplified.bufferRef s) ->
  f (Simplified.bufferRef s) = Ok data ->
  let '(max, idx) := Predictor.argmax data in
  Simplified.prediction (Simplified.runPrediction s)
  = Some {| Simplified.label :=
              if PrimFloat.leb CONFIDENCE_THRESHOLD max
              then Simplified.labelOf m idx else "No confident prediction";
            Simplified.confidence := max |}.
Proof.
  intros Hm Hf Hfull Hlen Hframes Hout.
  destruct (Predictor.argmax data) as [max idx] eqn:Hmax.
  unfold Simplified.runPrediction. rewrite Hm, Hfull. simpl.
  unfold Simplified.tryPredict. simpl. rewrite Hlen.
  rewrite bool_decide_eq_true_2 by reflexivity. simpl.
  assert (Hfind : List.find (fun frame => negb (bool_decide (length frame = 126)))
                    (Simplified.bufferRef s) = None).
  { clear Hlen Hout. induction Hframes as [|fr frs Hfr _ IH]; simpl; [reflexivity|].
    rewrite bool_decide_eq_true_2 by assumption. exact IH. }
  rewrite Hfind, Hf, Hout, Hmax.
  destruct (PrimFloat.leb CONFIDENCE_THRESHOLD max); reflexivity.
Qed.

(** The arg-max loop starts from 0 and only ever stores an element of the
    array: over float32 values its maximum is a float32 value. *)
Lemma argmax_representable (data : list float) :
  Forall (fun v => Float32.representable v = true) data ->
  Float32.representable (fst (Predictor.argmax data)) = true.
Proof.
  unfold Predictor.argmax, JS.forEach.
  assert (Hzero : Float32.representable (fst (0%float, 0)) = true) by reflexivity.
  revert Hzero. generalize (0%float, 0) as acc. generalize 0 as i.
  intros i acc Hacc Hdata. revert i acc Hacc.
  induction Hdata as [|v rest Hv _ IH]; intros i acc Hacc; simpl; [exact Hacc|].
  apply IH. unfold Predictor.argmax_step.
  destruct (PrimFloat.ltb (fst acc) v); [exact Hv | exact Hacc].
Qed.

(** The double 0.7 is no float32 value: what is read from a
    [Float32Array] never equals the threshold. *)
Lemma representable_off_threshold (x : float) :
  Float32.representable x = true ->
  PrimFloat.eqb x CONFIDENCE_THRESHOLD = false.
Proof.
  intros Hrep. destruct (PrimFloat.eqb x CONFIDENCE_THRESHOLD) eqn:Heq; [|reflexivity].
  exfalso. rewrite FloatAxioms.eqb_spec in Heq.
  assert (Hx : Prim2SF x = Prim2SF CONFIDENCE_THRESHOLD).
  { assert (Ht : Prim2SF CONFIDENCE_THRESHOLD
                 = S754_finite false 6305039478318694 (-53)) by reflexivity.
    rewrite Ht in *. unfold SFeqb, SFcompare in Heq.
    destruct (Prim2SF x) as [sx|sx| |sx mx ex]; try discriminate.
    - by destruct sx.
    - destruct sx; [discriminate|].
      destruct (Z.compare_spec ex (-53)) as [He|He|He]; try discriminate.
      destruct (Pos.compare_cont Eq mx 6305039478318694) eqn:Hm; try discriminate.
      apply Pos.compare_eq in Hm. by subst. }
  apply Prim2SF_inj in Hx. subst x. vm_compute in Hrep. discriminate.
Qed.

End GateFacts.

(** C3 (as amended).  In the cascade hook, a prediction cycle whose
    inference answered emits a prediction, and stores it as the one shown,
    exactly when the arg-max confidence is at least [CONFIDENCE_THRESHOLD],
    the double 0.7; below the threshold it returns nothing and the stored
    prediction stays as it was.  In the simplified hook a cycle whose
    inference answered always overwrites the stored prediction: with the
    arg-max class when the confidence is at least the threshold, and
    otherwise with the placeholder labelled "No confident prediction" that
    carries the low confidence.  The confidences are read from a
    [Float32Array] and are never equal to the threshold: an output of 0.69
    is below it, an output of 0.70 is read as the float32 nearest to it,
    0x3f333333 = 0.699999988..., which is below it as well, and the next
    float32, 0x3f333334 = 0.700000047..., passes. *)
Theorem confidence_gate (data : list float) :
  data <> [] ->
  Forall (fun v => Float32.representable v = true) data ->
  let '(maxProb, maxIndex) := Predictor.argmax data in
  let passes := PrimFloat.leb CONFIDENCE_THRESHOLD maxProb in
  (forall (s : Hook) (m : Model) (f : list Frame -> option (list float))
          (t : Q) (r1 r2 : float),
      model s = Some m -> predict m = Some f -> mockModel m = false ->
      isBufferFull s = true -> length (bufferRef s) = FRAME_BUFFER_SIZE ->
      Predictor.throttled t s = false -> f (bufferRef s) = Some data ->
      let run := runPrediction t r1 r2 s in
      (passes = true ->
         let p := {| label := JS.index (classLabels s)
                                (Predictor.safeIndex maxIndex (classLabels s));
                     confidence := maxProb; isMock := false |} in
         snd run = Some p /\ prediction (fst run) = Some p)
      /\ (passes = false ->
            snd run = None /\ prediction (fst run) = prediction s))
  /\ (forall (s : Simplified.Hook) (m : Simplified.Model)
             (f : list Frame -> result (list float)),
      Simplified.model s = Some m -> Simplified.predict m = Some f ->
      Simplified.isBufferFull s = true ->
      length (Simplified.bufferRef s) = FRAME_BUFFER_SIZE ->
      Forall (fun frame => length frame = 126) (Simplified.bufferRef s) ->
      f (Simplified.bufferRef s) = Ok data ->
      Simplified.prediction (Simplified.runPrediction s)
      = Some {| Simplified.label :=
                  if passes then Simplified.labelOf m maxIndex
                  else "No confident prediction";
                Simplified.confidence := maxProb |})
  /\ PrimFloat.eqb maxProb CONFIDENCE_THRESHOLD = false
  /\ PrimFloat.leb CONFIDENCE_THRESHOLD (Float32.fround 0.69) = false
  /\ Float32.fround 0.7 = Float32.ofBits 0x3f333333
  /\ PrimFloat.leb CONFIDENCE_THRESHOLD (Float32.ofBits 0x3f333333) = false
  /\ PrimFloat.leb CONFIDENCE_THRESHOLD (Float32.ofBits 0x3f333334) = true.
Proof.
  intros Hdata Hfloat32. destruct data as [|v arr]; [done|].
  pose proof (argmax_representable (v :: arr) Hfloat32) as Hrep.
  destruct (Predictor.argmax (v :: arr)) as [maxProb maxIndex] eqn:Hmax.
  cbv zeta. split; [|split; [|split; [|repeat split; reflexivity]]].
  - intros s m f t r1 r2 Hm Hf Hmock Hfull Hlen Hgate Hout.
    rewrite (runPrediction_inferred s m f t r1 r2 v arr) by assumption.
    unfold Predictor.selectLabel. rewrite Hmax. unfold Predictor.gate.
    destruct (PrimFloat.leb CONFIDENCE_THRESHOLD maxProb); simpl.
    + split; [by intros _ | discriminate].
    + split; [discriminate | by intros _].
  - intros s m f Hm Hf Hfull Hlen Hframes Hout.
    pose proof (simplified_runPrediction_inferred s m f (v :: arr)
                  Hm Hf Hfull Hlen Hframes Hout) as H.
    rewrite Hmax in H. exact H.
  - by apply representable_off_threshold.
Qed.

Lemma confidence_gate_witness :
  let low := Sample.fullHook (Float32.array [0.31; 0.69]%float) in
  let edge := Sample.fullHook (Float32.array [0.3; 0.7]%float) in
  let high := Sample.fullHook [Float32.fround 0.3; Float32.ofBits 0x3f333334] in
  (snd (runPrediction 1000 0 0 low) = None
   /\ prediction (fst (runPrediction 1000 0 0 low)) = prediction low)
  /\ (snd (runPrediction 1000 0 0 edge) = None
      /\ prediction (fst (runPrediction 1000 0 0 edge)) = prediction edge)
  /\ snd (runPrediction 1000 0 0 high)
     = Some {| label := Some "Thank you"%string;
               confidence := Float32.ofBits 0x3f333334; isMock := false |}.
Proof.
  intros low edge high.
  assert (Hlow : Forall (fun v => Float32.representable v = true)
                   (Float32.array [0.31; 0.69]%float))
    by (repeat constructor).
  assert (Hedge : Forall (fun v => Float32.representable v = true)
                    (Float32.array [0.3; 0.7]%float))
    by (repeat constructor).
  assert (Hhigh : Forall (fun v => Float32.representable v = true)
                    [Float32.fround 0.3; Float32.ofBits 0x3f333334])
    by (repeat constructor).
  split; [|split].
  - pose proof (confidence_gate (Float32.array [0.31; 0.69]%float)
                  ltac:(discriminate) Hlow) as H.
    cbv zeta iota beta in H. destruct H as (Hcascade & _).
    exact (proj2 (Hcascade low
                    (Sample.constantModel (Float32.array [0.31; 0.69]%float))
                    (fun _ => Some (Float32.array [0.31; 0.69]%float))
                    1000%Q 0%float 0%float
                    eq_refl eq_refl eq_refl eq_refl eq_refl eq_refl eq_refl)
                 eq_refl).
  - pose proof (confidence_gate (Float32.array [0.3; 0.7]%float)
                  ltac:(discriminate) Hedge) as H.
    cbv zeta iota beta in H. destruct H as (Hcascade & _).
    exact (proj2 (Hcascade edge
                    (Sample.constantModel (Float32.array [0.3; 0.7]%float))
                    (fun _ => Some (Float32.array [0.3; 0.7]%float))
                    1000%Q 0%float 0%float
                    eq_refl eq_refl eq_refl eq_refl eq_refl eq_refl eq_refl)
                 eq_refl).
  - pose proof (confidence_gate [Float32.fround 0.3; Float32.ofBits 0x3f333334]
                  ltac:(discriminate) Hhigh) as H.
    cbv zeta iota beta in H. destruct H as (Hcascade & _).
    exact (proj1 (proj1 (Hcascade high
                    (Sample.constantModel
                       [Float32.fround 0.3; Float32.ofBits 0x3f333334])
                    (fun _ => Some [Float32.fround 0.3; Float32.ofBits 0x3f333334])
                    1000%Q 0%float 0%float
                    eq_refl eq_refl eq_refl eq_refl eq_refl eq_refl eq_refl)
                 eq_refl)).
Defined.

(** C3 as stated fails twice.  In the simplified hook, with 0.69 as the
    arg-max confidence the stored prediction does not stay as it was, it
    becomes the placeholder labelled "No confident prediction".  In the
    cascade hook, a cycle whose model puts out 0.70 reads 0x3f333333 from
    the [Float32Array], which is below the double 0.7: nothing is emitted. *)
Lemma confidence_gate_counterexample :
  let s := Sample.simplifiedFullHook (Float32.array [0.31; 0.69]%float) in
  let edge := Sample.fullHook (Float32.array [0.3; 0.7]%float) in
  fst (Predictor.argmax (Float32.array [0.31; 0.69]%float)) = Float32.fround 0.69
  /\ Simplified.prediction s
     = Some {| Simplified.label := "class_1"; Simplified.confidence := 0.9%float |}
  /\ Simplified.prediction (Simplified.runPrediction s)
     = Some {| Simplified.label := "No confident prediction";
               Simplified.confidence := Float32.fround 0.69 |}
  /\ Simplified.prediction (Simplified.runPrediction s) <> Simplified.prediction s
  /\ fst (Predictor.argmax (Float32.array [0.3; 0.7]%float)) = Float32.fround 0.7
  /\ Float32.fround 0.7 = 0x1.666666p-1%float
  /\ isBufferFull edge = true
  /\ snd (runPrediction 1000 0 0 edge) = None.
Proof.
  vm_compute. repeat split. discriminate.
Qed.

(** C10.  With a label list that is not empty (the hook's is the twenty
    [DEFAULT_CLASS_LABELS]), the index used on [classLabels] is the arg-max
    index clamped to [classLabels.length - 1]: it lies inside the list, so
    the label read is never [undefined]; it is the label of the arg-max class
    when that class has one, and the last label when the arg-max index lies
    past the label list (an output vector longer than the label set). *)
Theorem label_index_clamped (predictionArray : list float) (labels : list string) :
  labels <> [] ->
  let maxIndex := snd (Predictor.argmax predictionArray) in
  let safeIndex := Predictor.safeIndex maxIndex labels in
  (0 <= safeIndex <= Z.of_nat (length labels) - 1)%Z
  /\ safeIndex = Z.min (Z.of_nat maxIndex) (Z.of_nat (length labels) - 1)
  /\ fst (Predictor.selectLabel predictionArray labels) = JS.index labels safeIndex
  /\ is_Some (JS.index labels safeIndex)
  /\ (maxIndex < length labels -> JS.index labels safeIndex = labels !! maxIndex)
  /\ (length labels <= maxIndex -> JS.index labels safeIndex = last labels).
Proof.
  intros Hne maxIndex safeIndex.
  assert (Hpos : 0 < length labels) by (destruct labels; [done | simpl; lia]).
  assert (Hrange : (0 <= safeIndex <= Z.of_nat (length labels) - 1)%Z).
  { subst safeIndex. unfold Predictor.safeIndex. lia. }
  assert (Hidx : JS.index labels safeIndex = labels !! Z.to_nat safeIndex).
  { unfold JS.index. destruct (safeIndex <? 0)%Z eqn:E; [lia | reflexivity]. }
  split; [exact Hrange|]. split; [reflexivity|]. split; [|split; [|split]].
  - unfold Predictor.selectLabel. subst safeIndex maxIndex.
    by destruct (Predictor.argmax predictionArray).
  - rewrite Hidx. apply lookup_lt_is_Some_2. lia.
  - intros Hin. rewrite Hidx. f_equal.
    subst safeIndex. unfold Predictor.safeIndex. lia.
  - intros Hout. rewrite Hidx, last_lookup. f_equal.
    subst safeIndex. unfold Predictor.safeIndex. lia.
Qed.

Lemma label_index_clamped_witness :
  let output := (replicate 22 0.01 ++ [0.75] ++ replicate 2 0.01)%float in
  DEFAULT_CLASS_LABELS <> []
  /\ snd (Predictor.argmax output) = 22
  /\ JS.index DEFAULT_CLASS_LABELS (Predictor.safeIndex 22 DEFAULT_CLASS_LABELS)
     = Some "Now"%string.
Proof.
  intros output. split; [discriminate|]. split; [reflexivity|].
  destruct (label_index_clamped output DEFAULT_CLASS_LABELS ltac:(discriminate))
    as (_ & _ & _ & _ & _ & Hlast).
  exact (Hlast ltac:(vm_compute; lia)).
Defined.

(** ** Weight assembly *)

Section WeightAssemblyFacts.

Lemma set_at_offset (pre source post : bytes) :
  length source <= length post ->
  Uint8Array.set (pre ++ post) source (length pre)
  = pre ++ source ++ drop (length source) post.
Proof.
  intros Hfit. unfold Uint8Array.set.
  rewrite length_app. case_decide; [|lia].
  rewrite take_app_length. f_equal. f_equal.
  rewrite drop_app_ge by lia. f_equal. lia.
Qed.

Lemma total_length (buffers : list bytes) (n : nat) :
  foldl (fun acc (buf : bytes) => acc + length buf) n buffers
  = n + length (concat buffers).
Proof.
  revert n. induction buffers as [|buf buffers IH]; intros n; simpl; [lia|].
  rewrite IH, length_app. lia.
Qed.

(** The copying loop, started with [pre] already in place and zeros behind. *)
Lemma copy_loop (buffers : list bytes) : forall (pre : bytes) (k : nat),
  foldl (fun '(view, offset) (buf : bytes) =>
           (Uint8Array.set view buf offset, offset + length buf))
        (pre ++ replicate (length (concat buffers) + k) x00, length pre) buffers
  = (pre ++ concat buffers ++ replicate k x00,
     length pre + length (concat buffers)).
Proof.
  induction buffers as [|buf buffers IH]; intros pre k; simpl.
  - by rewrite Nat.add_0_r.
  - rewrite set_at_offset by (rewrite length_replicate, length_app; lia).
    rewrite drop_replicate, length_app.
    replace (length buf + length (concat buffers) + k - length buf)
      with (length (concat buffers) + k) by lia.
    rewrite (app_assoc pre buf), <- (length_app pre buf).
    rewrite IH. rewrite length_app, <- !app_assoc. f_equal. lia.
Qed.

(** The buffer built by the offset copies is the concatenation of the parts. *)
Lemma combine_concat (buffers : list bytes) :
  Uint8Array.combine buffers = concat buffers.
Proof.
  unfold Uint8Array.combine. rewrite total_length. simpl.
  pose proof (copy_loop buffers [] 0) as H. simpl in H.
  rewrite Nat.add_0_r in H. rewrite H. simpl. by rewrite app_nil_r.
Qed.

Lemma promiseAll_ok {A : Type} (runs : list (ZipIO.Logged A)) (values : list A) :
  Forall2 (fun run a => run = ([], Ok a)) runs values ->
  ZipIO.promiseAll runs = ([], Ok values).
Proof.
  induction 1 as [|run a runs values -> _ IH]; simpl; [reflexivity|].
  by rewrite IH.
Qed.

(** A failing run makes [Promise.all] fail, with the error of one of the
    failing runs, and every run's log is kept. *)
Lemma promiseAll_throws {A : Type} (runs : list (ZipIO.Logged A)) :
  (exists log e, (log, Throw e) ∈ runs) ->
  exists e, snd (ZipIO.promiseAll runs) = Throw e
            /\ exists log, (log, Throw e) ∈ runs.
Proof.
  induction runs as [|[log r] runs IH]; intros (log0 & e0 & Hin).
  - by apply elem_of_nil in Hin.
  - simpl. destruct (ZipIO.promiseAll runs) as [logs rs] eqn:Hall. simpl in *.
    destruct r as [a|e].
    + apply elem_of_cons in Hin as [Heq|Hin]; [discriminate|].
      destruct IH as (e & -> & log' & Hin'); [by eauto|].
      exists e. split; [reflexivity|]. exists log'. by right.
    + exists e. split; [reflexivity|]. exists log. by left.
Qed.

Lemma promiseAll_log {A : Type} (runs : list (ZipIO.Logged A))
    (log : list ZipIO.ConsoleError) (r : result A) (entry : ZipIO.ConsoleError) :
  (log, r) ∈ runs -> entry ∈ log -> entry ∈ fst (ZipIO.promiseAll runs).
Proof.
  induction runs as [|[log' r'] runs IH]; intros Hin Hentry.
  - by apply elem_of_nil in Hin.
  - simpl. destruct (ZipIO.promiseAll runs) as [logs rs] eqn:Hall. simpl in *.
    apply elem_of_app. apply elem_of_cons in Hin as [Heq|Hin].
    + injection Heq as <- <-. by left.
    + right. by apply IH.
Qed.

Lemma promiseAll_throw_inv {A : Type} (runs : list (ZipIO.Logged A)) (e : string) :
  snd (ZipIO.promiseAll runs) = Throw e -> exists log, (log, Throw e) ∈ runs.
Proof.
  induction runs as [|[log r] runs IH]; simpl; [discriminate|].
  destruct (ZipIO.promiseAll runs) as [logs rs]. simpl in *.
  destruct r as [a|e'].
  - destruct rs as [others|e']; [discriminate|]. intros [= ->].
    destruct IH as [log' Hin]; [reflexivity|]. exists log'. by right.
  - intros [= ->]. exists log. by left.
Qed.

Lemma substring_all (s : string) : String.substring 0 (String.length s) s = s.
Proof. induction s as [|c s IH]; simpl; [reflexivity | by rewrite IH]. Qed.

Lemma stripDotSlash_strips (rest : string) :
  Str.stripDotSlash ("./" +:+ rest) = rest.
Proof.
  unfold Str.stripDotSlash.
  change ("./" +:+ rest) with (String "." (String "/" rest)).
  assert (Hprefix : String.prefix "./" (String "." (String "/" rest)) = true)
    by (destruct rest; reflexivity).
  rewrite Hprefix.
  change (String.length (String "." (String "/" rest)) - 2)
    with (String.length rest - 0).
  rewrite Nat.sub_0_r.
  change (String.substring 2 (String.length rest) (String "." (String "/" rest)))
    with (String.substring 0 (String.length rest) rest).
  apply substring_all.
Qed.

(** The candidate that wins is the first one present in the archive. *)
Lemma findWeightFile_first (files : ZipFiles) (tryPaths : list string)
    (tryPath : string) (weightFile : bytes) :
  ZipIO.findWeightFile files tryPaths = Some (tryPath, weightFile) <->
  exists i, tryPaths !! i = Some tryPath
            /\ Zip.file files tryPath = Some weightFile
            /\ forall j earlier, j < i -> tryPaths !! j = Some earlier ->
                 Zip.file files earlier = None.
Proof.
  induction tryPaths as [|p rest IH]; simpl.
  - split; [discriminate|]. intros (i & Hi & _). by rewrite lookup_nil in Hi.
  - destruct (Zip.file files p) as [f|] eqn:Hp.
    + split.
      * intros [= <- <-]. exists 0. split; [reflexivity|]. split; [assumption|].
        intros j earlier Hj. lia.
      * intros (i & Hi & Hfile & Hfirst). destruct i as [|i].
        -- simpl in Hi. injection Hi as <-. congruence.
        -- specialize (Hfirst 0 p ltac:(lia) eq_refl). congruence.
    + rewrite IH. split.
      * intros (i & Hi & Hfile & Hfirst). exists (S i).
        split; [assumption|]. split; [assumption|].
        intros [|j] earlier Hj Hlk; simpl in Hlk.
        -- by injection Hlk as <-.
        -- apply (Hfirst j earlier); [lia | assumption].
      * intros (i & Hi & Hfile & Hfirst). destruct i as [|i].
        -- simpl in Hi. injection Hi as <-. congruence.
        -- exists i. split; [assumption|]. split; [assumption|].
           intros j earlier Hj Hlk. apply (Hfirst (S j) earlier); [lia | assumption].
Qed.

Lemma findWeightFile_none (files : ZipFiles) (tryPaths : list string) :
  ZipIO.findWeightFile files tryPaths = None <->
  forall tryPath, tryPath ∈ tryPaths -> Zip.file files tryPath = None.
Proof.
  induction tryPaths as [|p rest IH]; simpl.
  - split; [|reflexivity]. intros _ q Hq. by apply elem_of_nil in Hq.
  - destruct (Zip.file files p) as [f|] eqn:Hp.
    + split; [discriminate|]. intros Hall.
      specialize (Hall p ltac:(by left)). congruence.
    + rewrite IH. split.
      * intros Hall q Hq. apply elem_of_cons in Hq as [->|Hq]; [assumption|].
        by apply Hall.
      * intros Hall q Hq. apply Hall. by right.
Qed.

End WeightAssemblyFacts.

Section HandlerFacts.

Variable parse : bytes -> result Descriptor.ModelJSON.
Variable files : ZipFiles.
Variable modelJsonFile : string.
Variable content : bytes.
Variable modelJSON : Descriptor.ModelJSON.

Hypothesis Hfound : List.find ZipIO.isModelJson (Zip.keys files) = Some modelJsonFile.
Hypothesis Hcontent : Zip.file files modelJsonFile = Some content.
Hypothesis Hparsed : parse content = Ok modelJSON.

Let modelDir := ZipIO.modelDirOf modelJsonFile.
Let manifest := Descriptor.weightsManifest modelJSON.

(** [load] once the descriptor is found and parsed. *)
Lemma tryLoad_parsed :
  ZipIO.tryLoad parse files
  = let '(log, weightData) :=
      ZipIO.promiseAll (map (ZipIO.loadGroup files modelDir) manifest) in
    (log, match weightData with
          | Throw e => Throw e
          | Ok weightData =>
              Ok {| artifactTopology := Descriptor.modelTopology modelJSON;
                    weightSpecs := flat_map Descriptor.weights manifest;
                    weightData := Uint8Array.combine weightData;
                    artifactFormat := Descriptor.format modelJSON;
                    artifactGeneratedBy := Descriptor.generatedBy modelJSON;
                    artifactConvertedBy := Descriptor.convertedBy modelJSON |}
          end).
Proof using Hfound Hcontent Hparsed.
  unfold ZipIO.tryLoad. rewrite Hfound, Hcontent, Hparsed. reflexivity.
Qed.

(** Every path resolved: the group's buffer is the concatenation of its
    files in the order of the path list. *)
Lemma loadGroup_resolved (bytesOf : string -> bytes) (group : Descriptor.Group) :
  (forall path, path ∈ Descriptor.paths group ->
     exists tryPath,
       ZipIO.findWeightFile files (ZipIO.possiblePaths modelDir path)
       = Some (tryPath, bytesOf path)) ->
  ZipIO.loadGroup files modelDir group
  = ([], Ok (concat (map bytesOf (Descriptor.paths group)))).
Proof.
  intros Hres. unfold ZipIO.loadGroup.
  rewrite (promiseAll_ok _ (map bytesOf (Descriptor.paths group))).
  - by rewrite combine_concat.
  - induction (Descriptor.paths group) as [|p ps IH]; simpl; constructor.
    + unfold ZipIO.loadWeight.
      destruct (Hres p ltac:(by left)) as [tryPath ->]. reflexivity.
    + apply IH. intros q Hq. apply Hres. by right.
Qed.

(** A path with no candidate in the archive: the group fails, the error
    names a path of the group, and the candidates are on the console. *)
Lemma loadGroup_unresolved (group : Descriptor.Group) (path : string) :
  path ∈ Descriptor.paths group ->
  ZipIO.findWeightFile files (ZipIO.possiblePaths modelDir path) = None ->
  exists log missing,
    ZipIO.loadGroup files modelDir group
    = (log, Throw ("Weight file not found in ZIP for path: " +:+ missing))
    /\ missing ∈ Descriptor.paths group
    /\ ZipIO.AttemptedPaths (ZipIO.possiblePaths modelDir path) ∈ log.
Proof.
  intros Hpath Hnone. unfold ZipIO.loadGroup.
  set (runs := map (ZipIO.loadWeight files modelDir) (Descriptor.paths group)).
  assert (Hrun : ([ZipIO.AttemptedPaths (ZipIO.possiblePaths modelDir path)],
                  Throw ("Weight file not found in ZIP for path: " +:+ path))
                 ∈ runs).
  { subst runs. apply list_elem_of_fmap. exists path. split; [|assumption].
    unfold ZipIO.loadWeight. by rewrite Hnone. }
  destruct (promiseAll_throws runs) as (e & He & log' & Hin); [by eauto|].
  pose proof (promiseAll_log runs _ _ (ZipIO.AttemptedPaths
                (ZipIO.possiblePaths modelDir path)) Hrun ltac:(by left)) as Hlog.
  destruct (ZipIO.promiseAll runs) as [log rs]. simpl in *. subst rs.
  subst runs. apply list_elem_of_fmap in Hin as (missing & Hrun' & Hmissing).
  unfold ZipIO.loadWeight in Hrun'.
  destruct (ZipIO.findWeightFile files (ZipIO.possiblePaths modelDir missing))
    as [[? ?]|]; [discriminate|].
  injection Hrun' as _ ->. exists log, missing. by repeat split.
Qed.

End HandlerFacts.

(** C5.  With the descriptor found and parsed and every weight path
    resolved, [load] returns artifacts whose [weightData] is the
    concatenation, group after group in manifest order and path after path
    in the order of each group's list, of the bytes of the resolved files;
    for the groups [a, b] and [c] it is bytes(a) ++ bytes(b) ++ bytes(c). *)
Theorem weight_assembly_order (parse : bytes -> result Descriptor.ModelJSON)
    (files : ZipFiles) (modelJsonFile : string) (content : bytes)
    (modelJSON : Descriptor.ModelJSON) (bytesOf : string -> bytes) :
  List.find ZipIO.isModelJson (Zip.keys files) = Some modelJsonFile ->
  Zip.file files modelJsonFile = Some content ->
  parse content = Ok modelJSON ->
  (forall group path,
     group ∈ Descriptor.weightsManifest modelJSON ->
     path ∈ Descriptor.paths group ->
     exists tryPath,
       ZipIO.findWeightFile files
         (ZipIO.possiblePaths (ZipIO.modelDirOf modelJsonFile) path)
       = Some (tryPath, bytesOf path)) ->
  exists artifacts,
    ZipIO.load parse files = ([], Ok artifacts)
    /\ weightData artifacts
       = concat (map (fun group => concat (map bytesOf (Descriptor.paths group)))
                     (Descriptor.weightsManifest modelJSON))
    /\ weightSpecs artifacts
       = flat_map Descriptor.weights (Descriptor.weightsManifest modelJSON)
    /\ (forall a b c w1 w2,
          Descriptor.weightsManifest modelJSON
          = [ {| Descriptor.paths := [a; b]; Descriptor.weights := w1 |};
              {| Descriptor.paths := [c]; Descriptor.weights := w2 |} ] ->
          weightData artifacts = bytesOf a ++ bytesOf b ++ bytesOf c).
Proof.
  intros Hfound Hcontent Hparsed Hres.
  set (manifest := Descriptor.weightsManifest modelJSON) in *.
  set (buffers := map (fun group => concat (map bytesOf (Descriptor.paths group)))
                      manifest).
  assert (Hall : ZipIO.promiseAll
                   (map (ZipIO.loadGroup files (ZipIO.modelDirOf modelJsonFile))
                        manifest)
                 = ([], Ok buffers)).
  { apply promiseAll_ok. subst buffers.
    assert (Hgroups : forall group, group ∈ manifest ->
              forall path, path ∈ Descriptor.paths group ->
              exists tryPath,
                ZipIO.findWeightFile files
                  (ZipIO.possiblePaths (ZipIO.modelDirOf modelJsonFile) path)
                = Some (tryPath, bytesOf path))
      by (intros group Hg path Hp; exact (Hres group path Hg Hp)).
    clear Hres. induction manifest as [|g gs IH]; simpl; constructor.
    - apply loadGroup_resolved. apply Hgroups. by left.
    - apply IH. intros g' Hg'. apply Hgroups. by right. }
  eexists. split.
  - unfold ZipIO.load.
    rewrite (tryLoad_parsed parse files modelJsonFile content modelJSON)
      by assumption.
    fold manifest. rewrite Hall. reflexivity.
  - simpl. rewrite combine_concat. split; [reflexivity|]. split; [reflexivity|].
    intros a b c w1 w2 Hm. subst buffers. rewrite Hm. simpl.
    by rewrite !app_nil_r, <- app_assoc.
Qed.

Lemma weight_assembly_order_witness :
  exists artifacts,
    ZipIO.load SampleZip.parseTwoGroups SampleZip.scattered = ([], Ok artifacts)
    /\ weightData artifacts = [x01; x01; x01; x02; x02; x03].
Proof.
  destruct (weight_assembly_order SampleZip.parseTwoGroups SampleZip.scattered
              "pkg/model.json" [x7b; x7d] SampleZip.twoGroups SampleZip.bytesOf
              eq_refl eq_refl eq_refl)
    as (artifacts & Hload & _ & _ & Horder).
  - intros group path Hgroup Hpath. simpl in Hgroup.
    apply elem_of_cons in Hgroup as [->|Hgroup]; simpl in Hpath.
    + apply elem_of_cons in Hpath as [->|Hpath]; [by eexists|].
      apply elem_of_cons in Hpath as [->|Hpath]; [by eexists|].
      by apply elem_of_nil in Hpath.
    + apply elem_of_cons in Hgroup as [->|Hgroup]; [|by apply elem_of_nil in Hgroup].
      simpl in Hpath.
      apply elem_of_cons in Hpath as [->|Hpath]; [by eexists|].
      by apply elem_of_nil in Hpath.
  - exists artifacts. split; [exact Hload|].
    exact (Horder "a.bin" "b.bin" "./c.bin" [] [] eq_refl).
Defined.

Section ResolutionFacts.

Lemma loadGroup_throw_inv (files : ZipFiles) (modelDir : string)
    (group : Descriptor.Group) (log : list ZipIO.ConsoleError) (e : string) :
  ZipIO.loadGroup files modelDir group = (log, Throw e) ->
  exists missing,
    missing ∈ Descriptor.paths group
    /\ e = "Weight file not found in ZIP for path: " +:+ missing.
Proof.
  unfold ZipIO.loadGroup. intros Hgroup.
  set (runs := map (ZipIO.loadWeight files modelDir) (Descriptor.paths group)) in *.
  assert (Hthrow : snd (ZipIO.promiseAll runs) = Throw e).
  { destruct (ZipIO.promiseAll runs) as [l [bs|e']]; simpl in *; congruence. }
  destruct (promiseAll_throw_inv runs e Hthrow) as [log' Hin].
  subst runs. apply list_elem_of_fmap in Hin as (missing & Hrun & Hmissing).
  exists missing. split; [assumption|].
  unfold ZipIO.loadWeight in Hrun.
  destruct (ZipIO.findWeightFile files (ZipIO.possiblePaths modelDir missing))
    as [[? ?]|]; [discriminate|]. by injection Hrun.
Qed.

End ResolutionFacts.

(** C6 (as amended).  For a weight path of a manifest group the handler
    tries five keys in this order: the descriptor's directory followed by
    the path, the path itself, the path under [model/], the path under
    [assets/], and the path without a leading [./].  The first of them that
    is an entry of the archive supplies the bytes.  When none is, [load]
    fails; the error thrown names the manifest path of a weight file that
    was not found, and the five keys tried for the path are written to
    the error console before the failure is reported there as well. *)
Theorem candidate_resolution (parse : bytes -> result Descriptor.ModelJSON)
    (files : ZipFiles) (modelJsonFile : string) (content : bytes)
    (modelJSON : Descriptor.ModelJSON) (group : Descriptor.Group) (path : string) :
  let modelDir := ZipIO.modelDirOf modelJsonFile in
  let candidates := ZipIO.possiblePaths modelDir path in
  List.find ZipIO.isModelJson (Zip.keys files) = Some modelJsonFile ->
  Zip.file files modelJsonFile = Some content ->
  parse content = Ok modelJSON ->
  group ∈ Descriptor.weightsManifest modelJSON ->
  path ∈ Descriptor.paths group ->
  candidates = [ modelDir +:+ path; path; "model/" +:+ path; "assets/" +:+ path;
                 Str.stripDotSlash path ]
  /\ (forall rest, Str.stripDotSlash ("./" +:+ rest) = rest)
  /\ (forall tryPath weightFile,
        ZipIO.findWeightFile files candidates = Some (tryPath, weightFile) <->
        exists i, candidates !! i = Some tryPath
                  /\ Zip.file files tryPath = Some weightFile
                  /\ forall j earlier, j < i -> candidates !! j = Some earlier ->
                       Zip.file files earlier = None)
  /\ (forall tryPath weightFile,
        ZipIO.findWeightFile files candidates = Some (tryPath, weightFile) ->
        ZipIO.loadWeight files modelDir path = ([], Ok weightFile))
  /\ ((forall tryPath, tryPath ∈ candidates -> Zip.file files tryPath = None) ->
      exists log missing,
        ZipIO.load parse files
        = (log, Throw ("Weight file not found in ZIP for path: " +:+ missing))
        /\ (exists g, g ∈ Descriptor.weightsManifest modelJSON
                      /\ missing ∈ Descriptor.paths g)
        /\ ZipIO.AttemptedPaths candidates ∈ log
        /\ ZipIO.HandlerError
             ("Weight file not found in ZIP for path: " +:+ missing) ∈ log).
Proof.
  intros modelDir candidates Hfound Hcontent Hparsed Hgroup Hpath.
  split; [reflexivity|]. split; [apply stripDotSlash_strips|].
  split; [apply findWeightFile_first|]. split.
  { intros tryPath weightFile Hfind. unfold ZipIO.loadWeight.
    fold candidates. by rewrite Hfind. }
  intros Habsent. apply findWeightFile_none in Habsent.
  destruct (loadGroup_unresolved files modelJsonFile group path Hpath Habsent)
    as (glog & gmissing & Hg & Hgmissing & Hattempted).
  set (runs := map (ZipIO.loadGroup files modelDir)
                   (Descriptor.weightsManifest modelJSON)).
  assert (Hrun : (glog, Throw ("Weight file not found in ZIP for path: " +:+ gmissing))
                 ∈ runs).
  { subst runs. apply list_elem_of_fmap. exists group. by split. }
  destruct (promiseAll_throws runs) as (e & He & log' & Hin); [by eauto|].
  pose proof (promiseAll_log runs _ _ _ Hrun Hattempted) as Hlog.
  subst runs. apply list_elem_of_fmap in Hin as (g & Hrun' & Hgin).
  symmetry in Hrun'.
  destruct (loadGroup_throw_inv files modelDir g log' e Hrun')
    as (missing & Hmissing & ->).
  unfold ZipIO.load.
  rewrite (tryLoad_parsed parse files modelJsonFile content modelJSON)
    by assumption.
  fold modelDir.
  destruct (ZipIO.promiseAll
              (map (ZipIO.loadGroup files modelDir)
                   (Descriptor.weightsManifest modelJSON))) as [log rs].
  simpl in *. subst rs.
  exists (log ++ [ZipIO.HandlerError
                    ("Weight file not found in ZIP for path: " +:+ missing)]), missing.
  split; [reflexivity|]. split; [by exists g|].
  split; apply elem_of_app; [by left | right; by left].
Qed.

Lemma candidate_resolution_witness :
  exists log,
    ZipIO.load SampleZip.parseOneWeight SampleZip.descriptorOnly
    = (log, Throw "Weight file not found in ZIP for path: group1.bin")
    /\ ZipIO.AttemptedPaths
         ["group1.bin"; "group1.bin"; "model/group1.bin"; "assets/group1.bin";
          "group1.bin"] ∈ log.
Proof.
  destruct (candidate_resolution SampleZip.parseOneWeight SampleZip.descriptorOnly
              "model.json" [x7b; x7d] SampleZip.oneWeight
              {| Descriptor.paths := ["group1.bin"]; Descriptor.weights := [] |}
              "group1.bin" eq_refl eq_refl eq_refl
              ltac:(by left) ltac:(by left))
    as (_ & _ & _ & _ & Hfail).
  destruct Hfail as (log & missing & Hload & _ & Hattempted & _).
  - intros tryPath Hin. simpl in Hin.
    repeat (apply elem_of_cons in Hin as [->|Hin]; [reflexivity|]).
    by apply elem_of_nil in Hin.
  - exists log. split; [|exact Hattempted].
    rewrite Hload. vm_compute in Hload. by injection Hload as _ <-.
Defined.

(** C6 as stated fails on the error itself: with the descriptor at the root
    and no weight file in the archive, the error thrown for [group1.bin] is
    "Weight file not found in ZIP for path: group1.bin"; it names neither
    [model/group1.bin] nor [assets/group1.bin], which were tried.  The
    five keys reach the console only. *)
Lemma candidate_resolution_counterexample :
  let run := ZipIO.load SampleZip.parseOneWeight SampleZip.descriptorOnly in
  ZipIO.possiblePaths "" "group1.bin"
  = ["group1.bin"; "group1.bin"; "model/group1.bin"; "assets/group1.bin";
     "group1.bin"]
  /\ snd run = Throw "Weight file not found in ZIP for path: group1.bin"
  /\ Str.includes "Weight file not found in ZIP for path: group1.bin"
       "model/group1.bin" = false
  /\ Str.includes "Weight file not found in ZIP for path: group1.bin"
       "assets/group1.bin" = false
  /\ fst run
     = [ ZipIO.AttemptedPaths
           ["group1.bin"; "group1.bin"; "model/group1.bin"; "assets/group1.bin";
            "group1.bin"];
         ZipIO.HandlerError "Weight file not found in ZIP for path: group1.bin" ].
Proof.
  vm_compute. repeat split.
Qed.

(** ** Retries of the download *)

Section RetryFacts.

Import Loader.

Variable env : Env.
Variable baseDelay : Q.

Lemma fetchZip_run (w : World) :
  fetchZip env w = (countFetch w, attempt env (fetches w)).
Proof. reflexivity. Qed.

(** [retryWithBackoff] on the download when the first [failed] calls fail
    and the next one either succeeds or is the last one allowed. *)
Lemma retry_run (retries : nat) : forall (failed : nat) (w : World) (r : result Response),
  failed <= retries ->
  (forall i, i < failed -> exists e, attempt env (fetches w + i) = Throw e) ->
  attempt env (fetches w + failed) = r ->
  (failed = retries \/ exists resp, r = Ok resp) ->
  retryWithBackoff (fetchZip env) retries baseDelay onDownloadRetry w
  = (countFetch (retried baseDelay retries failed w), r).
Proof.
  induction retries as [|retries IH]; intros failed w r Hle Hfail Hlast Hend.
  - assert (failed = 0) as -> by lia. rewrite Nat.add_0_r in Hlast.
    cbn [retryWithBackoff retried]. unfold tryCatch.
    rewrite fetchZip_run, Hlast. by destruct r.
  - destruct failed as [|failed].
    + rewrite Nat.add_0_r in Hlast. destruct Hend as [|[resp ->]]; [lia|].
      cbn [retryWithBackoff retried]. unfold tryCatch.
      by rewrite fetchZip_run, Hlast.
    + destruct (Hfail 0 ltac:(lia)) as [e He]. rewrite Nat.add_0_r in He.
      cbn [retryWithBackoff retried]. unfold tryCatch at 1.
      rewrite fetchZip_run, He.
      unfold bind at 1, onDownloadRetry, modify at 1.
      unfold bind at 1, modify at 1.
      replace (S retries - 1) with retries by lia.
      apply IH.
      * lia.
      * intros i Hi. cbn [fetches sleep setModelLoadingStage countFetch].
        replace (S (fetches w) + i) with (fetches w + S i) by lia.
        apply Hfail. lia.
      * cbn [fetches sleep setModelLoadingStage countFetch].
        replace (S (fetches w) + failed) with (fetches w + S failed) by lia.
        exact Hlast.
      * destruct Hend as [Heq|Hok]; [left; lia | by right].
Qed.

Lemma retried_fetches (retries failed : nat) (w : World) :
  fetches (retried baseDelay retries failed w) = fetches w + failed.
Proof.
  revert retries w. induction failed as [|failed IH]; intros retries w; simpl.
  - lia.
  - rewrite IH. simpl. lia.
Qed.

Lemma retried_delays (retries failed : nat) (w : World) :
  delays (retried baseDelay retries failed w)
  = delays w ++ map (fun i => (baseDelay * 2 ^ (3 - Z.of_nat (retries - i)))%Q)
                    (seq 0 failed).
Proof.
  revert retries w. induction failed as [|failed IH]; intros retries w.
  - simpl. by rewrite app_nil_r.
  - cbn [retried]. rewrite IH. cbn [delays sleep]. rewrite <- app_assoc.
    f_equal. cbn [seq map app]. rewrite Nat.sub_0_r. f_equal.
    rewrite <- seq_shift, map_map. apply map_ext. intros i.
    by replace (retries - 1 - i) with (retries - S i) by lia.
Qed.

Lemma retried_rest (retries failed : nat) (w : World) :
  let w' := retried baseDelay retries failed w in
  model w' = model w /\ error w' = error w /\ isLoading w' = isLoading w
  /\ zipCacheRef w' = zipCacheRef w /\ sessionStorage w' = sessionStorage w
  /\ mockModels w' = mockModels w.
Proof.
  revert retries w. induction failed as [|failed IH]; intros retries w.
  - by repeat split.
  - cbn [retried]. cbv zeta in *.
    destruct (IH (retries - 1)
                (sleep (baseDelay * 2 ^ (3 - Z.of_nat retries))%Q
                   (setModelLoadingStage "download-retry" (countFetch w))))
      as (-> & -> & -> & -> & -> & ->).
    by repeat split.
Qed.

End RetryFacts.

Section DownloadFacts.

Import Loader.

Variable getSession : Env -> World -> option bytes.
Variable storeSession : Env -> bytes -> M unit.
Variable env : Env.

Lemma rethrow {A : Type} (c : M A) (w : World) :
  tryCatch c (fun e => throw e) w = c w.
Proof. unfold tryCatch, throw. by destruct (c w) as [w' [a|e]]. Qed.

Local Ltac run :=
  cbv beta iota delta [bind modify read ret lift tryCatch throw];
  cbn [zipCacheRef sessionStorage setModelLoadingStage setZipCache].

(** Nothing in memory and nothing usable in the session: the call is the
    fresh download. *)
Lemma download_no_session (w : World) :
  zipCacheRef w = None ->
  getSession env (setModelLoadingStage "downloading" w) = None ->
  downloadAndExtractModelZipWith getSession storeSession env w
  = downloadFresh storeSession env (setModelLoadingStage "downloading" w).
Proof.
  intros Hcache Hsession. unfold downloadAndExtractModelZipWith.
  rewrite rethrow. run. rewrite Hcache, Hsession. reflexivity.
Qed.

(** Session bytes that do not extract, or extract without a descriptor:
    the call is the fresh download all the same. *)
Lemma download_bad_session (w : World) (data : bytes) :
  zipCacheRef w = None ->
  getSession env (setModelLoadingStage "downloading" w) = Some data ->
  let w1 := setModelLoadingStage "extracting"
              (setModelLoadingStage "downloading" w) in
  match loadAsync env data with
  | Throw _ =>
      downloadAndExtractModelZipWith getSession storeSession env w
      = downloadFresh storeSession env w1
  | Ok zipContents =>
      hasModelJson zipContents = false ->
      downloadAndExtractModelZipWith getSession storeSession env w
      = downloadFresh storeSession env (setZipCache zipContents w1)
  end.
Proof.
  intros Hcache Hsession w1.
  destruct (loadAsync env data) as [zipContents|e] eqn:Hextract;
    [intros Hmissing|];
    unfold downloadAndExtractModelZipWith; rewrite rethrow;
    unfold extractSessionData; run;
    rewrite Hcache, Hsession, Hextract; [rewrite Hmissing|]; reflexivity.
Qed.

(** The fresh download when the retries are exhausted. *)
Lemma downloadFresh_exhausted (w : World) (e : string) :
  (forall i, i < 3 -> exists e', attempt env (fetches w + i) = Throw e') ->
  attempt env (fetches w + 3) = Throw e ->
  downloadFresh storeSession env w
  = (countFetch (retried 500 3 3 w), Throw e).
Proof.
  intros Hfail Hlast. unfold downloadFresh, bind at 1.
  rewrite (retry_run env 500 3 3 w (Throw e)); [reflexivity | lia | assumption
    | assumption | by left].
Qed.

End DownloadFacts.

(** C7 (as amended).  The download is retried with exponential backoff:
    three retries after the first call, so four calls of [fetch] at most.
    With [failed] (at most 3) failing calls before a call that succeeds, or
    that is the fourth and last one, [retryWithBackoff] returns the outcome
    of that call after [failed + 1] calls in all, having waited
    [baseDelay * 2 ^ attempt] before retry number [attempt] = 0, 1, 2; the
    download passes 500 ms (the default is 300 ms), so it waits 500, 1000
    and 2000 ms.  When the three retries are used up the error of the last
    call is thrown by [downloadAndExtractModelZip], and the cascade catches
    it in its ZIP stage and moves on. *)
Theorem download_retry_backoff (env : Loader.Env) (w : Loader.World)
    (baseDelay : Q) (failed : nat) (r : result Loader.Response) :
  failed <= 3 ->
  (forall i, i < failed ->
     exists e, Loader.attempt env (Loader.fetches w + i) = Throw e) ->
  Loader.attempt env (Loader.fetches w + failed) = r ->
  (failed = 3 \/ exists resp, r = Ok resp) ->
  let run := Loader.retryWithBackoff (Loader.fetchZip env) 3 baseDelay
               Loader.onDownloadRetry w in
  snd run = r
  /\ Loader.fetches (fst run) = Loader.fetches w + failed + 1
  /\ Loader.delays (fst run)
     = Loader.delays w
       ++ map (fun attempt : nat => (baseDelay * 2 ^ Z.of_nat attempt)%Q)
              (seq 0 failed)
  /\ (forall e, failed = 3 -> r = Throw e ->
        Loader.zipCacheRef w = None ->
        Loader.getModelDataFromSession env w = None ->
        let download := Loader.downloadAndExtractModelZip env w in
        snd download = Throw e
        /\ Loader.fetches (fst download) = Loader.fetches w + 4
        /\ Loader.delays (fst download) = Loader.delays w ++ [500; 1000; 2000]%Q
        /\ snd (Cascade.trySource (Cascade.zipSource env) None w) = Ok None).
Proof.
  intros Hle Hfail Hlast Hend run.
  assert (Hrun : run = (Loader.countFetch (Loader.retried baseDelay 3 failed w), r)).
  { subst run. by apply retry_run. }
  rewrite Hrun. cbn [fst snd Loader.fetches Loader.delays Loader.countFetch].
  split; [reflexivity|]. split; [rewrite retried_fetches; lia|]. split.
  { rewrite retried_delays. f_equal. apply map_ext_in. intros i Hi.
    apply in_seq in Hi. do 2 f_equal. lia. }
  intros e -> -> Hcache Hsession.
  set (download := Loader.downloadAndExtractModelZip env w).
  assert (Hdownload :
    download = (Loader.countFetch
                  (Loader.retried 500 3 3
                     (Loader.setModelLoadingStage "downloading" w)), Throw e)).
  { subst download. unfold Loader.downloadAndExtractModelZip.
    rewrite download_no_session by assumption.
    by apply downloadFresh_exhausted. }
  rewrite Hdownload. cbn [fst snd Loader.fetches Loader.delays Loader.countFetch].
  split; [reflexivity|]. split; [rewrite retried_fetches; simpl; lia|].
  split; [by rewrite retried_delays|].
  unfold Cascade.trySource, Loader.tryCatch, Loader.bind at 1, Cascade.zipSource.
  unfold Loader.bind at 1. fold download. by rewrite Hdownload.
Qed.

Lemma download_retry_backoff_witness :
  let w := Loader.initialWorld ∅ in
  let download := Loader.downloadAndExtractModelZip SampleEnv.offline w in
  snd download = Throw "Failed to download model ZIP: 503 Service Unavailable"
  /\ Loader.fetches (fst download) = 4
  /\ Loader.delays (fst download) = [500; 1000; 2000]%Q.
Proof.
  intros w download.
  destruct (download_retry_backoff SampleEnv.offline w 500 3
              (Throw "Failed to download model ZIP: 503 Service Unavailable")
              ltac:(lia) ltac:(by eexists) eq_refl ltac:(by left))
    as (_ & _ & _ & Hexhausted).
  destruct (Hexhausted _ eq_refl eq_refl eq_refl eq_refl)
    as (Hthrown & Hfetches & Hdelays & _).
  exact (conj Hthrown (conj Hfetches Hdelays)).
Defined.

(** C7 as stated fails on the count: with a server that answers 503 to
    every request the download makes four attempts, not three, the three
    waits lying between them. *)
Lemma download_retry_backoff_counterexample :
  let download :=
    Loader.downloadAndExtractModelZip SampleEnv.offline (Loader.initialWorld ∅) in
  Loader.fetches (fst download) = 4
  /\ Loader.fetches (fst download) <> 3
  /\ Loader.delays (fst download) = [500; 1000; 2000]%Q
  /\ snd download = Throw "Failed to download model ZIP: 503 Service Unavailable".
Proof.
  vm_compute. split; [reflexivity|]. split; [discriminate|].
  split; reflexivity.
Qed.

(** ** The session cache of the cached hook *)

Section SessionFacts.

Import Loader.

Variable env : Env.

Lemma retry_fetches_lt (retries : nat) (baseDelay : Q) : forall w : World,
  fetches w
  < fetches (fst (retryWithBackoff (fetchZip env) retries baseDelay
                    onDownloadRetry w)).
Proof.
  induction retries as [|retries IH]; intros w;
    cbn [retryWithBackoff]; unfold tryCatch; rewrite fetchZip_run;
    destruct (attempt env (fetches w)) as [resp|e]; simpl; try lia.
  cbv beta iota delta [bind modify onDownloadRetry].
  eapply Nat.lt_trans; [|apply IH]. simpl. lia.
Qed.

(** The fresh download calls [fetch] at least once. *)
Lemma cached_downloadFresh_fetches (w : World) :
  fetches w < fetches (fst (downloadFresh Cached.storeModelDataInSession env w)).
Proof.
  unfold downloadFresh.
  pose proof (retry_fetches_lt 3 500 w) as Hlt.
  cbv beta iota delta [bind modify lift ret throw].
  destruct (retryWithBackoff (fetchZip env) 3 500 onDownloadRetry w)
    as [w1 [response|e]]; [|exact Hlt].
  simpl in Hlt. destruct (body response) as [chunks|e]; [|exact Hlt].
  unfold Cached.storeModelDataInSession.
  cbv beta iota delta [bind modify lift ret throw].
  destruct (decide _); simpl;
    destruct (loadAsync env _) as [zipContents|e]; simpl; try exact Hlt;
    destruct (hasModelJson zipContents); simpl; exact Hlt.
Qed.

Lemma getModelDataFromSession_version (w : World) :
  sessionStorage w !! "modelZipVersion" <> Some CACHE_KEY ->
  Cached.getModelDataFromSession env w = None.
Proof.
  intros Hversion. unfold Cached.getModelDataFromSession.
  destruct (sessionStorage w !! "modelZipData"); [|reflexivity].
  destruct (sessionStorage w !! "modelZipTimestamp"); [|reflexivity].
  rewrite bool_decide_eq_false_2 by assumption.
  by rewrite andb_false_r.
Qed.

Lemma getModelDataFromSession_stale (w : World) (timestamp : string) (t : Z) :
  sessionStorage w !! "modelZipTimestamp" = Some timestamp ->
  Str.parseInt timestamp = Some t ->
  (60 * 60 * 1000 <= now env - t)%Z ->
  Cached.getModelDataFromSession env w = None.
Proof.
  intros Hts Hparse Hage. unfold Cached.getModelDataFromSession.
  rewrite Hts. destruct (sessionStorage w !! "modelZipData"); [|reflexivity].
  unfold fresh. rewrite Hparse.
  destruct (_ && _); [|reflexivity].
  destruct (now env - t <? 60 * 60 * 1000)%Z eqn:E; [lia | reflexivity].
Qed.

End SessionFacts.

(** C8.  In the cached hook, with nothing cached in memory: a session blob
    whose version tag is not the current cache key, or that is as old as
    the freshness window (one hour) or older, is not returned by
    [getModelDataFromSession]; a blob that is returned but does not extract,
    or extracts to an archive without [model.json], is dropped.  In each of
    these cases [downloadAndExtractModelZip] does exactly what the fresh
    download does from the state reached, which calls [fetch] at least
    once: the rejection itself throws nothing to the caller. *)
Theorem session_blob_rejected (env : Loader.Env) (w : Loader.World) :
  Loader.zipCacheRef w = None ->
  let fresh := Loader.downloadFresh Cached.storeModelDataInSession env in
  let w0 := Loader.setModelLoadingStage "downloading" w in
  let w1 := Loader.setModelLoadingStage "extracting" w0 in
  (Loader.sessionStorage w !! "modelZipVersion" <> Some CACHE_KEY ->
     Cached.getModelDataFromSession env w = None
     /\ Cached.downloadAndExtractModelZip env w = fresh w0)
  /\ (forall timestamp t,
        Loader.sessionStorage w !! "modelZipTimestamp" = Some timestamp ->
        Str.parseInt timestamp = Some t ->
        (60 * 60 * 1000 <= Loader.now env - t)%Z ->
        Cached.getModelDataFromSession env w = None
        /\ Cached.downloadAndExtractModelZip env w = fresh w0)
  /\ (forall data,
        Cached.getModelDataFromSession env w = Some data ->
        (forall e, Loader.loadAsync env data = Throw e ->
           Cached.downloadAndExtractModelZip env w = fresh w1)
        /\ (forall zipContents,
              Loader.loadAsync env data = Ok zipContents ->
              Loader.hasModelJson zipContents = false ->
              Cached.downloadAndExtractModelZip env w
              = fresh (Loader.setZipCache zipContents w1)))
  /\ (forall w', Loader.fetches w' < Loader.fetches (fst (fresh w'))).
Proof.
  intros Hcache fresh w0 w1.
  split; [|split; [|split]].
  - intros Hversion.
    pose proof (getModelDataFromSession_version env w Hversion) as Hnone.
    split; [assumption|].
    unfold Cached.downloadAndExtractModelZip.
    by apply download_no_session.
  - intros timestamp t Hts Hparse Hage.
    pose proof (getModelDataFromSession_stale env w timestamp t Hts Hparse Hage)
      as Hnone.
    split; [assumption|].
    unfold Cached.downloadAndExtractModelZip.
    by apply download_no_session.
  - intros data Hdata.
    pose proof (download_bad_session Cached.getModelDataFromSession
                  Cached.storeModelDataInSession env w data Hcache Hdata) as H.
    cbv zeta in H. split.
    + intros e He. by rewrite He in H.
    + intros zipContents Hz Hmissing. rewrite Hz in H. by apply H.
  - intros w'. apply cached_downloadFresh_fetches.
Qed.

Lemma session_blob_rejected_witness :
  let old := Loader.initialWorld
               (SampleEnv.session "1699999700000" "sign-language-model-v4") in
  let stale := Loader.initialWorld
                 (SampleEnv.session "1699990000000" CACHE_KEY) in
  let kept := Loader.initialWorld SampleEnv.freshSession in
  Cached.getModelDataFromSession SampleEnv.offline old = None
  /\ Cached.getModelDataFromSession SampleEnv.offline stale = None
  /\ Cached.downloadAndExtractModelZip SampleEnv.offline kept
     = Loader.downloadFresh Cached.storeModelDataInSession SampleEnv.offline
         (Loader.setModelLoadingStage "extracting"
            (Loader.setModelLoadingStage "downloading" kept))
  /\ Cached.downloadAndExtractModelZip SampleEnv.offlineWithArchive kept
     = Loader.downloadFresh Cached.storeModelDataInSession
         SampleEnv.offlineWithArchive
         (Loader.setZipCache [("readme.txt", [x68; x69])]
            (Loader.setModelLoadingStage "extracting"
               (Loader.setModelLoadingStage "downloading" kept))).
Proof.
  intros old stale kept. split; [|split; [|split]].
  - destruct (session_blob_rejected SampleEnv.offline old eq_refl)
      as (Hversion & _).
    apply Hversion. vm_compute. discriminate.
  - destruct (session_blob_rejected SampleEnv.offline stale eq_refl)
      as (_ & Hstale & _).
    apply (Hstale "1699990000000" 1699990000000%Z); [reflexivity | reflexivity |].
    vm_compute. discriminate.
  - destruct (session_blob_rejected SampleEnv.offline kept eq_refl)
      as (_ & _ & Hbad & _).
    destruct (Hbad [x50; x4b] eq_refl) as [Hthrow _].
    exact (Hthrow _ eq_refl).
  - destruct (session_blob_rejected SampleEnv.offlineWithArchive kept eq_refl)
      as (_ & _ & Hbad & _).
    destruct (Hbad [x50; x4b] eq_refl) as [_ Hmissing].
    exact (Hmissing _ eq_refl eq_refl).
Defined.

(** ** The cascade *)

Section CascadeFacts.

Import Loader.

Variable env : Env.

Lemma trySource_caught (attempt : M Model) (w w' : World) (e : string) :
  attempt w = (w', Throw e) ->
  Cascade.trySource attempt None w = (w', Ok None).
Proof.
  intros Hrun. unfold Cascade.trySource, tryCatch, bind. by rewrite Hrun.
Qed.

Lemma bind_ok {A B : Type} (c : M A) (k : A -> M B) (w w' : World) (a : A) :
  c w = (w', Ok a) -> bind c k w = k a w'.
Proof. intros Hrun. unfold bind. by rewrite Hrun. Qed.


End CascadeFacts.


Section OfflineFacts.

Import Loader.





End OfflineFacts.


(** * Further properties of the hook *)

(** ** Ingestion, reset and the throttle over sequences of calls *)

Section SequenceFacts.

Lemma push_bounded_length_eq (frame : Frame) (buffer : list Frame) :
  length buffer <= FRAME_BUFFER_SIZE ->
  length (Buffer.push_bounded frame buffer)
  = Nat.min (S (length buffer)) FRAME_BUFFER_SIZE.
Proof.
  intros Hlen. rewrite push_bounded_last by assumption.
  rewrite length_drop, length_app. unfold FRAME_BUFFER_SIZE in *. simpl. lia.
Qed.

Lemma ingestAll_length (results : list LandmarkerResult) (s : Hook) :
  length (bufferRef s) <= FRAME_BUFFER_SIZE ->
  length (bufferRef (ingestAll results s))
  = Nat.min (length (bufferRef s) + length results) FRAME_BUFFER_SIZE.
Proof.
  intros Hlen. rewrite ingestAll_buffer by assumption. cbv zeta.
  rewrite length_drop, length_app, length_map. unfold FRAME_BUFFER_SIZE in *. lia.
Qed.

Lemma step_consistent (m : option Model) (op : Ops.Op) (s : Hook) :
  Ops.consistent m s -> Ops.consistent m (Ops.step op s).
Proof.
  intros (Hlen & Hflag & Hlabels & Hmodel). destruct op as [r|t a b|]; simpl.
  - unfold Ops.consistent. simpl.
    pose proof (push_bounded_length (FrameVector.handLandmarksArray r)
                  (bufferRef s) Hlen).
    by repeat split.
  - pose proof (runPrediction_frame t a b s) as (Hm & Hf & Hb & Hl & _).
    unfold Ops.consistent. rewrite Hm, Hf, Hb, Hl. by repeat split.
  - unfold Ops.consistent. simpl. unfold FRAME_BUFFER_SIZE. repeat split; (lia || done).
Qed.

Lemma run_consistent (m : option Model) (ops : list Ops.Op) : forall s : Hook,
  Ops.consistent m s -> Ops.consistent m (Ops.run ops s).
Proof.
  induction ops as [|op ops IH]; intros s Hs; [exact Hs|].
  apply IH. by apply step_consistent.
Qed.

(** Where a call of [runPrediction] leaves the throttle stamp and the
    count of inference runs. *)
Lemma runPrediction_cases (t : Q) (a b : float) (s : Hook) :
  runPrediction t a b s = (s, None)
  \/ (Predictor.throttled t s = false
      /\ lastPredictionTimeRef (fst (runPrediction t a b s)) = t
      /\ predictCalls (fst (runPrediction t a b s)) <= S (predictCalls s)).
Proof.
  destruct (model s) as [m|] eqn:Hm; [|left; unfold runPrediction; by rewrite Hm].
  destruct (isBufferFull s) eqn:Hfull;
    [|left; unfold runPrediction; by rewrite Hm, Hfull].
  destruct (predict m) as [f|] eqn:Hf;
    [|left; unfold runPrediction; by rewrite Hm, Hfull, Hf].
  destruct (Predictor.throttled t s) eqn:Hgate;
    [left; by apply runPrediction_throttled|].
  right. split; [reflexivity|].
  split; [by apply (runPrediction_stamps t a b s m f)|].
  pose proof (runPrediction_frame t a b s) as (_ & _ & _ & _ & Hc). lia.
Qed.

End SequenceFacts.

(** X1.  Counting from the initial state of the cascade hook, a call of
    [processHandLandmarks] returns true, and leaves [isBufferFull] true,
    exactly from the thirtieth call on. *)
Theorem ingest_reports_full (m : option Model) (results : list LandmarkerResult)
    (r : LandmarkerResult) :
  let call := processHandLandmarks r (ingestAll results (initialHook m)) in
  snd call = bool_decide (FRAME_BUFFER_SIZE <= S (length results))
  /\ isBufferFull (fst call) = snd call.
Proof.
  intros call. split; [|reflexivity]. subst call. cbn [snd processHandLandmarks].
  rewrite push_bounded_length_eq;
    rewrite ingestAll_length by (simpl; unfold FRAME_BUFFER_SIZE; lia);
    [|unfold FRAME_BUFFER_SIZE; lia].
  simpl. unfold FRAME_BUFFER_SIZE.
  apply bool_decide_ext. lia.
Qed.

(** X2.  Whatever the caller does with the cascade hook (ingesting frames,
    asking for predictions, resetting, in any order), the buffer never holds
    more than 30 frames, [isBufferFull] is true exactly when it holds 30, and
    the labels and the model stay what they were. *)
Theorem hook_stays_consistent (m : option Model) (ops : list Ops.Op) :
  let s := Ops.run ops (initialHook m) in
  length (bufferRef s) <= FRAME_BUFFER_SIZE
  /\ isBufferFull s = bool_decide (length (bufferRef s) = FRAME_BUFFER_SIZE)
  /\ classLabels s = DEFAULT_CLASS_LABELS
  /\ model s = m.
Proof.
  apply (run_consistent m ops (initialHook m)).
  unfold Ops.consistent, FRAME_BUFFER_SIZE. simpl. repeat split; (lia || done).
Qed.

(** X3.  [resetBuffer] forgets the frames and the prediction but not the
    throttle: after a reset the buffer is rebuilt from the frames ingested
    since (the last 30 of them), no prediction is stored, and the time of the
    last prediction is the one from before the reset. *)
Theorem reset_starts_over (s : Hook) (results : list LandmarkerResult) :
  let s' := ingestAll results (resetBuffer s) in
  bufferRef s'
  = drop (length results - FRAME_BUFFER_SIZE)
         (map FrameVector.handLandmarksArray results)
  /\ isBufferFull s' = bool_decide (FRAME_BUFFER_SIZE <= length results)
  /\ prediction s' = None
  /\ lastPredictionTimeRef s' = lastPredictionTimeRef s
  /\ predictCalls s' = predictCalls s.
Proof.
  intros s'.
  assert (Hkeep : forall rs (u : Hook),
            prediction (ingestAll rs u) = prediction u
            /\ lastPredictionTimeRef (ingestAll rs u) = lastPredictionTimeRef u
            /\ predictCalls (ingestAll rs u) = predictCalls u
            /\ (rs <> [] ->
                isBufferFull (ingestAll rs u)
                = bool_decide (length (bufferRef (ingestAll rs u)) = FRAME_BUFFER_SIZE))).
  { induction rs as [|r rs IH] using rev_ind; intros u; [by repeat split|].
    unfold ingestAll in *. rewrite foldl_app. simpl.
    destruct (IH u) as (Hp & Ht & Hc & _). by repeat split. }
  destruct (Hkeep results (resetBuffer s)) as (Hp & Ht & Hc & Hflag).
  assert (Hbuf : bufferRef s'
                 = drop (length results - FRAME_BUFFER_SIZE)
                        (map FrameVector.handLandmarksArray results)).
  { subst s'. rewrite ingestAll_buffer by (simpl; lia).
    simpl. by rewrite length_map. }
  split; [exact Hbuf|]. split; [|by repeat split].
  destruct results as [|r results]; [reflexivity|].
  subst s'. rewrite Hflag by discriminate. rewrite Hbuf.
  rewrite length_drop, length_map. unfold FRAME_BUFFER_SIZE. simpl.
  apply bool_decide_ext. lia.
Qed.

(** X4.  The stored prediction is always the last one returned: a call of
    [runPrediction] that returns a prediction stores that very prediction,
    and a call that returns nothing leaves the stored one as it was. *)
Theorem stored_prediction_is_last_returned (t : Q) (random1 random2 : float)
    (s : Hook) :
  let run := runPrediction t random1 random2 s in
  match snd run with
  | Some p => prediction (fst run) = Some p
  | None => prediction (fst run) = prediction s
  end.
Proof.
  cbv zeta. unfold runPrediction.
  destruct (model s) as [m|]; [|reflexivity].
  destruct (negb (isBufferFull s)); [reflexivity|].
  destruct (predict m) as [f|]; [|reflexivity].
  destruct (Predictor.throttled t s); [reflexivity|].
  destruct (_ && _); [reflexivity|].
  set (s0 := set_lastPredictionTime t s).
  pose proof (infer_frame f s0) as (_ & _ & _ & _ & Hp & _).
  destruct (Predictor.infer f s0) as [s1 [[lbl conf]|]]; simpl in *; [|exact Hp].
  unfold Predictor.gate. destruct (PrimFloat.leb _ _); simpl; [reflexivity | exact Hp].
Qed.

Section ThrottleWindow.

Variable s0 : Hook.
Variable t0 : Q.

(** Either nothing got past the throttle yet, or the stamp lies in the
    window and at most one inference was run. *)
Let windowed (s : Hook) : Prop :=
  (lastPredictionTimeRef s = lastPredictionTimeRef s0
   /\ predictCalls s = predictCalls s0)
  \/ ((t0 <= lastPredictionTimeRef s)%Q /\ (lastPredictionTimeRef s < t0 + 200)%Q
      /\ predictCalls s <= S (predictCalls s0)).

Lemma step_windowed (op : Ops.Op) (s : Hook) :
  (forall t a b, op = Ops.Predict t a b -> (t0 <= t)%Q /\ (t < t0 + 200)%Q) ->
  windowed s -> windowed (Ops.step op s).
Proof.
  intros Hop Hs. destruct op as [r|t a b|]; simpl; [exact Hs| |exact Hs].
  destruct (Hop t a b eq_refl) as [Hlo Hhi].
  destruct (runPrediction_cases t a b s) as [->|(Hgate & Hstamp & Hcount)];
    [exact Hs|].
  destruct Hs as [[Hlast Hcalls]|(Hlo' & Hhi' & Hcalls)].
  - right. rewrite Hstamp. repeat split; [assumption | assumption | lia].
  - exfalso. unfold Predictor.throttled in Hgate.
    apply Qltb_false in Hgate. lra.
Qed.

Lemma run_windowed (ops : list Ops.Op) : forall s : Hook,
  Ops.predictionsWithin t0 ops -> windowed s -> windowed (Ops.run ops s).
Proof.
  induction ops as [|op ops IH]; intros s Hops Hs; [exact Hs|].
  apply IH.
  - intros t a b Hin. apply (Hops t a b). by right.
  - apply step_windowed; [|exact Hs].
    intros t a b ->. apply (Hops t a b). by left.
Qed.

End ThrottleWindow.

(** X5.  However many calls of [runPrediction] fall in a window shorter
    than 200 ms, with frames ingested or the buffer reset in between or not,
    the inference runs at most once in that window. *)
Theorem one_inference_per_window (s : Hook) (t0 : Q) (ops : list Ops.Op) :
  Ops.predictionsWithin t0 ops ->
  predictCalls (Ops.run ops s) <= S (predictCalls s).
Proof.
  intros Hops.
  destruct (run_windowed s t0 ops s Hops) as [[_ Hc]|(_ & _ & Hc)]; [by left | lia | lia].
Qed.

Lemma one_inference_per_window_witness :
  let calls := [Ops.Predict 1000 0 0; Ops.Predict 1100 0 0;
                Ops.Ingest Sample.noHands; Ops.Predict 1199 0 0] in
  Ops.predictionsWithin 1000 calls
  /\ predictCalls (Ops.run calls (Sample.fullHook [0.1; 0.9]%float)) <= 1.
Proof.
  intros calls.
  assert (Hwithin : Ops.predictionsWithin 1000 calls).
  { intros t a b Hin. subst calls.
    repeat (apply elem_of_cons in Hin as [Heq|Hin];
            [first [discriminate
                   | injection Heq as -> _ _;
                     split; [unfold Qle | unfold Qlt]; simpl; lia]|]).
    by apply elem_of_nil in Hin. }
  split; [exact Hwithin|].
  exact (one_inference_per_window (Sample.fullHook [0.1; 0.9]%float) 1000 calls Hwithin).
Defined.

(** ** What the predictor returns *)

Section ArgmaxFacts.

(** The loop's accumulator after the elements [seen], started at slot [k]:
    it is still the initial pair and nothing seen exceeded 0, or it holds an
    element together with its position. *)
Lemma argmax_loop (rest : list float) : forall (seen : list float) (acc : float * nat),
  (acc = (0%float, 0) /\ Forall (fun v => PrimFloat.ltb 0 v = false) seen
   \/ seen !! snd acc = Some (fst acc)) ->
  let res := JS.forEach_from Predictor.argmax_step (length seen) rest acc in
  res = (0%float, 0) /\ Forall (fun v => PrimFloat.ltb 0 v = false) (seen ++ rest)
  \/ (seen ++ rest) !! snd res = Some (fst res).
Proof.
  induction rest as [|v rest IH]; intros seen acc Hacc; cbn [JS.forEach_from].
  - by rewrite app_nil_r.
  - rewrite (cons_middle v seen rest), app_assoc.
    replace (S (length seen)) with (length (seen ++ [v]))
      by (rewrite length_app; simpl; lia).
    apply IH. unfold Predictor.argmax_step.
    destruct (PrimFloat.ltb (fst acc) v) eqn:Hlt.
    + right. simpl. rewrite lookup_app_r by lia.
      by rewrite Nat.sub_diag.
    + destruct Hacc as [[-> Hseen]|Hin].
      * left. split; [reflexivity|]. apply Forall_app. split; [assumption|].
        by constructor.
      * right. rewrite lookup_app_l; [assumption|].
        by apply lookup_lt_Some in Hin.
Qed.

End ArgmaxFacts.

(** X6.  The arg-max loop returns either the position of an element of the
    prediction array together with that element, or, when no element exceeds
    0 (all zero, negative or NaN), the pair it started from: confidence 0 at
    index 0.  The index is therefore inside a non-empty array, and when the
    array is no longer than the label list the label is read at the arg-max
    index itself, unclamped. *)
Theorem argmax_picks_an_element (predictionArray : list float) (labels : list string) :
  let '(maxProb, maxIndex) := Predictor.argmax predictionArray in
  ((maxProb = 0%float /\ maxIndex = 0
     /\ Forall (fun v => PrimFloat.ltb 0 v = false) predictionArray)
   \/ predictionArray !! maxIndex = Some maxProb)
  /\ (predictionArray <> [] -> maxIndex < length predictionArray)
  /\ (predictionArray <> [] -> length predictionArray <= length labels ->
        fst (Predictor.selectLabel predictionArray labels) = labels !! maxIndex).
Proof.
  pose proof (argmax_loop predictionArray [] (0%float, 0)
                ltac:(left; by split)) as H.
  cbv zeta in H. simpl in H. unfold Predictor.selectLabel.
  change (JS.forEach_from Predictor.argmax_step 0 predictionArray (0%float, 0))
    with (Predictor.argmax predictionArray) in H.
  destruct (Predictor.argmax predictionArray) as [maxProb maxIndex]. simpl in *.
  assert (Hin : predictionArray <> [] -> maxIndex < length predictionArray).
  { intros Hne. destruct H as [[[= -> ->] _]|H].
    - destruct predictionArray; [done | simpl; lia].
    - by apply lookup_lt_Some in H. }
  split; [|split; [exact Hin|]].
  - destruct H as [[[= -> ->] Hall]|H]; [left | right]; done.
  - intros Hne Hlen. specialize (Hin Hne).
    unfold JS.index, Predictor.safeIndex.
    destruct (Z.min _ _ <? 0)%Z eqn:E; [lia|]. f_equal. lia.
Qed.

Lemma argmax_picks_an_element_witness :
  snd (Predictor.argmax [0.2; 0.75; 0.05]%float) < 3
  /\ fst (Predictor.selectLabel [0.2; 0.75; 0.05]%float DEFAULT_CLASS_LABELS)
     = Some "Thank you"%string.
Proof.
  pose proof (argmax_picks_an_element [0.2; 0.75; 0.05]%float DEFAULT_CLASS_LABELS)
    as H.
  cbv beta iota zeta delta [Predictor.argmax JS.forEach JS.forEach_from
                            Predictor.argmax_step fst snd] in H.
  destruct H as (_ & Hin & Hlabel).
  split.
  - exact (Hin ltac:(discriminate)).
  - exact (Hlabel ltac:(discriminate) ltac:(simpl; lia)).
Defined.

(** X7.  A model that is not flagged as a mock never gets a prediction out
    below the threshold: whatever [runPrediction] returns has a confidence
    of at least [CONFIDENCE_THRESHOLD], is not marked as mock, is the result
    of exactly one inference run, and with the hook's label list carries a
    label. *)
Theorem emitted_prediction_passes_threshold (t : Q) (random1 random2 : float)
    (s : Hook) (m : Model) (p : Prediction) :
  model s = Some m -> mockModel m = false ->
  snd (runPrediction t random1 random2 s) = Some p ->
  PrimFloat.leb CONFIDENCE_THRESHOLD (confidence p) = true
  /\ isMock p = false
  /\ predictCalls (fst (runPrediction t random1 random2 s)) = S (predictCalls s)
  /\ (classLabels s <> [] -> is_Some (label p)).
Proof.
  intros Hm Hmock. unfold runPrediction. rewrite Hm, Hmock.
  destruct (negb (isBufferFull s)); [discriminate|].
  destruct (predict m) as [f|]; [|discriminate].
  destruct (Predictor.throttled t s); [discriminate|].
  cbn [orb andb USE_MOCK_MODEL]. unfold Predictor.infer.
  destruct (negb (bool_decide _)); [discriminate|].
  cbn [bufferRef count_predict classLabels set_lastPredictionTime].
  destruct (f (bufferRef s)) as [[|v arr]|]; [discriminate| |discriminate].
  unfold Predictor.gate.
  destruct (Predictor.selectLabel (v :: arr) (classLabels s)) as [lbl conf] eqn:Hsel.
  destruct (PrimFloat.leb CONFIDENCE_THRESHOLD conf) eqn:Hgate; [|discriminate].
  cbn [snd fst]. intros [= <-]. cbn [confidence isMock label predictCalls setPrediction].
  split; [exact Hgate|]. split; [reflexivity|]. split; [reflexivity|].
  intros Hlabels. unfold Predictor.selectLabel in Hsel.
  destruct (Predictor.argmax (v :: arr)) as [maxProb maxIndex].
  injection Hsel as <- _.
  unfold JS.index, Predictor.safeIndex.
  assert (0 < length (classLabels s)) by (destruct (classLabels s); [done | simpl; lia]).
  destruct (Z.min _ _ <? 0)%Z eqn:E; [apply Z.ltb_lt in E; lia|].
  apply lookup_lt_is_Some_2. apply Z.ltb_ge in E. lia.
Qed.

Lemma emitted_prediction_passes_threshold_witness :
  let s := Sample.fullHook [0.1; 0.9]%float in
  PrimFloat.leb CONFIDENCE_THRESHOLD 0.9 = true
  /\ predictCalls (fst (runPrediction 1000 0 0 s)) = 1.
Proof.
  intros s.
  destruct (emitted_prediction_passes_threshold 1000 0 0 s
              (Sample.constantModel [0.1; 0.9]%float)
              {| label := Some "Thank you"%string; confidence := 0.9%float;
                 isMock := false |} eq_refl eq_refl eq_refl)
    as (Hconf & _ & Hcalls & _).
  exact (conj Hconf Hcalls).
Defined.

(** ** The simplified hook *)

Section SimplifiedFacts.

Lemma tryPredict_frame (m : Simplified.Model) (s s' : Simplified.Hook) :
  Simplified.tryPredict m s = Ok s' ->
  Simplified.model s' = Simplified.model s
  /\ Simplified.error s' = Simplified.error s
  /\ Simplified.isPredicting s' = Simplified.isPredicting s
  /\ is_Some (Simplified.prediction s').
Proof.
  unfold Simplified.tryPredict.
  destruct (negb (bool_decide _)); [discriminate|].
  destruct (List.find _ _); [discriminate|].
  destruct (Simplified.predict m) as [f|]; [|discriminate].
  destruct (f (Simplified.bufferRef s)) as [data|e]; [|discriminate].
  destruct (Predictor.argmax data) as [max idx].
  destruct (PrimFloat.leb _ _); intros [= <-]; simpl; by repeat split.
Qed.

Lemma simplified_push_frames (r : LandmarkerResult) (buffer : list Frame) :
  Forall (fun frame : Frame => length frame = 126) buffer ->
  Forall (fun frame : Frame => length frame = 126)
    (Buffer.push_bounded (Simplified.frameOf r) buffer).
Proof.
  intros Hall. unfold Buffer.push_bounded.
  assert (Hpushed : Forall (fun frame : Frame => length frame = 126)
                      (buffer ++ [Simplified.frameOf r])).
  { apply Forall_app. split; [assumption|]. constructor; [|constructor].
    apply (frameOf_slots r). }
  case_decide; [|assumption]. by apply Forall_drop.
Qed.

Lemma simplifiedStep_consistent (m : option Simplified.Model)
    (op : Ops.SimplifiedOp) (s : Simplified.Hook) :
  Ops.simplifiedConsistent m s -> Ops.simplifiedConsistent m (Ops.simplifiedStep op s).
Proof.
  intros (Hlen & Hmirror & Hflag & Hframes & Hidle & Hmodel).
  assert (Hempty : forall u, Simplified.model u = m ->
            Ops.simplifiedConsistent m
              (Simplified.set_buffer [] 0 false (Simplified.setIsPredicting false u))).
  { intros u Hu. unfold Ops.simplifiedConsistent, FRAME_BUFFER_SIZE. simpl.
    repeat split; (lia || done). }
  destruct op as [r| |]; cbn [Ops.simplifiedStep].
  - unfold Ops.simplifiedConsistent, Simplified.processHandLandmarks.
    cbn [fst Simplified.bufferRef Simplified.bufferLength Simplified.isBufferFull
         Simplified.isPredicting Simplified.model Simplified.set_buffer].
    pose proof (push_bounded_length (Simplified.frameOf r)
                  (Simplified.bufferRef s) Hlen).
    pose proof (simplified_push_frames r _ Hframes).
    repeat split; assumption.
  - unfold Simplified.runPrediction.
    destruct (Simplified.model s) as [mdl|] eqn:Hm;
      [|by unfold Ops.simplifiedConsistent; rewrite Hm].
    destruct (negb (Simplified.isBufferFull s));
      [by unfold Ops.simplifiedConsistent; rewrite Hm|].
    destruct (Simplified.tryPredict mdl (Simplified.setIsPredicting true s))
      as [s'|e] eqn:Htry.
    + apply Hempty. apply tryPredict_frame in Htry as (-> & _). simpl. congruence.
    + apply Hempty. simpl. congruence.
  - unfold Ops.simplifiedConsistent, FRAME_BUFFER_SIZE. simpl.
    repeat split; (lia || done).
Qed.

End SimplifiedFacts.

(** X8.  In the simplified hook, a call of [runPrediction] with a model and
    the full flag always empties the buffer and clears the flags, whether
    the inference answered or threw; when it threw, the error is set to the
    message behind "Prediction error: " and the stored prediction stays. *)
Theorem simplified_prediction_consumes_buffer (s : Simplified.Hook)
    (m : Simplified.Model) :
  Simplified.model s = Some m -> Simplified.isBufferFull s = true ->
  let s' := Simplified.runPrediction s in
  Simplified.bufferRef s' = [] /\ Simplified.bufferLength s' = 0
  /\ Simplified.isBufferFull s' = false /\ Simplified.isPredicting s' = false
  /\ match Simplified.tryPredict m (Simplified.setIsPredicting true s) with
     | Ok _ =>
         is_Some (Simplified.prediction s')
         /\ Simplified.error s' = Simplified.error s
     | Throw e =>
         Simplified.prediction s' = Simplified.prediction s
         /\ Simplified.error s' = Some ("Prediction error: " +:+ e)
     end.
Proof.
  intros Hm Hfull s'. subst s'. unfold Simplified.runPrediction.
  rewrite Hm, Hfull. cbn [negb].
  destruct (Simplified.tryPredict m (Simplified.setIsPredicting true s))
    as [s'|e] eqn:Htry; cbn.
  - apply tryPredict_frame in Htry as (_ & He & _ & Hp). by repeat split.
  - by repeat split.
Qed.

Lemma simplified_prediction_consumes_buffer_witness :
  let failing := {| Simplified.predict := Some (fun _ => Throw "backend lost");
                    Simplified.outputNames := None |} in
  let s := foldl (fun s r => fst (Simplified.processHandLandmarks r s))
                 (Simplified.initialHook (Some failing))
                 (replicate 30 Sample.noHands) in
  Simplified.bufferRef (Simplified.runPrediction s) = []
  /\ Simplified.error (Simplified.runPrediction s)
     = Some "Prediction error: backend lost".
Proof.
  intros failing s.
  assert (Hm : Simplified.model s = Some failing) by (vm_compute; reflexivity).
  assert (Hfull : Simplified.isBufferFull s = true) by (vm_compute; reflexivity).
  destruct (simplified_prediction_consumes_buffer s failing Hm Hfull)
    as (Hbuffer & _ & _ & _ & Htry).
  assert (Hthrows : Simplified.tryPredict failing (Simplified.setIsPredicting true s)
                    = Throw "backend lost") by (vm_compute; reflexivity).
  rewrite Hthrows in Htry. split; [exact Hbuffer|]. exact (proj2 Htry).
Defined.

(** X9.  Whatever the caller does with the simplified hook (ingesting,
    predicting, resetting, in any order), the buffer holds at most 30 frames
    of 126 values each, [bufferLength] is its length, [isBufferFull] is true
    exactly at 30 frames, and no prediction is left in flight; so the two
    size checks of [runPrediction] do not throw in a call that finds the
    flag set in the state it runs on. *)
Theorem simplified_hook_stays_consistent (m : option Simplified.Model)
    (ops : list Ops.SimplifiedOp) :
  let s := Ops.simplifiedRun ops (Simplified.initialHook m) in
  Ops.simplifiedConsistent m s
  /\ (Simplified.isBufferFull s = true ->
      length (Simplified.bufferRef s) = FRAME_BUFFER_SIZE
      /\ List.find (fun frame : Frame => negb (bool_decide (length frame = 126)))
           (Simplified.bufferRef s) = None).
Proof.
  intros s.
  assert (Hs : Ops.simplifiedConsistent m s).
  { subst s. unfold Ops.simplifiedRun.
    assert (Hrun : forall u, Ops.simplifiedConsistent m u ->
              Ops.simplifiedConsistent m
                (foldl (fun s op => Ops.simplifiedStep op s) u ops)).
    { induction ops as [|op ops IH]; intros u Hu; [exact Hu|].
      apply IH. by apply simplifiedStep_consistent. }
    apply Hrun. unfold Ops.simplifiedConsistent, FRAME_BUFFER_SIZE. simpl.
    repeat split; (lia || done). }
  split; [exact Hs|]. destruct Hs as (_ & _ & Hflag & Hframes & _).
  intros Hfull. rewrite Hfull in Hflag. symmetry in Hflag.
  apply bool_decide_eq_true_1 in Hflag. split; [exact Hflag|].
  clear Hflag Hfull. induction Hframes as [|fr frs Hfr _ IH]; simpl; [reflexivity|].
  rewrite bool_decide_eq_true_2 by assumption. exact IH.
Qed.
(** * Further properties of the archive handler *)

Section HandlerOutcomeFacts.

Variable files : ZipFiles.
Variable modelDir : string.

Let unresolvedIn (paths : list string) : list string :=
  filter (fun path =>
            ZipIO.findWeightFile files (ZipIO.possiblePaths modelDir path) = None)
         paths.

Let attempted (paths : list string) : list ZipIO.ConsoleError :=
  map (fun path => ZipIO.AttemptedPaths (ZipIO.possiblePaths modelDir path))
      (unresolvedIn paths).

Let notFound (path : string) : string :=
  "Weight file not found in ZIP for path: " +:+ path.

(** [Promise.all] over the paths of a group: one console entry per path
    without a candidate, and the error of the first such path. *)
Lemma loadWeights_outcome (paths : list string) :
  let run := ZipIO.promiseAll (map (ZipIO.loadWeight files modelDir) paths) in
  fst run = attempted paths
  /\ match unresolvedIn paths with
     | [] => exists buffers, snd run = Ok buffers
     | missing :: _ => snd run = Throw (notFound missing)
     end.
Proof.
  induction paths as [|path paths IH]; [split; [reflexivity | by eexists]|].
  cbn [map ZipIO.promiseAll]. cbv zeta in IH.
  destruct (ZipIO.promiseAll (map (ZipIO.loadWeight files modelDir) paths))
    as [logs rs]. cbn [fst snd] in IH. destruct IH as [Hlogs Hrs].
  unfold attempted, unresolvedIn in *. rewrite filter_cons.
  unfold ZipIO.loadWeight.
  destruct (ZipIO.findWeightFile files (ZipIO.possiblePaths modelDir path))
    as [[tryPath weightFile]|] eqn:Hfind.
  - rewrite decide_False by discriminate. cbn [fst snd app].
    split; [exact Hlogs|].
    destruct (filter _ paths) as [|missing rest].
    + destruct Hrs as [buffers ->]. by eexists.
    + by rewrite Hrs.
  - rewrite decide_True by reflexivity. cbn [fst snd app map].
    split; [by rewrite Hlogs | reflexivity].
Qed.

Lemma loadGroup_outcome (group : Descriptor.Group) :
  let run := ZipIO.loadGroup files modelDir group in
  fst run = attempted (Descriptor.paths group)
  /\ match unresolvedIn (Descriptor.paths group) with
     | [] => exists buffer, snd run = Ok buffer
     | missing :: _ => snd run = Throw (notFound missing)
     end.
Proof.
  pose proof (loadWeights_outcome (Descriptor.paths group)) as [Hlog Hres].
  unfold ZipIO.loadGroup.
  destruct (ZipIO.promiseAll
              (map (ZipIO.loadWeight files modelDir) (Descriptor.paths group)))
    as [log rs]. cbn [fst snd] in *.
  split; [exact Hlog|].
  destruct (unresolvedIn (Descriptor.paths group)) as [|missing rest].
  - destruct Hres as [buffers ->]. by eexists.
  - by rewrite Hres.
Qed.

Lemma loadGroups_outcome (manifest : list Descriptor.Group) :
  let run := ZipIO.promiseAll (map (ZipIO.loadGroup files modelDir) manifest) in
  fst run = attempted (flat_map Descriptor.paths manifest)
  /\ match unresolvedIn (flat_map Descriptor.paths manifest) with
     | [] => exists buffers, snd run = Ok buffers
     | missing :: _ => snd run = Throw (notFound missing)
     end.
Proof.
  induction manifest as [|group manifest IH]; [split; [reflexivity | by eexists]|].
  cbn [map ZipIO.promiseAll flat_map]. cbv zeta in IH.
  pose proof (loadGroup_outcome group) as [Hlog Hres]. cbv zeta in Hlog, Hres.
  destruct (ZipIO.loadGroup files modelDir group) as [log r].
  destruct (ZipIO.promiseAll (map (ZipIO.loadGroup files modelDir) manifest))
    as [logs rs]. cbn [fst snd] in *. destruct IH as [Hlogs Hrs].
  unfold attempted, unresolvedIn in *. rewrite filter_app, map_app.
  split; [by rewrite Hlog, Hlogs|].
  destruct (filter _ (Descriptor.paths group)) as [|missing rest].
  - destruct Hres as [buffer ->]. cbn [app].
    destruct (filter _ (flat_map Descriptor.paths manifest)) as [|missing rest].
    + destruct Hrs as [buffers ->]. by eexists.
    + by rewrite Hrs.
  - cbn [app]. by rewrite Hres.
Qed.

End HandlerOutcomeFacts.

Section DescriptorFacts.


End DescriptorFacts.

(** X10.  With the descriptor found and parsed, the handler's outcome is
    fixed by the manifest paths that none of their five candidates resolves,
    taken in manifest order (group after group, path after path): with no
    such path [load] returns artifacts and writes nothing to the error
    console; otherwise it writes the candidate list of every such path, in
    that order, then the error itself, and the error thrown names the first
    of them. *)
Theorem handler_reports_first_missing_path
    (parse : bytes -> result Descriptor.ModelJSON) (files : ZipFiles)
    (modelJsonFile : string) (content : bytes) (modelJSON : Descriptor.ModelJSON) :
  List.find ZipIO.isModelJson (Zip.keys files) = Some modelJsonFile ->
  Zip.file files modelJsonFile = Some content ->
  parse content = Ok modelJSON ->
  let modelDir := ZipIO.modelDirOf modelJsonFile in
  let allPaths := flat_map Descriptor.paths (Descriptor.weightsManifest modelJSON) in
  let unresolved :=
    filter (fun path =>
              ZipIO.findWeightFile files (ZipIO.possiblePaths modelDir path) = None)
           allPaths in
  match unresolved with
  | [] => exists artifacts, ZipIO.load parse files = ([], Ok artifacts)
  | missing :: _ =>
      let e := "Weight file not found in ZIP for path: " +:+ missing in
      ZipIO.load parse files
      = (map (fun path => ZipIO.AttemptedPaths (ZipIO.possiblePaths modelDir path))
             unresolved
         ++ [ZipIO.HandlerError e],
         Throw e)
  end.
Proof.
  intros Hfound Hcontent Hparsed modelDir allPaths unresolved.
  unfold ZipIO.load.
  rewrite (tryLoad_parsed parse files modelJsonFile content modelJSON)
    by assumption.
  pose proof (loadGroups_outcome files modelDir
                (Descriptor.weightsManifest modelJSON)) as [Hlog Hres].
  fold modelDir. fold allPaths in Hlog, Hres. fold unresolved in Hlog, Hres.
  destruct (ZipIO.promiseAll
              (map (ZipIO.loadGroup files modelDir)
                   (Descriptor.weightsManifest modelJSON))) as [log rs].
  cbn [fst snd] in *. subst log.
  destruct unresolved as [|missing rest].
  - destruct Hres as [buffers ->]. by eexists.
  - by rewrite Hres.
Qed.

Lemma handler_reports_first_missing_path_witness :
  ZipIO.load SampleZip.parseTwoGroups
    [("pkg/model.json", [x7b; x7d]); ("assets/a.bin", [x01])]
  = ([ ZipIO.AttemptedPaths
         ["pkg/b.bin"; "b.bin"; "model/b.bin"; "assets/b.bin"; "b.bin"];
       ZipIO.AttemptedPaths
         ["pkg/./c.bin"; "./c.bin"; "model/./c.bin"; "assets/./c.bin"; "c.bin"];
       ZipIO.HandlerError "Weight file not found in ZIP for path: b.bin" ],
     Throw "Weight file not found in ZIP for path: b.bin").
Proof.
  exact (handler_reports_first_missing_path SampleZip.parseTwoGroups
           [("pkg/model.json", [x7b; x7d]); ("assets/a.bin", [x01])]
           "pkg/model.json" [x7b; x7d] SampleZip.twoGroups
           eq_refl eq_refl eq_refl).
Defined.


(** ** Keys of the archive *)

Section KeyFacts.

Lemma append_cons (c : ascii) (s t : string) :
  String c s +:+ t = String c (s +:+ t).
Proof. reflexivity. Qed.

Lemma append_nil_l (t : string) : "" +:+ t = t.
Proof. reflexivity. Qed.

Local Ltac unfold_append := rewrite ?append_cons, ?append_nil_l.

Lemma append_nil_r (s : string) : s +:+ "" = s.
Proof. induction s as [|c s IH]; unfold_append; [reflexivity | by rewrite IH]. Qed.

Lemma append_assoc (a b c : string) : (a +:+ b) +:+ c = a +:+ (b +:+ c).
Proof.
  induction a as [|x a IH]; unfold_append; [reflexivity | by rewrite IH].
Qed.

Lemma rev_app_append (a b : string) : String.rev_app a b = String.rev a +:+ b.
Proof.
  unfold String.rev. revert b. induction a as [|x a IH]; intros b; simpl.
  - reflexivity.
  - rewrite (IH (String x b)), (IH (String x "")), append_assoc. reflexivity.
Qed.

Lemma rev_append (a b : string) :
  String.rev (a +:+ b) = String.rev b +:+ String.rev a.
Proof.
  induction a as [|x a IH]; unfold_append.
  - by rewrite append_nil_r.
  - unfold String.rev at 1 3. simpl.
    rewrite (rev_app_append (a +:+ b)), (rev_app_append a), IH.
    by rewrite append_assoc.
Qed.

Lemma rev_involutive (s : string) : String.rev (String.rev s) = s.
Proof.
  induction s as [|x s IH]; [reflexivity|].
  unfold String.rev at 2. simpl. rewrite rev_app_append, rev_append, IH.
  reflexivity.
Qed.

Lemma prefix_split (p t : string) :
  String.prefix p t = true -> exists r, t = p +:+ r.
Proof.
  revert t. induction p as [|x p IH]; intros t.
  - intros _. by exists t.
  - destruct t as [|y t]; simpl; [discriminate|].
    destruct (Ascii.ascii_dec x y) as [->|]; [|discriminate].
    intros Hp. destruct (IH t Hp) as [r ->]. by exists r.
Qed.

(** [s.endsWith(suffix)] holds of the strings that end in the suffix. *)
Lemma endsWith_split (s suffix : string) :
  Str.endsWith s suffix = true -> exists front, s = front +:+ suffix.
Proof.
  unfold Str.endsWith. intros Hp. apply prefix_split in Hp as [r Hr].
  exists (String.rev r).
  rewrite <- (rev_involutive s), Hr, rev_append, rev_involutive. reflexivity.
Qed.

Lemma substring_append (front s : string) :
  String.substring (String.length front) (String.length s) (front +:+ s) = s.
Proof.
  induction front as [|x front IH]; unfold_append; simpl;
    [apply substring_all | exact IH].
Qed.

Lemma includes_append (front sub : string) :
  sub <> "" -> Str.includes (front +:+ sub) sub = true.
Proof.
  intros Hne. unfold Str.includes.
  destruct (String.index 0 sub (front +:+ sub)) eqn:Hindex; [reflexivity|].
  exfalso.
  apply (String.index_correct3 0 (String.length front) sub (front +:+ sub));
    [assumption | assumption | lia | apply substring_append].
Qed.

Lemma isModelJson_includes (name : string) :
  ZipIO.isModelJson name = true -> Str.includes name "model.json" = true.
Proof.
  unfold ZipIO.isModelJson. intros H. apply orb_true_iff in H as [H|H].
  - apply endsWith_split in H as [front ->]. by apply includes_append.
  - apply String.eqb_eq in H as ->. reflexivity.
Qed.

(** Where [lastIndexOf] finds nothing, the loop leaves its result as it
    was. *)
Lemma lastIndexOf_from_none (c : ascii) (s : string) :
  forall (i : nat) (found : option nat),
    Str.lastIndexOf_from c i s found = None ->
    found = None /\ forall j f, Str.lastIndexOf_from c j s f = f.
Proof.
  induction s as [|a s IH]; intros i found H; simpl in *.
  - by split.
  - apply IH in H as [Hfound Hstable].
    destruct (Ascii.eqb a c); [discriminate|].
    split; [assumption|]. intros j f. apply Hstable.
Qed.

Lemma lastIndexOf_from_append (c : ascii) (base : string) (front : string) :
  Str.lastIndexOf base c = None ->
  forall (i : nat) (found : option nat),
    Str.lastIndexOf_from c i (front +:+ String c base) found
    = Some (i + String.length front).
Proof.
  intros Hbase. apply lastIndexOf_from_none in Hbase as [_ Hstable].
  induction front as [|a front IH]; intros i found; unfold_append; simpl.
  - rewrite Ascii.eqb_refl, Hstable. f_equal. lia.
  - rewrite IH. f_equal. lia.
Qed.

Lemma substring_front (front s : string) :
  String.substring 0 (String.length front) (front +:+ s) = front.
Proof.
  induction front as [|x front IH]; unfold_append; simpl;
    [by destruct s | by rewrite IH].
Qed.

Lemma length_append (a b : string) :
  String.length (a +:+ b) = String.length a + String.length b.
Proof.
  induction a as [|x a IH]; unfold_append; simpl; [reflexivity | by rewrite IH].
Qed.

Lemma modelDirOf_slash (dir base : string) :
  Str.lastIndexOf base "/" = None ->
  ZipIO.modelDirOf (dir +:+ "/" +:+ base) = dir +:+ "/".
Proof.
  intros Hbase. unfold ZipIO.modelDirOf, Str.lastIndexOf.
  change ("/" +:+ base) with (String "/" base).
  rewrite (lastIndexOf_from_append "/" base dir Hbase). cbn [Nat.add].
  change (String "/" base) with ("/" +:+ base).
  rewrite <- (append_assoc dir "/" base).
  replace (String.length dir + 1) with (String.length (dir +:+ "/"))
    by (rewrite length_append; reflexivity).
  apply substring_front.
Qed.

End KeyFacts.

(** X12.  The directory the handler takes for the descriptor is the key
    up to and including its last slash, and the empty string for a key
    without a slash.  So a weight file stored beside the descriptor, under
    the same directory, is the one the handler reads, whatever else the
    archive holds under the path itself, [model/] or [assets/]. *)
Theorem weights_beside_descriptor (files : ZipFiles) (dir base path : string)
    (weightFile : bytes) :
  Str.lastIndexOf base "/" = None ->
  Zip.file files (dir +:+ "/" +:+ path) = Some weightFile ->
  ZipIO.modelDirOf base = ""
  /\ ZipIO.modelDirOf (dir +:+ "/" +:+ base) = dir +:+ "/"
  /\ ZipIO.loadWeight files (ZipIO.modelDirOf (dir +:+ "/" +:+ base)) path
     = ([], Ok weightFile).
Proof.
  intros Hbase Hfile.
  split; [unfold ZipIO.modelDirOf; by rewrite Hbase|].
  rewrite modelDirOf_slash by assumption. split; [reflexivity|].
  unfold ZipIO.loadWeight, ZipIO.possiblePaths. cbn [ZipIO.findWeightFile].
  replace ((dir +:+ "/") +:+ path) with (dir +:+ "/" +:+ path)
    by (by rewrite append_assoc).
  by rewrite Hfile.
Qed.

Lemma weights_beside_descriptor_witness :
  ZipIO.modelDirOf "tfjs/v5/model.json" = "tfjs/v5/"
  /\ ZipIO.loadWeight
       [ ("group1.bin", [x00]); ("tfjs/v5/model.json", [x7b; x7d]);
         ("model/group1.bin", [x01]); ("tfjs/v5/group1.bin", [x02]) ]
       (ZipIO.modelDirOf "tfjs/v5/model.json") "group1.bin"
     = ([], Ok [x02]).
Proof.
  exact (proj2 (weights_beside_descriptor
                  [ ("group1.bin", [x00]); ("tfjs/v5/model.json", [x7b; x7d]);
                    ("model/group1.bin", [x01]); ("tfjs/v5/group1.bin", [x02]) ]
                  "tfjs/v5" "model.json" "group1.bin" [x02] eq_refl eq_refl)).
Defined.

(** X13.  The validation of the download ([includes]) is weaker than the
    handler's search for the descriptor ([endsWith]): an archive in which the
    handler finds a descriptor always passes the validation, but an archive
    can pass the validation and leave the handler without a descriptor. *)
Theorem validation_weaker_than_lookup (files : ZipFiles) :
  (is_Some (List.find ZipIO.isModelJson (Zip.keys files)) ->
   Loader.hasModelJson files = true)
  /\ exists accepted : ZipFiles,
       Loader.hasModelJson accepted = true
       /\ forall parse,
            ZipIO.load parse accepted
            = ([ZipIO.HandlerError "model.json not found in ZIP file"],
               Throw "model.json not found in ZIP file").
Proof.
  split.
  - intros [name Hfound]. apply find_some in Hfound as [Hin Hname].
    unfold Loader.hasModelJson. apply existsb_exists. exists name.
    split; [assumption | by apply isModelJson_includes].
  - exists [("model.json.bak", [x7b; x7d])]. split; [reflexivity|].
    intros parse. reflexivity.
Qed.
(** * Further properties of the loader *)

(** ** Time stamps *)

Section TimestampFacts.

Lemma digits_step (c : ascii) (k : Z) (rest : string) (acc : option Z) :
  Str.digitValue 10 c = Some k ->
  Str.digits 10 (String c rest) acc
  = Str.digits 10 rest (Some (10 * default 0%Z acc + k)%Z).
Proof. intros Hc. cbn [Str.digits]. by rewrite Hc. Qed.

Local Ltac digit_step :=
  cbn [NilEmpty.string_of_uint Pos.of_uint_acc Pos.of_uint];
  erewrite digits_step by reflexivity;
  match goal with
  | |- context [(Z.of_nat (nat_of_ascii ?c) - 48)%Z] =>
      let k := eval vm_compute in (Z.of_nat (nat_of_ascii c) - 48)%Z in
      change (Z.of_nat (nat_of_ascii c) - 48)%Z with k
  end;
  cbn [default from_option id].

Lemma digits_uint_pos (d : Decimal.uint) : forall acc : positive,
  Str.digits 10 (NilEmpty.string_of_uint d) (Some (Z.pos acc))
  = Some (Z.pos (Pos.of_uint_acc d acc)).
Proof.
  induction d as [|d IH|d IH|d IH|d IH|d IH|d IH|d IH|d IH|d IH|d IH];
    intros acc; [reflexivity|..]; digit_step; rewrite <- IH;
    do 2 f_equal; lia.
Qed.

Lemma digits_uint_zero (d : Decimal.uint) :
  Str.digits 10 (NilEmpty.string_of_uint d) (Some 0%Z)
  = Some (Z.of_N (Pos.of_uint d)).
Proof.
  induction d as [|d IH|d IH|d IH|d IH|d IH|d IH|d IH|d IH|d IH|d IH];
    [reflexivity|..]; digit_step; [exact IH | apply digits_uint_pos ..].
Qed.

Lemma digits_uint (d : Decimal.uint) :
  d <> Decimal.Nil ->
  Str.digits 10 (NilEmpty.string_of_uint d) None
  = Some (Z.of_N (Pos.of_uint d)).
Proof.
  intros Hd. destruct d; [done|..]; digit_step;
    [apply digits_uint_zero | apply digits_uint_pos ..].
Qed.

(** A decimal numeral is not taken for a hexadecimal one. *)
Lemma uint_not_hex (d : Decimal.uint) :
  String.prefix "0x" (NilEmpty.string_of_uint d)
  || String.prefix "0X" (NilEmpty.string_of_uint d) = false.
Proof. destruct d as [|d|d|d|d|d|d|d|d|d|d]; try reflexivity; by destruct d. Qed.

Lemma unsignedInt_uint (d : Decimal.uint) :
  d <> Decimal.Nil ->
  Str.unsignedInt (NilEmpty.string_of_uint d) = Some (Z.of_N (Pos.of_uint d)).
Proof.
  intros Hd. unfold Str.unsignedInt. rewrite uint_not_hex. by apply digits_uint.
Qed.

Lemma parseInt_uint (d : Decimal.uint) :
  d <> Decimal.Nil ->
  Str.parseInt (NilEmpty.string_of_uint d) = Some (Z.of_N (Pos.of_uint d)).
Proof.
  intros Hd. rewrite <- (unsignedInt_uint d Hd). by destruct d.
Qed.

Lemma parseInt_minus (rest : string) :
  Str.parseInt (String "-" rest) = Z.opp <$> Str.unsignedInt rest.
Proof. reflexivity. Qed.

Lemma string_of_uint_nonnil (d : Decimal.uint) :
  d <> Decimal.Nil -> NilZero.string_of_uint d = NilEmpty.string_of_uint d.
Proof. by destruct d. Qed.

(** [parseInt(n.toString())] is [n]. *)
Lemma parseInt_ofZ (n : Z) : Str.parseInt (Str.ofZ n) = Some n.
Proof.
  unfold Str.ofZ. destruct n as [|p|p]; [reflexivity|..];
    pose proof (DecimalPos.Unsigned.to_uint_nonnil p) as Hd;
    pose proof (DecimalPos.Unsigned.of_to p) as Hp;
    cbn [Z.to_int NilZero.string_of_int];
    rewrite string_of_uint_nonnil by assumption.
  - rewrite parseInt_uint by assumption. by rewrite Hp.
  - rewrite parseInt_minus, unsignedInt_uint by assumption. by rewrite Hp.
Qed.

(** [n.toString()] is never the empty string. *)
Lemma ofZ_truthy (n : Z) : Str.truthy (Some (Str.ofZ n)) = true.
Proof.
  unfold Str.ofZ. destruct n as [|p|p]; [reflexivity|..];
    pose proof (DecimalPos.Unsigned.to_uint_nonnil p) as Hd;
    cbn [Z.to_int NilZero.string_of_int];
    destruct (Pos.to_uint p); done.
Qed.

End TimestampFacts.

(** ** What the steps of the loader leave alone *)

Section PreservationFacts.

Import Loader.

Variable R : World -> World -> Prop.
Hypothesis R_refl : forall w, R w w.
Hypothesis R_trans : forall w1 w2 w3, R w1 w2 -> R w2 w3 -> R w1 w3.

Lemma preserves_ret {A : Type} (a : A) : Frame.preserves R (ret a).
Proof using R_refl. intros w. apply R_refl. Qed.

Lemma preserves_throw {A : Type} (e : string) : Frame.preserves R (@throw A e).
Proof using R_refl. intros w. apply R_refl. Qed.

Lemma preserves_lift {A : Type} (r : result A) : Frame.preserves R (lift r).
Proof using R_refl. intros w. apply R_refl. Qed.

Lemma preserves_read {A : Type} (f : World -> A) : Frame.preserves R (read f).
Proof using R_refl. intros w. apply R_refl. Qed.

Lemma preserves_modify (f : World -> World) :
  (forall w, R w (f w)) -> Frame.preserves R (modify f).
Proof. intros Hf w. apply Hf. Qed.

Lemma preserves_bind {A B : Type} (c : M A) (k : A -> M B) :
  Frame.preserves R c -> (forall a, Frame.preserves R (k a)) ->
  Frame.preserves R (bind c k).
Proof using R_trans.
  intros Hc Hk w. unfold bind. specialize (Hc w).
  destruct (c w) as [w' [a|e]]; [|exact Hc].
  eapply R_trans; [exact Hc | apply Hk].
Qed.

Lemma preserves_tryCatch {A : Type} (c : M A) (handler : string -> M A) :
  Frame.preserves R c -> (forall e, Frame.preserves R (handler e)) ->
  Frame.preserves R (tryCatch c handler).
Proof using R_trans.
  intros Hc Hh w. unfold tryCatch. specialize (Hc w).
  destruct (c w) as [w' [a|e]]; [exact Hc|].
  eapply R_trans; [exact Hc | apply Hh].
Qed.

Lemma preserves_retry {A : Type} (operation : M A) (baseDelay : Q)
    (onRetry : nat -> Q -> M unit) (retries : nat) :
  Frame.preserves R operation ->
  (forall left delay, Frame.preserves R (onRetry left delay)) ->
  (forall delay w, R w (sleep delay w)) ->
  Frame.preserves R (retryWithBackoff operation retries baseDelay onRetry).
Proof using R_refl R_trans.
  intros Hop Hcb Hsleep.
  induction retries as [|retries IH]; cbn [retryWithBackoff];
    apply preserves_tryCatch; try assumption; intros e.
  - apply preserves_throw.
  - apply preserves_bind; [apply Hcb|]. intros _.
    apply preserves_bind; [by apply preserves_modify|]. intros _. exact IH.
Qed.

End PreservationFacts.

(** ** The session cache *)

Section SessionStoreFacts.

Import Loader.

Lemma fresh_stamp (env later : Env) (window : Z) :
  fresh later (Str.ofZ (now env)) window = (now later - now env <? window)%Z.
Proof. unfold fresh. by rewrite parseInt_ofZ. Qed.

(** With room for everything the callback is what
    [Loader.storeModelDataInSession] does at once. *)
Lemma roomy_onload (env : Env) (data : bytes) (w : World) :
  SessionWrite.storeModelDataInSession
    (SessionWrite.onload SessionWrite.roomy env) data w
  = storeModelDataInSession env data w.
Proof.
  unfold SessionWrite.storeModelDataInSession, storeModelDataInSession.
  by destruct (decide _).
Qed.

Lemma roomy_cachedOnload (env : Env) (data : bytes) (w : World) :
  SessionWrite.storeModelDataInSession
    (SessionWrite.cachedOnload SessionWrite.roomy env) data w
  = Cached.storeModelDataInSession env data w.
Proof.
  unfold SessionWrite.storeModelDataInSession, Cached.storeModelDataInSession.
  by destruct (decide _).
Qed.

(** What the callback of the cascade hook leaves, by what [setItem]
    answers. *)
Lemma onload_outcome (room : SessionWrite.Quota) (env : Env) (data : bytes)
    (w : World) :
  let withData := setSessionItem (CACHE_KEY +:+ "-data") (toBase64 env data) w in
  SessionWrite.onload room env data w
  = match room (CACHE_KEY +:+ "-data") (toBase64 env data) (sessionStorage w) with
    | Throw _ => (w, Ok tt)
    | Ok _ =>
        match room (CACHE_KEY +:+ "-timestamp") (Str.ofZ (now env))
                (sessionStorage withData) with
        | Throw _ => (withData, Ok tt)
        | Ok _ =>
            (setSessionItem (CACHE_KEY +:+ "-timestamp") (Str.ofZ (now env))
               withData, Ok tt)
        end
    end.
Proof.
  intros withData. subst withData.
  unfold SessionWrite.onload, SessionWrite.setItem.
  cbv beta iota delta [bind modify read lift tryCatch ret].
  destruct (room (CACHE_KEY +:+ "-data") _ _) as [[]|e]; [|reflexivity].
  by destruct (room (CACHE_KEY +:+ "-timestamp") _ _) as [[]|e].
Qed.

(** What a later call reads from a session that holds the encoded data
    and the time stamp of the callback. *)
Lemma session_read (env later : Env) (w : World) (data : bytes) :
  atob later (toBase64 env data) = Ok data ->
  sessionStorage w !! (CACHE_KEY +:+ "-data") = Some (toBase64 env data) ->
  sessionStorage w !! (CACHE_KEY +:+ "-timestamp") = Some (Str.ofZ (now env)) ->
  getModelDataFromSession later w
  = if Str.truthy (Some (toBase64 env data))
       && (now later - now env <? 10 * 60 * 1000)%Z
    then Some data else None.
Proof.
  intros Hdecoded Hdata Hstamp. unfold getModelDataFromSession.
  rewrite Hdata, Hstamp, ofZ_truthy, fresh_stamp, Hdecoded. cbn [andb].
  by destruct (Str.truthy _ && _).
Qed.

Lemma session_written (env : Env) (data : bytes) (w : World) :
  let withData := setSessionItem (CACHE_KEY +:+ "-data") (toBase64 env data) w in
  let written :=
    setSessionItem (CACHE_KEY +:+ "-timestamp") (Str.ofZ (now env)) withData in
  sessionStorage written !! (CACHE_KEY +:+ "-data") = Some (toBase64 env data)
  /\ sessionStorage written !! (CACHE_KEY +:+ "-timestamp")
     = Some (Str.ofZ (now env)).
Proof.
  cbn [sessionStorage setSessionItem]. split.
  - rewrite lookup_insert_ne
      by (intros Hkey; vm_compute in Hkey; discriminate).
    apply lookup_insert_eq.
  - apply lookup_insert_eq.
Qed.

End SessionStoreFacts.

(** X14.  The session cache of the cascade hook is written by the
    callback of a [FileReader], which is started for data under 10 MiB
    only and runs later, with [setItem] free to throw.  Once the callback
    has run: when [sessionStorage] took both items and decoding inverts
    the encoding of the data, a later call of [getModelDataFromSession]
    returns the data provided their encoding is not the empty string (the
    test [timestamp && base64data] drops it) and fewer than ten minutes
    have passed since the callback, and returns nothing from ten minutes
    on; when [setItem] threw on the data the state is as it was; when it
    threw on the time stamp, the data are stored and the time stamp is
    not. *)
Theorem session_round_trip (room : SessionWrite.Quota) (env later : Loader.Env)
    (w : Loader.World) (data : bytes) :
  Loader.atob later (Loader.toBase64 env data) = Ok data ->
  let encoded := Loader.toBase64 env data in
  let withData := Loader.setSessionItem (CACHE_KEY +:+ "-data") encoded w in
  let w' :=
    fst (SessionWrite.storeModelDataInSession
           (SessionWrite.onload room env) data w) in
  if decide (length data < 10 * 1024 * 1024) then
    match room (CACHE_KEY +:+ "-data") encoded (Loader.sessionStorage w) with
    | Throw _ => w' = w
    | Ok _ =>
        match room (CACHE_KEY +:+ "-timestamp") (Str.ofZ (Loader.now env))
                (Loader.sessionStorage withData) with
        | Throw _ => w' = withData
        | Ok _ =>
            Loader.getModelDataFromSession later w'
            = if Str.truthy (Some encoded)
                 && (Loader.now later - Loader.now env <? 10 * 60 * 1000)%Z
              then Some data else None
        end
    end
  else w' = w.
Proof.
  intros Hatob encoded withData w'. subst w'.
  unfold SessionWrite.storeModelDataInSession.
  destruct (decide _); [|reflexivity].
  rewrite onload_outcome. fold encoded. fold withData.
  destruct (room (CACHE_KEY +:+ "-data") encoded _) as [[]|e]; [|reflexivity].
  destruct (room (CACHE_KEY +:+ "-timestamp") _ _) as [[]|e]; [|reflexivity].
  cbn [fst].
  destruct (session_written env data w) as (Hdata & Hstamp).
  by apply session_read.
Qed.

Lemma session_round_trip_witness :
  let data := [x50; x4b; x03; x04] in
  let w := Loader.initialWorld ∅ in
  let stored :=
    fst (SessionWrite.storeModelDataInSession
           (SessionWrite.onload SessionWrite.roomy SampleServer.online) data w) in
  let refused :=
    fst (SessionWrite.storeModelDataInSession
           (SessionWrite.onload (SessionWrite.upTo 4) SampleServer.online) data w) in
  Loader.getModelDataFromSession
    (SampleServer.later 599999 SampleServer.online) stored = Some data
  /\ Loader.getModelDataFromSession
       (SampleServer.later 600000 SampleServer.online) stored = None
  /\ refused = w.
Proof.
  intros data w stored refused.
  assert (Hsize : length data < 10 * 1024 * 1024)
    by (unfold data; cbn [length]; lia).
  pose proof (session_round_trip SessionWrite.roomy SampleServer.online
                (SampleServer.later 599999 SampleServer.online)
                w data eq_refl) as Hfresh.
  pose proof (session_round_trip SessionWrite.roomy SampleServer.online
                (SampleServer.later 600000 SampleServer.online)
                w data eq_refl) as Hstale.
  pose proof (session_round_trip (SessionWrite.upTo 4) SampleServer.online
                SampleServer.online w data eq_refl) as Hrefused.
  cbv zeta in Hfresh, Hstale, Hrefused.
  rewrite decide_True in Hfresh by exact Hsize.
  rewrite decide_True in Hstale by exact Hsize.
  rewrite decide_True in Hrefused by exact Hsize.
  exact (conj Hfresh (conj Hstale Hrefused)).
Defined.

(** X15.  The same in the cached hook, whose callback writes three items
    (the data, the time stamp and the cache key as version) and catches
    nothing.  Once the callback has run: when [sessionStorage] took the
    three items, a later call returns data with a non-empty encoding for
    sixty minutes, and not after; when [setItem] threw, the callback ended
    with that exception and left behind the items written before it: none,
    the data alone, or the data and the time stamp without the version. *)
Theorem cached_session_round_trip (room : SessionWrite.Quota)
    (env later : Loader.Env) (w : Loader.World) (data : bytes) :
  Loader.atob later (Loader.toBase64 env data) = Ok data ->
  let encoded := Loader.toBase64 env data in
  let withData := Loader.setSessionItem "modelZipData" encoded w in
  let withStamp :=
    Loader.setSessionItem "modelZipTimestamp" (Str.ofZ (Loader.now env)) withData in
  let run :=
    SessionWrite.storeModelDataInSession
      (SessionWrite.cachedOnload room env) data w in
  if decide (length data < 10 * 1024 * 1024) then
    match room "modelZipData" encoded (Loader.sessionStorage w) with
    | Throw e => run = (w, Throw e)
    | Ok _ =>
        match room "modelZipTimestamp" (Str.ofZ (Loader.now env))
                (Loader.sessionStorage withData) with
        | Throw e => run = (withData, Throw e)
        | Ok _ =>
            match room "modelZipVersion" CACHE_KEY
                    (Loader.sessionStorage withStamp) with
            | Throw e => run = (withStamp, Throw e)
            | Ok _ =>
                snd run = Ok tt
                /\ Cached.getModelDataFromSession later (fst run)
                   = if Str.truthy (Some encoded)
                        && (Loader.now later - Loader.now env <? 60 * 60 * 1000)%Z
                     then Some data else None
            end
        end
    end
  else run = (w, Ok tt).
Proof.
  intros Hatob encoded withData withStamp run. subst run.
  unfold SessionWrite.storeModelDataInSession.
  destruct (decide _); [|reflexivity].
  unfold SessionWrite.cachedOnload, SessionWrite.setItem.
  cbv beta iota delta [Loader.bind Loader.modify Loader.read Loader.lift].
  fold encoded. fold withData.
  destruct (room "modelZipData" encoded _) as [[]|e]; [|reflexivity].
  fold withStamp.
  destruct (room "modelZipTimestamp" _ _) as [[]|e]; [|reflexivity].
  destruct (room "modelZipVersion" _ _) as [[]|e]; [|reflexivity].
  cbn [fst snd]. split; [reflexivity|].
  unfold Cached.getModelDataFromSession. subst withStamp withData encoded.
  cbn [Loader.sessionStorage Loader.setSessionItem].
  rewrite lookup_insert_eq.
  rewrite (lookup_insert_ne _ "modelZipVersion" "modelZipTimestamp") by done.
  rewrite lookup_insert_eq.
  rewrite (lookup_insert_ne _ "modelZipVersion" "modelZipData") by done.
  rewrite (lookup_insert_ne _ "modelZipTimestamp" "modelZipData") by done.
  rewrite lookup_insert_eq, ofZ_truthy, fresh_stamp, Hatob.
  rewrite bool_decide_eq_true_2 by reflexivity.
  rewrite andb_true_r.
  destruct (Str.truthy _); [|reflexivity]. cbn [andb].
  by destruct (_ <? _)%Z.
Qed.

Lemma cached_session_round_trip_witness :
  let data := [x50; x4b; x03; x04] in
  let w := Loader.initialWorld ∅ in
  let stored :=
    fst (SessionWrite.storeModelDataInSession
           (SessionWrite.cachedOnload SessionWrite.roomy SampleServer.online)
           data w) in
  let partial :=
    SessionWrite.storeModelDataInSession
      (SessionWrite.cachedOnload (SessionWrite.upTo 13) SampleServer.online)
      data w in
  Cached.getModelDataFromSession
    (SampleServer.later 3599999 SampleServer.online) stored = Some data
  /\ Cached.getModelDataFromSession
       (SampleServer.later 3600000 SampleServer.online) stored = None
  /\ partial
     = (Loader.setSessionItem "modelZipTimestamp" "1700000000000"
          (Loader.setSessionItem "modelZipData" "UEsDBA==" w),
        Throw "QuotaExceededError").
Proof.
  intros data w stored partial.
  assert (Hsize : length data < 10 * 1024 * 1024)
    by (unfold data; cbn [length]; lia).
  pose proof (cached_session_round_trip SessionWrite.roomy SampleServer.online
                (SampleServer.later 3599999 SampleServer.online)
                w data eq_refl) as Hfresh.
  pose proof (cached_session_round_trip SessionWrite.roomy SampleServer.online
                (SampleServer.later 3600000 SampleServer.online)
                w data eq_refl) as Hstale.
  pose proof (cached_session_round_trip (SessionWrite.upTo 13) SampleServer.online
                SampleServer.online w data eq_refl) as Hpartial.
  cbv zeta in Hfresh, Hstale, Hpartial.
  rewrite decide_True in Hfresh by exact Hsize.
  rewrite decide_True in Hstale by exact Hsize.
  rewrite decide_True in Hpartial by exact Hsize.
  exact (conj (proj2 Hfresh) (conj (proj2 Hstale) Hpartial)).
Defined.

(** ** The download *)

Section FreshDownloadFacts.

Import Loader.

Variable env : Env.

(** The session helper of the cascade hook returns, and touches the
    session storage only. *)
Lemma storeModelDataInSession_frame (data : bytes) (w : World) :
  let run := storeModelDataInSession env data w in
  snd run = Ok tt
  /\ zipCacheRef (fst run) = zipCacheRef w
  /\ fetches (fst run) = fetches w
  /\ delays (fst run) = delays w
  /\ modelLoadingStage (fst run) = modelLoadingStage w.
Proof.
  unfold storeModelDataInSession. destruct (decide _); by repeat split.
Qed.

(** A call made while the memory cache holds an archive returns it. *)
Lemma download_memory (getSession : Env -> World -> option bytes)
    (storeSession : Env -> bytes -> M unit) (w : World) (zipContents : ZipFiles) :
  zipCacheRef w = Some zipContents ->
  downloadAndExtractModelZipWith getSession storeSession env w
  = (setModelLoadingStage "downloading" w, Ok zipContents).
Proof.
  intros Hcache. unfold downloadAndExtractModelZipWith. rewrite rethrow.
  cbv beta iota delta [bind modify read ret].
  cbn [zipCacheRef setModelLoadingStage]. by rewrite Hcache.
Qed.

(** The fresh download once a call of [fetch] has succeeded: the bytes go
    to the session before they are extracted, and the archive is cached
    before it is validated. *)
Lemma downloadFresh_fetched (w : World) (failed : nat) (resp : Response)
    (chunks : list bytes) :
  failed <= 3 ->
  (forall i, i < failed -> exists e, attempt env (fetches w + i) = Throw e) ->
  attempt env (fetches w + failed) = Ok resp ->
  body resp = Ok chunks ->
  let w1 := countFetch (retried 500 3 failed w) in
  let w2 := setModelLoadingStage "extracting"
              (fst (storeModelDataInSession env (concat chunks) w1)) in
  downloadFresh storeModelDataInSession env w
  = match loadAsync env (concat chunks) with
    | Throw e => (w2, Throw e)
    | Ok zipContents =>
        (setZipCache zipContents w2,
         if hasModelJson zipContents then Ok zipContents
         else Throw ("Invalid model ZIP: Missing model.json file. Available files: "
                       +:+ Str.join ", " (Zip.keys zipContents)))
    end.
Proof.
  intros Hle Hfail Hlast Hbody w1 w2. unfold downloadFresh, bind at 1.
  rewrite (retry_run env 500 3 failed w (Ok resp));
    [|assumption | assumption | assumption | right; by eexists].
  fold w1. unfold bind at 1, lift at 1. rewrite Hbody, combine_concat.
  unfold bind at 1.
  pose proof (storeModelDataInSession_frame (concat chunks) w1) as [Hstored _].
  cbv zeta in Hstored. subst w2.
  destruct (storeModelDataInSession env (concat chunks) w1) as [w2 r].
  cbn [fst snd] in *. subst r.
  cbv beta iota delta [bind modify lift ret throw].
  destruct (loadAsync env (concat chunks)) as [zipContents|e]; [|reflexivity].
  by destruct (hasModelJson zipContents).
Qed.

(** What the session holds after the helper has run depends on the
    session it started from only. *)
Lemma storeModelDataInSession_session (data : bytes) (w w' : World) :
  sessionStorage w' = sessionStorage w ->
  sessionStorage (fst (storeModelDataInSession env data w'))
  = sessionStorage (fst (storeModelDataInSession env data w)).
Proof.
  intros Hsame. unfold storeModelDataInSession.
  destruct (decide _); [|exact Hsame].
  cbv beta iota delta [bind modify]. cbn [fst sessionStorage setSessionItem].
  by rewrite Hsame.
Qed.

(** The fresh download calls [fetch] at least once. *)
Lemma downloadFresh_fetches (w : World) :
  fetches w < fetches (fst (downloadFresh storeModelDataInSession env w)).
Proof.
  unfold downloadFresh.
  pose proof (retry_fetches_lt env 3 500 w) as Hlt.
  cbv beta iota delta [bind modify lift ret throw].
  destruct (retryWithBackoff (fetchZip env) 3 500 onDownloadRetry w)
    as [w1 [response|e]]; [|exact Hlt].
  simpl in Hlt. destruct (body response) as [chunks|e]; [|exact Hlt].
  pose proof (storeModelDataInSession_frame (Uint8Array.combine chunks) w1)
    as (Hstored & _ & Hfetches & _).
  cbv zeta in Hstored, Hfetches.
  destruct (storeModelDataInSession env (Uint8Array.combine chunks) w1)
    as [w2 r]. cbn [fst snd] in *. subst r. rewrite <- Hfetches in Hlt.
  destruct (loadAsync env _) as [zipContents|e]; simpl; try exact Hlt.
  destruct (hasModelJson zipContents); simpl; exact Hlt.
Qed.

(** The same, with the state after the session helper described by what
    it holds. *)
Lemma downloadFresh_fetched_state (w : World) (failed : nat) (resp : Response)
    (chunks : list bytes) :
  failed <= 3 ->
  (forall i, i < failed -> exists e, attempt env (fetches w + i) = Throw e) ->
  attempt env (fetches w + failed) = Ok resp ->
  body resp = Ok chunks ->
  exists w2,
    fetches w2 = fetches w + failed + 1
    /\ modelLoadingStage w2 = "extracting"
    /\ sessionStorage w2
       = sessionStorage (fst (storeModelDataInSession env (concat chunks) w))
    /\ downloadFresh storeModelDataInSession env w
       = match loadAsync env (concat chunks) with
         | Throw e => (w2, Throw e)
         | Ok zipContents =>
             (setZipCache zipContents w2,
              if hasModelJson zipContents then Ok zipContents
              else Throw ("Invalid model ZIP: Missing model.json file. Available files: "
                            +:+ Str.join ", " (Zip.keys zipContents)))
         end.
Proof.
  intros Hle Hfail Hlast Hbody.
  pose proof (downloadFresh_fetched w failed resp chunks Hle Hfail Hlast Hbody)
    as Hrun. cbv zeta in Hrun.
  pose proof (storeModelDataInSession_frame (concat chunks)
                (countFetch (retried 500 3 failed w)))
    as (_ & _ & Hfetches & _). cbv zeta in Hfetches.
  pose proof (retried_rest 500 3 failed w) as (_ & _ & _ & _ & Hstore & _).
  pose proof (storeModelDataInSession_session (concat chunks) w
                (countFetch (retried 500 3 failed w)) Hstore) as Hsession.
  pose proof (retried_fetches 500 3 failed w) as Hretried.
  revert Hrun Hfetches Hsession.
  generalize (fst (storeModelDataInSession env (concat chunks)
                     (countFetch (retried 500 3 failed w)))).
  intros w2 Hrun Hfetches Hsession.
  exists (setModelLoadingStage "extracting" w2).
  split; [|split; [reflexivity | split; [exact Hsession | exact Hrun]]].
  cbn [fetches setModelLoadingStage]. rewrite Hfetches.
  cbn [fetches countFetch]. rewrite Hretried. lia.
Qed.

End FreshDownloadFacts.



Section ValidationFacts.

(** An archive that fails the validation holds no descriptor for the
    handler. *)
Lemma invalid_archive_no_descriptor (zipContents : ZipFiles) :
  Loader.hasModelJson zipContents = false ->
  List.find ZipIO.isModelJson (Zip.keys zipContents) = None.
Proof.
  intros Hinvalid.
  destruct (List.find ZipIO.isModelJson (Zip.keys zipContents)) as [name|] eqn:Hfound;
    [|reflexivity].
  apply find_some in Hfound as [Hin Hname].
  apply isModelJson_includes in Hname.
  assert (Hvalid : Loader.hasModelJson zipContents = true).
  { unfold Loader.hasModelJson. apply existsb_exists. by exists name. }
  congruence.
Qed.

End ValidationFacts.

(** X17.  The download caches the extracted archive before it validates
    it (line 336 comes before line 343).  So when the archive holds no key
    containing [model.json], the call throws "Invalid model ZIP: ..." with
    the list of the keys, yet the archive stays in the memory cache: a
    further call returns that same archive as a success, without calling
    [fetch], and the handler then finds no descriptor in it. *)
Theorem invalid_archive_stays_cached (env : Loader.Env) (w : Loader.World)
    (resp : Loader.Response) (chunks : list bytes) (zipContents : ZipFiles) :
  Loader.zipCacheRef w = None ->
  Loader.getModelDataFromSession env w = None ->
  Loader.attempt env (Loader.fetches w) = Ok resp ->
  Loader.body resp = Ok chunks ->
  Loader.loadAsync env (concat chunks) = Ok zipContents ->
  Loader.hasModelJson zipContents = false ->
  let first := Loader.downloadAndExtractModelZip env w in
  let second := Loader.downloadAndExtractModelZip env (fst first) in
  snd first
  = Throw ("Invalid model ZIP: Missing model.json file. Available files: "
             +:+ Str.join ", " (Zip.keys zipContents))
  /\ Loader.zipCacheRef (fst first) = Some zipContents
  /\ snd second = Ok zipContents
  /\ Loader.fetches (fst second) = Loader.fetches (fst first)
  /\ forall parse,
       snd (ZipIO.load parse zipContents) = Throw "model.json not found in ZIP file".
Proof.
  intros Hcache Hsession Hlast Hbody Hextract Hinvalid first second.
  destruct (downloadFresh_fetched_state env
              (Loader.setModelLoadingStage "downloading" w) 0 resp chunks)
    as (w2 & _ & _ & _ & Hrun);
    [lia | intros i Hi; lia | by rewrite Nat.add_0_r | assumption |].
  rewrite Hextract, Hinvalid in Hrun.
  assert (Hfirst : first
                   = (Loader.setZipCache zipContents w2,
                      Throw ("Invalid model ZIP: Missing model.json file. Available files: "
                               +:+ Str.join ", " (Zip.keys zipContents)))).
  { subst first. unfold Loader.downloadAndExtractModelZip.
    rewrite download_no_session by assumption. exact Hrun. }
  assert (Hsecond : second
                    = (Loader.setModelLoadingStage "downloading"
                         (Loader.setZipCache zipContents w2), Ok zipContents)).
  { subst second. rewrite Hfirst. cbn [fst].
    unfold Loader.downloadAndExtractModelZip. by apply download_memory. }
  rewrite Hsecond, Hfirst. cbn [fst snd].
  split; [reflexivity|]. split; [reflexivity|]. split; [reflexivity|].
  split; [reflexivity|]. intros parse.
  unfold ZipIO.load, ZipIO.tryLoad.
  by rewrite invalid_archive_no_descriptor.
Qed.

Lemma invalid_archive_stays_cached_witness :
  let first :=
    Loader.downloadAndExtractModelZip SampleServer.wrongArchive
      (Loader.initialWorld ∅) in
  let second :=
    Loader.downloadAndExtractModelZip SampleServer.wrongArchive (fst first) in
  snd first
  = Throw "Invalid model ZIP: Missing model.json file. Available files: readme.txt"
  /\ snd second = Ok [("readme.txt", [x68; x69])].
Proof.
  intros first second.
  set (w := Loader.initialWorld ∅).
  set (resp := {| Loader.ok := true; Loader.status := 200;
                  Loader.statusText := "OK";
                  Loader.body := Ok [[x50; x4b]; [x03; x04]] |}).
  assert (Hcache : Loader.zipCacheRef w = None) by reflexivity.
  assert (Hsession : Loader.getModelDataFromSession SampleServer.wrongArchive w
                     = None) by reflexivity.
  assert (Hlast : Loader.attempt SampleServer.wrongArchive (Loader.fetches w)
                  = Ok resp) by reflexivity.
  assert (Hbody : Loader.body resp = Ok [[x50; x4b]; [x03; x04]]) by reflexivity.
  assert (Hextract : Loader.loadAsync SampleServer.wrongArchive
                       (concat [[x50; x4b]; [x03; x04]])
                     = Ok [("readme.txt", [x68; x69])]) by reflexivity.
  assert (Hinvalid : Loader.hasModelJson [("readme.txt", [x68; x69])] = false)
    by reflexivity.
  destruct (invalid_archive_stays_cached SampleServer.wrongArchive w resp
              [[x50; x4b]; [x03; x04]] [("readme.txt", [x68; x69])]
              Hcache Hsession Hlast Hbody Hextract Hinvalid)
    as (Hfirst & _ & Hsecond & _).
  exact (conj Hfirst Hsecond).
Defined.

(** X18.  A fresh instance of the hook, started after a reload of the
    page, reuses what the [FileReader] callback of an earlier download has
    stored.  When [sessionStorage] took both items of the callback (the
    data with a non-empty encoding that decodes back to them, and the time
    stamp) and the instance starts fewer than ten minutes after the
    callback, the archive is extracted from the session bytes and returned
    without a request for the archive ([fetch(zipUrl)] is not called);
    started ten minutes after the callback or later, the instance requests
    the archive again.  And when [setItem] threw on the data, so that the
    callback stored nothing, a session with nothing usable in it before
    has nothing usable after: the instance requests the archive. *)
Theorem reload_reuses_session (room : SessionWrite.Quota)
    (env later : Loader.Env) (w : Loader.World) (data : bytes)
    (zipContents : ZipFiles) :
  Loader.toBase64 env data <> "" ->
  Loader.atob later (Loader.toBase64 env data) = Ok data ->
  Loader.loadAsync later data = Ok zipContents ->
  Loader.hasModelJson zipContents = true ->
  let encoded := Loader.toBase64 env data in
  let withData := Loader.setSessionItem (CACHE_KEY +:+ "-data") encoded w in
  let written := fst (SessionWrite.onload room env data w) in
  let again := Loader.downloadAndExtractModelZip later (Page.reload written) in
  match room (CACHE_KEY +:+ "-data") encoded (Loader.sessionStorage w) with
  | Throw _ =>
      Loader.getModelDataFromSession later w = None -> 0 < zipFetches (fst again)
  | Ok _ =>
      match room (CACHE_KEY +:+ "-timestamp") (Str.ofZ (Loader.now env))
              (Loader.sessionStorage withData) with
      | Throw _ => written = withData
      | Ok _ =>
          if (Loader.now later - Loader.now env <? 10 * 60 * 1000)%Z
          then snd again = Ok zipContents
               /\ zipFetches (fst again) = 0
               /\ Loader.zipCacheRef (fst again) = Some zipContents
          else 0 < zipFetches (fst again)
      end
  end.
Proof.
  intros Hencoded Hdecoded Hextract Hvalid encoded withData written again.
  assert (Hfetch : forall w0 : Loader.World,
             Loader.getModelDataFromSession later
               (Loader.setModelLoadingStage "downloading" (Page.reload w0)) = None ->
             0 < zipFetches
                   (fst (Loader.downloadAndExtractModelZip later (Page.reload w0)))).
  { intros w0 Hnone. unfold Loader.downloadAndExtractModelZip, zipFetches.
    rewrite download_no_session by (assumption || reflexivity).
    eapply Nat.le_lt_trans; [|apply (downloadFresh_fetches later)].
    cbn [Loader.fetches Loader.setModelLoadingStage Page.reload
         Loader.initialWorld]. lia. }
  pose proof (onload_outcome room env data w) as Hout. cbv zeta in Hout.
  fold encoded in Hout. fold withData in Hout.
  subst again written.
  destruct (room (CACHE_KEY +:+ "-data") encoded _) as [[]|e].
  - destruct (room (CACHE_KEY +:+ "-timestamp") _ _) as [[]|e];
      [|by rewrite Hout].
    rewrite Hout. cbn [fst].
    destruct (session_written env data w) as (Hdata & Hstamp).
    set (stored := Loader.setSessionItem (CACHE_KEY +:+ "-timestamp") _ withData)
      in *.
    assert (Hread : Loader.getModelDataFromSession later
                      (Loader.setModelLoadingStage "downloading" (Page.reload stored))
                    = if (Loader.now later - Loader.now env <? 10 * 60 * 1000)%Z
                      then Some data else None).
    { rewrite (session_read env later _ data Hdecoded); [| exact Hdata | exact Hstamp].
      assert (Htruthy : Str.truthy (Some (Loader.toBase64 env data)) = true).
      { unfold Str.truthy. apply negb_true_iff. by apply String.eqb_neq. }
      by rewrite Htruthy. }
    clearbody stored.
    destruct (Loader.now later - Loader.now env <? 10 * 60 * 1000)%Z.
    + unfold Loader.downloadAndExtractModelZip, zipFetches.
      unfold Loader.downloadAndExtractModelZipWith. rewrite rethrow.
      unfold Loader.extractSessionData.
      cbv beta iota delta [Loader.bind Loader.modify Loader.read Loader.ret
                           Loader.lift Loader.tryCatch Loader.throw].
      cbn [Loader.zipCacheRef Loader.setModelLoadingStage Page.reload
           Loader.initialWorld].
      rewrite Hread, Hextract, Hvalid. by repeat split.
    + by apply Hfetch.
  - rewrite Hout. cbn [fst]. intros Hnone. by apply Hfetch.
Qed.

Lemma reload_reuses_session_witness :
  let data := [x50; x4b; x03; x04] in
  let w := Loader.initialWorld ∅ in
  let written :=
    fst (SessionWrite.onload SessionWrite.roomy SampleServer.online data w) in
  let refused :=
    fst (SessionWrite.onload (SessionWrite.upTo 4) SampleServer.online data w) in
  let soon :=
    Loader.downloadAndExtractModelZip
      (SampleServer.later 300000 SampleServer.online) (Page.reload written) in
  let late :=
    Loader.downloadAndExtractModelZip
      (SampleServer.later 600000 SampleServer.online) (Page.reload written) in
  let empty :=
    Loader.downloadAndExtractModelZip
      (SampleServer.later 300000 SampleServer.online) (Page.reload refused) in
  (snd soon = Ok SampleZip.scattered /\ zipFetches (fst soon) = 0)
  /\ 0 < zipFetches (fst late)
  /\ 0 < zipFetches (fst empty).
Proof.
  intros data w written refused soon late empty.
  assert (Hencoded : Loader.toBase64 SampleServer.online data <> "")
    by discriminate.
  assert (Hvalid : Loader.hasModelJson SampleZip.scattered = true) by reflexivity.
  assert (Hnone : Loader.getModelDataFromSession
                    (SampleServer.later 300000 SampleServer.online) w = None)
    by reflexivity.
  pose proof (reload_reuses_session SessionWrite.roomy SampleServer.online
                (SampleServer.later 300000 SampleServer.online) w data
                SampleZip.scattered Hencoded eq_refl eq_refl Hvalid) as Hsoon.
  pose proof (reload_reuses_session SessionWrite.roomy SampleServer.online
                (SampleServer.later 600000 SampleServer.online) w data
                SampleZip.scattered Hencoded eq_refl eq_refl Hvalid) as Hlate.
  pose proof (reload_reuses_session (SessionWrite.upTo 4) SampleServer.online
                (SampleServer.later 300000 SampleServer.online) w data
                SampleZip.scattered Hencoded eq_refl eq_refl Hvalid) as Hempty.
  cbv zeta in Hsoon, Hlate, Hempty.
  change (Loader.now (SampleServer.later 300000 SampleServer.online)
          - Loader.now SampleServer.online <? 10 * 60 * 1000)%Z
    with true in Hsoon.
  change (Loader.now (SampleServer.later 600000 SampleServer.online)
          - Loader.now SampleServer.online <? 10 * 60 * 1000)%Z
    with false in Hlate.
  destruct Hsoon as (Hreturned & Hfetches & _).
  exact (conj (conj Hreturned Hfetches) (conj Hlate (Hempty Hnone))).
Defined.
(** * Further properties of the retries and of the cascade *)



(** ** What the cascade leaves alone *)

Section AcquireFacts.

Import Loader.

Variable env : Env.

Lemma sameModel_refl (w : World) : Frame.sameModel w w.
Proof. split; [reflexivity | by left]. Qed.

Lemma sameModel_trans (w1 w2 w3 : World) :
  Frame.sameModel w1 w2 -> Frame.sameModel w2 w3 -> Frame.sameModel w1 w3.
Proof.
  intros [Hm1 He1] [Hm2 He2]. split; [congruence|].
  destruct He2 as [He2|He2]; [|by right].
  destruct He1 as [He1|He1]; [left | right]; congruence.
Qed.

Lemma untouched_refl (w : World) : Frame.untouched w w.
Proof. by repeat split. Qed.

Lemma untouched_trans (w1 w2 w3 : World) :
  Frame.untouched w1 w2 -> Frame.untouched w2 w3 -> Frame.untouched w1 w3.
Proof. intros (? & ? & ?) (? & ? & ?). repeat split; congruence. Qed.

Local Ltac keeps_step refl trans setter :=
  intros;
    first
      [ apply (preserves_ret _ refl)
      | apply (preserves_throw _ refl)
      | apply (preserves_lift _ refl)
      | apply (preserves_read _ refl)
      | apply preserves_modify; intros ?; setter
      | apply (preserves_bind _ trans)
      | apply (preserves_tryCatch _ trans)
      | apply (preserves_retry _ refl trans); [| | intros ? ?; setter]
      | match goal with
        | |- Frame.preserves _ (if ?b then _ else _) => destruct b
        | |- Frame.preserves _ (match ?x with _ => _ end) => destruct x
        end ].

Local Ltac sameModel_setter :=
  split; [reflexivity | first [by left | by right]].

Local Ltac keeps :=
  repeat keeps_step sameModel_refl sameModel_trans sameModel_setter.

Local Ltac leaves :=
  repeat keeps_step untouched_refl untouched_trans ltac:(by repeat split).

(** The archive download touches neither the model nor the error. *)
Lemma keeps_download :
  Frame.preserves Frame.sameModel (downloadAndExtractModelZip env).
Proof.
  unfold downloadAndExtractModelZip, downloadAndExtractModelZipWith,
    extractSessionData, downloadFresh, fetchZip, onDownloadRetry,
    storeModelDataInSession.
  keeps.
Qed.

(** [acquire] returns a model without installing it; the only error it
    sets is the message that goes with the mock model. *)
Lemma keeps_acquire : Frame.preserves Frame.sameModel (Cascade.acquire env).
Proof.
  unfold Cascade.acquire, Cascade.trySource, Cascade.localSource,
    Cascade.indexedDBSource, Cascade.localStorageSource, Cascade.remoteSource,
    Cascade.zipSource, Cascade.loadLayersModelFromZip, Cascade.mockModel.
  repeat first
    [ apply keeps_download
    | keeps_step sameModel_refl sameModel_trans sameModel_setter ].
Qed.

(** The ZIP stage touches neither the model, nor the error, nor the count
    of mock models. *)
Lemma zipSource_untouched : Frame.preserves Frame.untouched (Cascade.zipSource env).
Proof.
  unfold Cascade.zipSource, Cascade.loadLayersModelFromZip,
    downloadAndExtractModelZip, downloadAndExtractModelZipWith,
    extractSessionData, downloadFresh, fetchZip, onDownloadRetry,
    storeModelDataInSession.
  leaves.
Qed.

Lemma modelKept_refl (w : World) : Frame.modelKept w w.
Proof. reflexivity. Qed.

Lemma modelKept_trans (w1 w2 w3 : World) :
  Frame.modelKept w1 w2 -> Frame.modelKept w2 w3 -> Frame.modelKept w1 w3.
Proof. unfold Frame.modelKept. congruence. Qed.

(** [acquire] of the cached hook returns a model without installing it. *)
Lemma cached_acquire_modelKept :
  Frame.preserves Frame.modelKept (CachedCascade.acquire env).
Proof.
  unfold CachedCascade.acquire, CachedCascade.cacheSource,
    CachedCascade.zipSource, CachedCascade.remoteSource,
    CachedCascade.localSource, Cascade.loadLayersModelFromZip,
    Cascade.mockModel, Cached.downloadAndExtractModelZip,
    downloadAndExtractModelZipWith, extractSessionData, downloadFresh,
    fetchZip, onDownloadRetry, Cached.storeModelDataInSession.
  repeat keeps_step modelKept_refl modelKept_trans ltac:(reflexivity).
Qed.


End AcquireFacts.

(** ** How [loadModel] ends *)

Section LoadModelFacts.

Import Loader.

Variable env : Env.

Lemma prefix_append (p r : string) : String.prefix p (p +:+ r) = true.
Proof. apply String.prefix_correct. apply substring_front. Qed.

(** The [try] block either installs a model whose [predict] is callable,
    at stage "ready", or throws with the model untouched. *)
Lemma tryLoadModel_outcome (w : World) :
  match Cascade.tryLoadModel env w with
  | (w1, Ok _) =>
      modelLoadingStage w1 = "ready"
      /\ (exists m, model w1 = Some m /\ Cascade.predictIsFunction m = true)
      /\ (error w1 = error w \/ error w1 = Some Cascade.mockFallbackMessage)
  | (w1, Throw _) => model w1 = model w
  end.
Proof.
  unfold Cascade.tryLoadModel.
  cbv beta iota delta [bind modify lift USE_MOCK_MODEL].
  destruct (tf_ready env) as [[]|e]; [|reflexivity].
  destruct (configureBackend env) as [[]|e]; [|reflexivity].
  pose proof (keeps_acquire env
                (setModelLoadingStage "initializing" (setIsLoading true w)))
    as [Hmodel Herror].
  destruct (Cascade.acquire env
              (setModelLoadingStage "initializing" (setIsLoading true w)))
    as [wa [m|e]]; cbn [fst] in Hmodel, Herror; [|exact Hmodel].
  destruct (Cascade.predictIsFunction m) eqn:Hpredict;
    cbv beta iota delta [throw]; [|exact Hmodel].
  split; [reflexivity|]. split; [by exists m|]. exact Herror.
Qed.

(** The [catch] block ends at stage "error", with the mock model installed
    or with a "Complete failure" and the model untouched. *)
Lemma recover_outcome (message : string) (w : World) :
  let w' := fst (Cascade.recover env message w) in
  modelLoadingStage w' = "error"
  /\ (((exists mock, model w' = Some mock
                     /\ Cascade.predictIsFunction mock = true)
       /\ error w'
          = Some "Using mock model for demonstration purposes. The actual model failed to load.")
      \/ (model w' = model w
          /\ exists msg, error w' = Some msg
                         /\ String.prefix "Complete failure: " msg = true)).
Proof.
  unfold Cascade.recover, Cascade.mockModel.
  cbv beta iota delta [bind modify read lift tryCatch negb USE_MOCK_MODEL].
  cbn [mockModels setError setModelLoadingStage countMockModel].
  destruct (createMockModel env (mockModels w)) as [mock|mockError].
  - destruct (Cascade.predictIsFunction mock) eqn:Hpredict; cbn [fst].
    + split; [reflexivity|]. left. split; [by exists mock | reflexivity].
    + split; [reflexivity|]. right. split; [reflexivity|].
      eexists. split; [reflexivity | apply prefix_append].
  - cbn [fst]. split; [reflexivity|]. right. split; [reflexivity|].
    eexists. split; [reflexivity | apply prefix_append].
Qed.

End LoadModelFacts.

(** X20.  However the environment answers, [loadModel] ends with the
    loading flag cleared and in one of three states: stage "ready" with a
    model installed whose [predict] is callable, the error left as it was
    or set to the message that goes with the mock model; stage "error" with
    the emergency mock model installed and the error "Using mock model for
    demonstration purposes. The actual model failed to load."; or stage
    "error" with the model left as it was and an error that starts with
    "Complete failure: ".  It never installs a model without [predict]. *)
Theorem loadModel_outcomes (env : Loader.Env) (w : Loader.World) :
  let w' := Cascade.loadModel env w in
  Loader.isLoading w' = false
  /\ ((Loader.modelLoadingStage w' = "ready"
       /\ (exists m, Loader.model w' = Some m
                     /\ Cascade.predictIsFunction m = true)
       /\ (Loader.error w' = Loader.error w
           \/ Loader.error w' = Some Cascade.mockFallbackMessage))
      \/ (Loader.modelLoadingStage w' = "error"
          /\ (exists mock, Loader.model w' = Some mock
                           /\ Cascade.predictIsFunction mock = true)
          /\ Loader.error w'
             = Some "Using mock model for demonstration purposes. The actual model failed to load.")
      \/ (Loader.modelLoadingStage w' = "error"
          /\ Loader.model w' = Loader.model w
          /\ exists msg, Loader.error w' = Some msg
                         /\ String.prefix "Complete failure: " msg = true)).
Proof.
  intros w'. subst w'. unfold Cascade.loadModel, Loader.tryCatch.
  pose proof (tryLoadModel_outcome env w) as Htry.
  destruct (Cascade.tryLoadModel env w) as [w1 [[]|e]].
  - split; [reflexivity|]. left. exact Htry.
  - pose proof (recover_outcome env e w1) as (Hstage & Hrecover).
    destruct (Cascade.recover env e w1) as [w2 r]. cbn [fst] in *.
    split; [reflexivity|]. right.
    destruct Hrecover as [[Hmock Herror]|[Hmodel Herror]]; [left | right].
    + by repeat split.
    + split; [exact Hstage|]. split; [|exact Herror].
      cbn [Loader.model Loader.setIsLoading]. congruence.
Qed.

(** X21.  A model in one of the three local places (the public directory,
    when both files were found there, else IndexedDB, else localStorage)
    is installed by [loadModel] without the ZIP download: the first of
    them that loads gives the model, the archive is not requested
    ([fetch(zipUrl)] of line 250 is not called; the calls of [fetch] in
    [checkModelFile] and the requests of [tf.loadLayersModel] are not
    counted), no retry is waited for, the memory cache and the session
    cache of the archive stay as they were, no mock model is built, the
    error stays as it was, and the hook ends at stage "ready". *)
Theorem local_sources_skip_the_download (env : Loader.Env) (w : Loader.World)
    (m : Model) :
  Loader.tf_ready env = Ok tt ->
  Loader.configureBackend env = Ok tt ->
  Cascade.predictIsFunction m = true ->
  let localFails :=
    Loader.modelExists env && Loader.weightsExist env = false
    \/ exists e, Loader.loadLocal env = Throw e in
  (Loader.modelExists env && Loader.weightsExist env = true
   /\ Loader.loadLocal env = Ok m)
  \/ (localFails /\ Loader.loadIndexedDB env = Ok m)
  \/ (localFails /\ (exists e, Loader.loadIndexedDB env = Throw e)
      /\ Loader.loadLocalStorage env = Ok m) ->
  let w' := Cascade.loadModel env w in
  Loader.model w' = Some m
  /\ Loader.error w' = Loader.error w
  /\ Loader.modelLoadingStage w' = "ready"
  /\ Loader.isLoading w' = false
  /\ zipFetches w' = zipFetches w
  /\ Loader.delays w' = Loader.delays w
  /\ Loader.mockModels w' = Loader.mockModels w
  /\ Loader.zipCacheRef w' = Loader.zipCacheRef w
  /\ Loader.sessionStorage w' = Loader.sessionStorage w.
Proof.
  intros Hready Hbackend Hpredict localFails Hsource w'. subst w' localFails.
  unfold Cascade.loadModel, Cascade.tryLoadModel, Cascade.acquire.
  destruct Hsource as [[Hfiles Hlocal]|[[Hlocal Hcache]|(Hlocal & [e2 Hidb] & Hcache)]];
    try (destruct Hlocal as [Hfiles|[e1 Hlocal]];
         [|destruct (Loader.modelExists env && Loader.weightsExist env) eqn:Hfiles]);
    repeat (cbv beta iota delta
              [Loader.bind Loader.modify Loader.lift Loader.ret Loader.read
               Loader.tryCatch Loader.throw USE_MOCK_MODEL Cascade.trySource
               Cascade.localSource Cascade.indexedDBSource
               Cascade.localStorageSource Cascade.remoteSource];
            rewrite ?Hready, ?Hbackend, ?Hfiles, ?Hlocal, ?Hidb, ?Hcache,
              ?Hpredict);
    by repeat split.
Qed.

Lemma local_sources_skip_the_download_witness :
  let w' := Cascade.loadModel SampleServer.cached (Loader.initialWorld ∅) in
  Loader.model w' = Some (Sample.constantModel [0.1; 0.9]%float)
  /\ Loader.error w' = None
  /\ zipFetches w' = 0.
Proof.
  intros w'.
  assert (Hpredict : Cascade.predictIsFunction
                       (Sample.constantModel [0.1; 0.9]%float) = true)
    by reflexivity.
  assert (Hsource :
    (Loader.modelExists SampleServer.cached
     && Loader.weightsExist SampleServer.cached = true
     /\ Loader.loadLocal SampleServer.cached
        = Ok (Sample.constantModel [0.1; 0.9]%float))
    \/ ((Loader.modelExists SampleServer.cached
         && Loader.weightsExist SampleServer.cached = false
         \/ exists e, Loader.loadLocal SampleServer.cached = Throw e)
        /\ Loader.loadIndexedDB SampleServer.cached
           = Ok (Sample.constantModel [0.1; 0.9]%float))
    \/ ((Loader.modelExists SampleServer.cached
         && Loader.weightsExist SampleServer.cached = false
         \/ exists e, Loader.loadLocal SampleServer.cached = Throw e)
        /\ (exists e, Loader.loadIndexedDB SampleServer.cached = Throw e)
        /\ Loader.loadLocalStorage SampleServer.cached
           = Ok (Sample.constantModel [0.1; 0.9]%float))).
  { right. left. split; [by left | reflexivity]. }
  destruct (local_sources_skip_the_download SampleServer.cached
              (Loader.initialWorld ∅) (Sample.constantModel [0.1; 0.9]%float)
              eq_refl eq_refl Hpredict Hsource)
    as (Hmodel & Herror & _ & _ & Hfetches & _).
  exact (conj Hmodel (conj Herror Hfetches)).
Defined.

(** ** The later sources *)

Section LaterSourceFacts.

Import Loader.

Variable env : Env.

(** With the three local places failing, [acquire] is what its last two
    sources and the mock model do, from a state that differs from the one
    it started in by the loading stage only. *)
Lemma acquire_locals_fail (w : World) :
  (modelExists env && weightsExist env = false
   \/ exists e, loadLocal env = Throw e) ->
  (exists e, loadIndexedDB env = Throw e) ->
  (exists e, loadLocalStorage env = Throw e) ->
  exists w3,
    (w3 = setModelLoadingStage "loading-from-cache" w
     \/ w3 = setModelLoadingStage "loading-from-cache"
               (setModelLoadingStage "loading-local" w))
    /\ Cascade.acquire env w
       = (let* m4 := Cascade.trySource (Cascade.zipSource env) None in
          let* m5 := Cascade.trySource (Cascade.remoteSource env) m4 in
          match m5 with
          | Some loadedModel => ret loadedModel
          | None =>
              let* loadedModel := Cascade.mockModel env in
              modify (setError Cascade.mockFallbackMessage);;
              ret loadedModel
          end)%loader w3.
Proof.
  intros Hlocal [e2 Hidb] [e3 Hls]. unfold Cascade.acquire.
  destruct (modelExists env && weightsExist env) eqn:Hfiles.
  - destruct Hlocal as [|[e1 Hlocal]]; [discriminate|].
    exists (setModelLoadingStage "loading-from-cache"
              (setModelLoadingStage "loading-local" w)).
    split; [by right|].
    rewrite (bind_ok _ _ w (setModelLoadingStage "loading-local" w) None).
    2:{ apply (trySource_caught _ _ _ e1).
        unfold Cascade.localSource, bind, modify, lift. by rewrite Hlocal. }
    rewrite (bind_ok _ _ _ (setModelLoadingStage "loading-from-cache"
                              (setModelLoadingStage "loading-local" w)) None).
    2:{ apply (trySource_caught _ _ _ e2).
        unfold Cascade.indexedDBSource, bind, modify, lift. by rewrite Hidb. }
    rewrite (bind_ok _ _ _ (setModelLoadingStage "loading-from-cache"
                              (setModelLoadingStage "loading-local" w)) None).
    2:{ apply (trySource_caught _ _ _ e3).
        unfold Cascade.localStorageSource, lift. by rewrite Hls. }
    reflexivity.
  - exists (setModelLoadingStage "loading-from-cache" w). split; [by left|].
    rewrite (bind_ok _ _ w w None) by reflexivity.
    rewrite (bind_ok _ _ _ (setModelLoadingStage "loading-from-cache" w) None).
    2:{ apply (trySource_caught _ _ _ e2).
        unfold Cascade.indexedDBSource, bind, modify, lift. by rewrite Hidb. }
    rewrite (bind_ok _ _ _ (setModelLoadingStage "loading-from-cache" w) None).
    2:{ apply (trySource_caught _ _ _ e3).
        unfold Cascade.localStorageSource, lift. by rewrite Hls. }
    reflexivity.
Qed.

End LaterSourceFacts.

(** X22.  The ZIP stage from end to end: with the three local places
    failing, nothing in memory or in the session, a first request for the
    archive that succeeds, bytes that extract to an archive with a descriptor, a
    handler that returns artifacts and artifacts that build a model with a
    callable [predict], [loadModel] installs that model at stage "ready"
    after exactly one request for the archive (one call of [fetch(zipUrl)],
    line 250; the calls of [fetch] in [checkModelFile] are not counted),
    keeps the archive in the memory cache, builds no mock model and leaves
    the error as it was. *)
Theorem zip_stage_installs_model (env : Loader.Env) (w : Loader.World)
    (resp : Loader.Response) (chunks : list bytes) (zipContents : ZipFiles)
    (log : list ZipIO.ConsoleError) (artifacts : ModelArtifacts) (m : Model) :
  Loader.tf_ready env = Ok tt ->
  Loader.configureBackend env = Ok tt ->
  (Loader.modelExists env && Loader.weightsExist env = false
   \/ exists e, Loader.loadLocal env = Throw e) ->
  (exists e, Loader.loadIndexedDB env = Throw e) ->
  (exists e, Loader.loadLocalStorage env = Throw e) ->
  Loader.zipCacheRef w = None ->
  Loader.getModelDataFromSession env w = None ->
  Loader.attempt env (Loader.fetches w) = Ok resp ->
  Loader.body resp = Ok chunks ->
  Loader.loadAsync env (concat chunks) = Ok zipContents ->
  Loader.hasModelJson zipContents = true ->
  ZipIO.load (Loader.parse env) zipContents = (log, Ok artifacts) ->
  Loader.modelFromArtifacts env artifacts = Ok m ->
  Cascade.predictIsFunction m = true ->
  let w' := Cascade.loadModel env w in
  Loader.model w' = Some m
  /\ Loader.error w' = Loader.error w
  /\ Loader.modelLoadingStage w' = "ready"
  /\ Loader.isLoading w' = false
  /\ zipFetches w' = zipFetches w + 1
  /\ Loader.zipCacheRef w' = Some zipContents
  /\ Loader.mockModels w' = Loader.mockModels w.
Proof.
  intros Hready Hbackend Hlocal Hidb Hls Hcache Hsession Hlast Hbody Hextract
    Hvalid Hload Hbuild Hpredict w'.
  set (w0 := Loader.setModelLoadingStage "initializing" (Loader.setIsLoading true w)).
  destruct (acquire_locals_fail env w0 Hlocal Hidb Hls) as (w3 & Hw3 & Hacquire).
  assert (Hsame : Loader.zipCacheRef w3 = None
                  /\ Loader.sessionStorage w3 = Loader.sessionStorage w
                  /\ Loader.fetches w3 = Loader.fetches w
                  /\ Loader.error w3 = Loader.error w
                  /\ Loader.mockModels w3 = Loader.mockModels w).
  { destruct Hw3 as [->| ->]; by repeat split. }
  destruct Hsame as (Hcache3 & Hsession3 & Hfetches3 & Herror3 & Hmock3).
  destruct (downloadFresh_fetched_state env
              (Loader.setModelLoadingStage "downloading" w3) 0 resp chunks)
    as (w2 & Hfetches & _ & _ & Hrun);
    [ lia | intros i Hi; lia
    | cbn [Loader.fetches Loader.setModelLoadingStage];
      by rewrite Nat.add_0_r, Hfetches3
    | assumption |].
  rewrite Hextract, Hvalid in Hrun.
  assert (Hdownload : Loader.downloadAndExtractModelZip env w3
                      = (Loader.setZipCache zipContents w2, Ok zipContents)).
  { unfold Loader.downloadAndExtractModelZip.
    rewrite download_no_session; [exact Hrun | assumption |].
    unfold Loader.getModelDataFromSession in *.
    cbn [Loader.sessionStorage Loader.setModelLoadingStage].
    by rewrite Hsession3. }
  set (w4 := Loader.setModelLoadingStage "caching"
               (Loader.setModelLoadingStage "loading"
                  (Loader.setZipCache zipContents w2))).
  assert (Hzip : Cascade.zipSource env w3 = (w4, Ok m)).
  { unfold Cascade.zipSource, Cascade.loadLayersModelFromZip.
    rewrite (bind_ok _ _ _ _ _ Hdownload).
    cbv beta iota delta [Loader.bind Loader.modify Loader.lift Loader.ret].
    rewrite Hload. cbn [snd]. by rewrite Hbuild. }
  pose proof (zipSource_untouched env w3) as (_ & Herror4 & Hmock4).
  rewrite Hzip in Herror4, Hmock4. cbn [fst] in Herror4, Hmock4.
  assert (Hrun' : w' = Loader.setIsLoading false
                         (Loader.setModel m
                            (Loader.setModelLoadingStage "ready"
                               (Loader.setModelLoadingStage "warming-up" w4)))).
  { subst w'. unfold Cascade.loadModel, Loader.tryCatch, Cascade.tryLoadModel.
    cbv beta iota delta [Loader.bind Loader.modify Loader.lift USE_MOCK_MODEL].
    rewrite Hready, Hbackend. fold w0. rewrite Hacquire.
    unfold Cascade.trySource at 1, Loader.tryCatch.
    cbv beta iota delta [Loader.bind Loader.ret Cascade.trySource].
    by rewrite Hzip, Hpredict. }
  clearbody w'. subst w'. unfold zipFetches.
  cbn [Loader.model Loader.error Loader.modelLoadingStage Loader.isLoading
       Loader.fetches Loader.zipCacheRef Loader.mockModels Loader.setIsLoading
       Loader.setModel Loader.setModelLoadingStage].
  split; [reflexivity|]. split; [congruence|]. split; [reflexivity|].
  split; [reflexivity|]. split.
  { subst w4. cbn [Loader.fetches Loader.setModelLoadingStage Loader.setZipCache].
    rewrite Hfetches. cbn [Loader.fetches Loader.setModelLoadingStage]. lia. }
  split; [reflexivity | congruence].
Qed.

Lemma zip_stage_installs_model_witness :
  let w' := Cascade.loadModel SampleServer.online (Loader.initialWorld ∅) in
  Loader.model w' = Some (Sample.constantModel [0.1; 0.9]%float)
  /\ Loader.error w' = None
  /\ zipFetches w' = 1
  /\ Loader.zipCacheRef w' = Some SampleZip.scattered.
Proof.
  intros w'.
  set (w := Loader.initialWorld ∅).
  set (chunks := [[x50; x4b]; [x03; x04]]).
  set (resp := {| Loader.ok := true; Loader.status := 200;
                  Loader.statusText := "OK"; Loader.body := Ok chunks |}).
  assert (Hlocal : Loader.modelExists SampleServer.online
                   && Loader.weightsExist SampleServer.online = false
                   \/ exists e, Loader.loadLocal SampleServer.online = Throw e)
    by (by left).
  assert (Hidb : exists e, Loader.loadIndexedDB SampleServer.online = Throw e)
    by (by eexists).
  assert (Hls : exists e, Loader.loadLocalStorage SampleServer.online = Throw e)
    by (by eexists).
  assert (Hcache : Loader.zipCacheRef w = None) by reflexivity.
  assert (Hsession : Loader.getModelDataFromSession SampleServer.online w = None)
    by reflexivity.
  assert (Hlast : Loader.attempt SampleServer.online (Loader.fetches w) = Ok resp)
    by reflexivity.
  assert (Hbody : Loader.body resp = Ok chunks) by reflexivity.
  assert (Hextract : Loader.loadAsync SampleServer.online (concat chunks)
                     = Ok SampleZip.scattered) by reflexivity.
  assert (Hvalid : Loader.hasModelJson SampleZip.scattered = true) by reflexivity.
  destruct (ZipIO.load (Loader.parse SampleServer.online) SampleZip.scattered)
    as [log [artifacts|e]] eqn:Hload; [|vm_compute in Hload; discriminate].
  assert (Hbuild : Loader.modelFromArtifacts SampleServer.online artifacts
                   = Ok (Sample.constantModel [0.1; 0.9]%float)) by reflexivity.
  assert (Hpredict : Cascade.predictIsFunction
                       (Sample.constantModel [0.1; 0.9]%float) = true)
    by reflexivity.
  destruct (zip_stage_installs_model SampleServer.online w resp chunks
              SampleZip.scattered log artifacts
              (Sample.constantModel [0.1; 0.9]%float)
              eq_refl eq_refl Hlocal Hidb Hls Hcache Hsession Hlast Hbody
              Hextract Hvalid Hload Hbuild Hpredict)
    as (Hmodel & Herror & _ & _ & Hfetches & Hzip & _).
  exact (conj Hmodel (conj Herror (conj Hfetches Hzip))).
Defined.

(** X23.  When [tf.ready()] or the backend set-up throws, [loadModel]
    does not start the ZIP download (the archive is not requested, no
    retry is waited for, the memory cache and the session cache of the
    archive stay as they were; the two calls of [fetch] in
    [checkModelFile], which come after [tf.ready()] and before the backend
    set-up, are not counted) and goes to its [catch] block, which builds
    one mock model and ends at stage "error".  With a
    mock model whose [predict] is callable the hook gets that model and the
    fixed message "Using mock model ...": the message of the failure is
    overwritten.  When [createMockModel] throws as well, or gives an object
    without [predict], the model stays as it was and the error is
    "Complete failure: ", the first message, and what went wrong with the
    mock model. *)
Theorem backend_failure_recovers (env : Loader.Env) (w : Loader.World)
    (e : string) :
  Loader.tf_ready env = Throw e
  \/ (Loader.tf_ready env = Ok tt /\ Loader.configureBackend env = Throw e) ->
  let w' := Cascade.loadModel env w in
  Loader.modelLoadingStage w' = "error"
  /\ Loader.isLoading w' = false
  /\ (zipFetches w' = zipFetches w
      /\ Loader.delays w' = Loader.delays w
      /\ Loader.zipCacheRef w' = Loader.zipCacheRef w
      /\ Loader.sessionStorage w' = Loader.sessionStorage w)
  /\ Loader.mockModels w' = S (Loader.mockModels w)
  /\ match Loader.createMockModel env (Loader.mockModels w) with
     | Ok mock =>
         if Cascade.predictIsFunction mock
         then Loader.model w' = Some mock
              /\ Loader.error w'
                 = Some "Using mock model for demonstration purposes. The actual model failed to load."
         else Loader.model w' = Loader.model w
              /\ Loader.error w'
                 = Some ("Complete failure: " +:+ e
                           +:+ ". Mock model creation also failed.")
     | Throw mockError =>
         Loader.model w' = Loader.model w
         /\ Loader.error w'
            = Some ("Complete failure: " +:+ e +:+ ". Mock model also failed: "
                      +:+ mockError)
     end.
Proof.
  intros Hfailure w'. subst w'.
  unfold Cascade.loadModel, Cascade.tryLoadModel, Cascade.recover,
    Cascade.mockModel.
  destruct Hfailure as [Hready|[Hready Hbackend]];
    cbv beta iota delta [Loader.bind Loader.modify Loader.lift Loader.read
                         Loader.tryCatch negb USE_MOCK_MODEL];
    rewrite Hready; try rewrite Hbackend;
    cbn [Loader.mockModels Loader.setError Loader.setModelLoadingStage
         Loader.setIsLoading Loader.countMockModel];
    destruct (Loader.createMockModel env (Loader.mockModels w)) as [mock|mockError];
    try destruct (Cascade.predictIsFunction mock); by repeat split.
Qed.

Lemma backend_failure_recovers_witness :
  let w' := Cascade.loadModel SampleServer.noBackend (Loader.initialWorld ∅) in
  Loader.modelLoadingStage w' = "error"
  /\ Loader.model w' = None
  /\ Loader.error w'
     = Some "Complete failure: No backend found in registry. Mock model also failed: No backend found in registry".
Proof.
  intros w'.
  assert (Hfailure :
    Loader.tf_ready SampleServer.noBackend = Throw "No backend found in registry"
    \/ (Loader.tf_ready SampleServer.noBackend = Ok tt
        /\ Loader.configureBackend SampleServer.noBackend
           = Throw "No backend found in registry")) by (by left).
  destruct (backend_failure_recovers SampleServer.noBackend
              (Loader.initialWorld ∅) "No backend found in registry" Hfailure)
    as (Hstage & _ & _ & _ & Hmodel & Herror).
  exact (conj Hstage (conj Hmodel Herror)).
Defined.



(** X25.  An object without a callable [predict] that loads from a local
    place is not installed, and the search stops there.  When the first of
    the three local places that loads gives such an object, [loadModel] does
    not go on to the ZIP download (the archive is not requested, no retry
    is waited for, the memory cache and the session cache of the archive
    stay as they were; the calls of [fetch] in [checkModelFile] and the
    requests of [tf.loadLayersModel] are not counted): its validation
    throws, and the [catch] block puts the mock model in its place, at
    stage "error" with the message "Using mock model ...". *)
Theorem model_without_predict_is_replaced (env : Loader.Env) (w : Loader.World)
    (m mock : Model) :
  Loader.tf_ready env = Ok tt ->
  Loader.configureBackend env = Ok tt ->
  Cascade.predictIsFunction m = false ->
  Loader.createMockModel env (Loader.mockModels w) = Ok mock ->
  Cascade.predictIsFunction mock = true ->
  let localFails :=
    Loader.modelExists env && Loader.weightsExist env = false
    \/ exists e, Loader.loadLocal env = Throw e in
  (Loader.modelExists env && Loader.weightsExist env = true
   /\ Loader.loadLocal env = Ok m)
  \/ (localFails /\ Loader.loadIndexedDB env = Ok m)
  \/ (localFails /\ (exists e, Loader.loadIndexedDB env = Throw e)
      /\ Loader.loadLocalStorage env = Ok m) ->
  let w' := Cascade.loadModel env w in
  Loader.model w' = Some mock
  /\ Loader.error w'
     = Some "Using mock model for demonstration purposes. The actual model failed to load."
  /\ Loader.modelLoadingStage w' = "error"
  /\ Loader.isLoading w' = false
  /\ zipFetches w' = zipFetches w
  /\ Loader.delays w' = Loader.delays w
  /\ Loader.zipCacheRef w' = Loader.zipCacheRef w
  /\ Loader.sessionStorage w' = Loader.sessionStorage w.
Proof.
  intros Hready Hbackend Hpredict Hmock Hcallable localFails Hsource w'.
  subst w' localFails.
  unfold Cascade.loadModel, Cascade.tryLoadModel, Cascade.acquire,
    Cascade.recover, Cascade.mockModel.
  destruct Hsource as [[Hfiles Hlocal]|[[Hlocal Hcache]|(Hlocal & [e2 Hidb] & Hcache)]];
    try (destruct Hlocal as [Hfiles|[e1 Hlocal]];
         [|destruct (Loader.modelExists env && Loader.weightsExist env) eqn:Hfiles]);
    repeat (cbv beta iota delta
              [Loader.bind Loader.modify Loader.lift Loader.ret Loader.read
               Loader.tryCatch Loader.throw negb USE_MOCK_MODEL Cascade.trySource
               Cascade.localSource Cascade.indexedDBSource
               Cascade.localStorageSource Cascade.remoteSource];
            cbn [Loader.mockModels Loader.setError Loader.setModelLoadingStage
                 Loader.setIsLoading Loader.countMockModel];
            rewrite ?Hready, ?Hbackend, ?Hfiles, ?Hlocal, ?Hidb, ?Hcache,
              ?Hpredict, ?Hmock, ?Hcallable);
    by repeat split.
Qed.

Lemma model_without_predict_is_replaced_witness :
  let w' := Cascade.loadModel SampleServer.brokenCache (Loader.initialWorld ∅) in
  Loader.model w' = Some SampleEnv.mock
  /\ Loader.modelLoadingStage w' = "error"
  /\ zipFetches w' = 0.
Proof.
  intros w'.
  set (broken := {| predict := None; mockModel := false |}).
  assert (Hpredict : Cascade.predictIsFunction broken = false) by reflexivity.
  assert (Hcallable : Cascade.predictIsFunction SampleEnv.mock = true)
    by reflexivity.
  assert (Hsource :
    (Loader.modelExists SampleServer.brokenCache
     && Loader.weightsExist SampleServer.brokenCache = true
     /\ Loader.loadLocal SampleServer.brokenCache = Ok broken)
    \/ ((Loader.modelExists SampleServer.brokenCache
         && Loader.weightsExist SampleServer.brokenCache = false
         \/ exists e, Loader.loadLocal SampleServer.brokenCache = Throw e)
        /\ Loader.loadIndexedDB SampleServer.brokenCache = Ok broken)
    \/ ((Loader.modelExists SampleServer.brokenCache
         && Loader.weightsExist SampleServer.brokenCache = false
         \/ exists e, Loader.loadLocal SampleServer.brokenCache = Throw e)
        /\ (exists e, Loader.loadIndexedDB SampleServer.brokenCache = Throw e)
        /\ Loader.loadLocalStorage SampleServer.brokenCache = Ok broken)).
  { right. left. split; [by left | reflexivity]. }
  destruct (model_without_predict_is_replaced SampleServer.brokenCache
              (Loader.initialWorld ∅) broken SampleEnv.mock
              eq_refl eq_refl Hpredict eq_refl Hcallable Hsource)
    as (Hmodel & _ & Hstage & _ & Hfetches & _).
  exact (conj Hmodel (conj Hstage Hfetches)).
Defined.

(** * Further properties of the predictor *)

Section MockWindowFacts.

Lemma floor_unique (x : Q) (n : Z) :
  (inject_Z n <= x)%Q -> (x < inject_Z (n + 1))%Q -> Qfloor x = n.
Proof.
  intros Hlo Hhi. apply Z.le_antisymm.
  - assert (Hlt : (Qfloor x < n + 1)%Z); [|lia].
    rewrite Zlt_Qlt. eapply Qle_lt_trans; [apply Qfloor_le | exact Hhi].
  - rewrite <- (Qfloor_Z n). by apply Qfloor_resp_le.
Qed.

(** [Math.floor(currentTime / 3000) % 3 === 0] holds in the first three
    seconds of every nine. *)
Lemma shouldChangeRandomly_window (t : Q) :
  (0 <= t)%Q ->
  Predictor.shouldChangeRandomly t = true
  <-> exists k : Z, (0 <= k)%Z /\ (9000 * inject_Z k <= t)%Q
                    /\ (t < 9000 * inject_Z k + 3000)%Q.
Proof.
  intros Ht. unfold Predictor.shouldChangeRandomly. rewrite Z.eqb_eq.
  change (t / 3000)%Q with (t * (1 # 3000))%Q.
  set (n := Qfloor (t * (1 # 3000))).
  assert (Hn0 : (0 <= n)%Z).
  { change 0%Z with (Qfloor 0). apply Qfloor_resp_le. lra. }
  assert (Hlo : (inject_Z n <= t * (1 # 3000))%Q) by apply Qfloor_le.
  assert (Hhi : (t * (1 # 3000) < inject_Z (n + 1))%Q) by apply Qlt_floor.
  rewrite inject_Z_plus in Hhi. change (inject_Z 1) with 1%Q in Hhi.
  rewrite Z.rem_mod_nonneg by lia. split.
  - intros Hrem. exists (n / 3)%Z. split; [apply Z.div_pos; lia|].
    assert (Hn : n = (3 * (n / 3))%Z).
    { pose proof (Z.div_mod n 3 ltac:(lia)) as Hdiv. rewrite Hrem in Hdiv. lia. }
    assert (Hq : (inject_Z n == 3 * inject_Z (n / 3))%Q).
    { rewrite Hn at 1. by rewrite inject_Z_mult. }
    clearbody n. split; lra.
  - intros (k & Hk & Hlo' & Hhi').
    assert (Hn : n = (3 * k)%Z).
    { subst n. apply floor_unique; rewrite ?inject_Z_plus, inject_Z_mult;
        change (inject_Z 3) with 3%Q; change (inject_Z 1) with 1%Q; lra. }
    rewrite Hn, Z.mul_comm. apply Z.mod_mul. lia.
Qed.

End MockWindowFacts.

(** X26.  A model object that carries [mockModel] gets made-up
    predictions only part of the time.  On a call that passes the checks and
    the throttle at clock value [t], [runPrediction] returns the random mock
    prediction, without running the inference, exactly when [t] lies in the
    first three seconds of a nine-second period; outside these windows the
    buffer goes through the inference and the confidence gate, and what
    comes out is not marked as mock. *)
Theorem mock_predictions_window (t : Q) (random1 random2 : float) (s : Hook)
    (m : Model) (f : list Frame -> option (list float)) :
  model s = Some m -> predict m = Some f -> mockModel m = true ->
  isBufferFull s = true -> Predictor.throttled t s = false -> (0 <= t)%Q ->
  let run := runPrediction t random1 random2 s in
  let inWindow :=
    exists k : Z, (0 <= k)%Z /\ (9000 * inject_Z k <= t)%Q
                  /\ (t < 9000 * inject_Z k + 3000)%Q in
  (inWindow ->
   snd run = Some (Predictor.newMockPrediction random1 random2 (classLabels s))
   /\ prediction (fst run) = snd run
   /\ predictCalls (fst run) = predictCalls s
   /\ lastPredictionTimeRef (fst run) = t)
  /\ (~ inWindow ->
      run = match Predictor.infer f (set_lastPredictionTime t s) with
            | (s', None) => (s', None)
            | (s', Some predictionResult) => Predictor.gate predictionResult s'
            end
      /\ forall p, snd run = Some p -> isMock p = false).
Proof.
  intros Hm Hf Hmock Hfull Hgate Ht run inWindow. subst run inWindow.
  pose proof (shouldChangeRandomly_window t Ht) as Hwindow.
  unfold runPrediction. rewrite Hm, Hfull, Hf, Hgate, Hmock.
  cbn [negb orb andb USE_MOCK_MODEL]. split.
  - intros Hin. apply Hwindow in Hin. rewrite Hin. by repeat split.
  - intros Hout.
    destruct (Predictor.shouldChangeRandomly t) eqn:Hchange;
      [exfalso; apply Hout; by apply Hwindow|].
    split; [reflexivity|].
    destruct (Predictor.infer f (set_lastPredictionTime t s))
      as [s' [[lbl conf]|]]; [|discriminate].
    unfold Predictor.gate.
    destruct (PrimFloat.leb CONFIDENCE_THRESHOLD conf); [|discriminate].
    cbn [snd]. by intros p [= <-].
Qed.

Lemma mock_predictions_window_witness :
  let flagged := {| predict := Some (fun _ => Some [0.1; 0.9]%float);
                    mockModel := true |} in
  let s := ingestAll (replicate 30 Sample.noHands) (initialHook (Some flagged)) in
  snd (runPrediction 1000 0.5 0.5 s)
  = Some (Predictor.newMockPrediction 0.5 0.5 (classLabels s))
  /\ forall p, snd (runPrediction 4000 0.5 0.5 s) = Some p -> isMock p = false.
Proof.
  intros flagged s.
  assert (Hm : model s = Some flagged) by (vm_compute; reflexivity).
  assert (Hf : predict flagged = Some (fun _ => Some [0.1; 0.9]%float))
    by reflexivity.
  assert (Hmock : mockModel flagged = true) by reflexivity.
  assert (Hfull : isBufferFull s = true) by (vm_compute; reflexivity).
  assert (Hearly : Predictor.throttled 1000 s = false) by (vm_compute; reflexivity).
  assert (Hlater : Predictor.throttled 4000 s = false) by (vm_compute; reflexivity).
  assert (Hin : exists k : Z, (0 <= k)%Z /\ (9000 * inject_Z k <= 1000)%Q
                              /\ (1000 < 9000 * inject_Z k + 3000)%Q).
  { exists 0%Z. split; [lia|]. change (inject_Z 0) with 0%Q. split; lra. }
  assert (Hout : ~ exists k : Z, (0 <= k)%Z /\ (9000 * inject_Z k <= 4000)%Q
                                 /\ (4000 < 9000 * inject_Z k + 3000)%Q).
  { intros (k & Hk & Hlo & Hhi). destruct (Z.eq_dec k 0%Z) as [->|Hne].
    - change (inject_Z 0) with 0%Q in Hhi. lra.
    - assert (Hone : (1 <= k)%Z) by lia. rewrite Zle_Qle in Hone.
      change (inject_Z 1) with 1%Q in Hone. lra. }
  clearbody s.
  destruct (mock_predictions_window 1000 0.5 0.5 s flagged _ Hm Hf Hmock Hfull
              Hearly ltac:(lra)) as [Hwindow _].
  destruct (mock_predictions_window 4000 0.5 0.5 s flagged _ Hm Hf Hmock Hfull
              Hlater ltac:(lra)) as [_ Hinference].
  destruct (Hwindow Hin) as (Hreturned & _).
  destruct (Hinference Hout) as (_ & Hreal).
  exact (conj Hreturned Hreal).
Defined.

(** * The loading stage of the simplified hook *)

Section SimplifiedLoaderFacts.

Import SimplifiedLoader.

Lemma ticks_stopped (n : nat) (s : State) :
  downloadTimer s = false -> ticks n s = s.
Proof.
  intros Hoff. induction n as [|n IH]; [reflexivity|].
  cbn [ticks]. unfold tick. by rewrite Hoff.
Qed.

Lemma ticks_add (a b : nat) (s : State) : ticks (a + b) s = ticks b (ticks a s).
Proof. revert s. induction a as [|a IH]; intros s; [reflexivity | apply IH]. Qed.

(** The interval stops in one place only, and there it sets the stage. *)
Lemma ticks_stop_at_loading (n : nat) : forall s : State,
  downloadTimer s = true ->
  downloadTimer (ticks n s) = false -> modelLoadingStage (ticks n s) = "loading".
Proof.
  induction n as [|n IH]; intros s Hon Hoff; [cbn in Hoff; congruence|].
  cbn [ticks] in *. unfold tick in *. rewrite Hon in *.
  destruct (100 <=? downloadProgress s + 10).
  - by rewrite ticks_stopped in * by reflexivity.
  - by apply IH.
Qed.

(** The interval has stopped once the progress has been pushed to 100. *)
Lemma ticks_stop (n : nat) : forall s : State,
  100 <= downloadProgress s + 10 * n -> 0 < n ->
  downloadTimer (ticks n s) = false.
Proof.
  induction n as [|n IH]; intros s Hfar Hpos; [lia|].
  cbn [ticks]. unfold tick.
  destruct (downloadTimer s) eqn:Hon; [|by rewrite ticks_stopped].
  destruct (100 <=? downloadProgress s + 10) eqn:Hfull.
  - by rewrite ticks_stopped.
  - apply Nat.leb_gt in Hfull. destruct n as [|n']; [lia|].
    apply IH; [cbn [downloadProgress]; lia | lia].
Qed.

(** What the ticks leave alone. *)
Lemma ticks_frame (n : nat) : forall s : State,
  model (ticks n s) = model s /\ isLoading (ticks n s) = isLoading s
  /\ error (ticks n s) = error s /\ isMockModel (ticks n s) = isMockModel s.
Proof.
  induction n as [|n IH]; intros s; [by repeat split|].
  cbn [ticks]. destruct (IH (tick s)) as (-> & -> & -> & ->).
  unfold tick. destruct (downloadTimer s); [|by repeat split].
  destruct (100 <=? downloadProgress s + 10); by repeat split.
Qed.

(** While the load is pending the interval runs for eight ticks and stops
    at the ninth. *)
Lemma ticks_started (n : nat) :
  downloadTimer (ticks n (started initial)) = negb (9 <=? n).
Proof.
  do 9 (destruct n as [|n]; [reflexivity|]).
  change (S (S (S (S (S (S (S (S (S n))))))))) with (9 + n).
  rewrite ticks_add, ticks_stopped by reflexivity. reflexivity.
Qed.

End SimplifiedLoaderFacts.

(** X27.  In the simplified hook the progress interval fires every 200 ms
    and stops at its ninth tick, setting the stage to "loading"; nothing
    stops it when the load settles.  So [loadModel] ends at stage "ready"
    only when the load settles after the ninth tick (1.8 s); when it settles
    earlier, with a model or with an error, the interval outlives it and its
    last tick leaves the hook at stage "loading" for good.  Either way the
    model is installed when the load succeeded, the mock flag and the error
    are set when it failed, and the loading flag is cleared. *)
Theorem simplified_stage_after_load (loaded : result Simplified.Model)
    (ticksBefore ticksAfter : nat) :
  let final := SimplifiedLoader.loadModel (Ok tt) loaded ticksBefore ticksAfter in
  SimplifiedLoader.isLoading final = false
  /\ SimplifiedLoader.model final
     = match loaded with Ok m => Some m | Throw _ => None end
  /\ SimplifiedLoader.isMockModel final
     = match loaded with Ok _ => false | Throw _ => true end
  /\ (9 <= ticksBefore -> SimplifiedLoader.modelLoadingStage final = "ready")
  /\ (ticksBefore < 9 -> SimplifiedLoader.downloadTimer final = false ->
      SimplifiedLoader.modelLoadingStage final = "loading")
  /\ (9 <= ticksBefore + ticksAfter -> 0 < ticksAfter ->
      SimplifiedLoader.downloadTimer final = false).
Proof.
  intros final. subst final. unfold SimplifiedLoader.loadModel.
  set (pending := SimplifiedLoader.ticks ticksBefore
                    (SimplifiedLoader.started SimplifiedLoader.initial)).
  pose proof (ticks_frame ticksAfter (SimplifiedLoader.settled loaded pending))
    as (Hmodel & Hloading & _ & Hmock).
  pose proof (ticks_frame ticksBefore
                (SimplifiedLoader.started SimplifiedLoader.initial))
    as (Hmodel0 & _ & _ & Hmock0).
  fold pending in Hmodel0, Hmock0.
  pose proof (ticks_started ticksBefore) as Htimer. fold pending in Htimer.
  split; [rewrite Hloading; by destruct loaded|].
  split; [rewrite Hmodel; destruct loaded; [reflexivity | exact Hmodel0]|].
  split; [rewrite Hmock; destruct loaded; [exact Hmock0 | reflexivity]|].
  assert (Hsettled : SimplifiedLoader.downloadTimer
                       (SimplifiedLoader.settled loaded pending)
                     = negb (9 <=? ticksBefore)) by (by destruct loaded).
  split; [|split].
  - intros Hlate. rewrite ticks_stopped.
    + by destruct loaded.
    + rewrite Hsettled. apply negb_false_iff. by apply Nat.leb_le.
  - intros Hearly Hoff. apply ticks_stop_at_loading; [|exact Hoff].
    rewrite Hsettled. apply negb_true_iff. by apply Nat.leb_gt.
  - intros Hall Hpos. destruct (Nat.le_gt_cases 9 ticksBefore) as [Hlate|Hearly].
    + rewrite ticks_stopped; rewrite Hsettled; apply negb_false_iff;
        by apply Nat.leb_le.
    + apply ticks_stop; [|exact Hpos].
      assert (Hprogress : 10 + 10 * ticksBefore
                          <= SimplifiedLoader.downloadProgress
                               (SimplifiedLoader.settled loaded pending)).
      { subst pending. clear -Hearly.
        do 9 (destruct ticksBefore as [|ticksBefore];
              [destruct loaded; cbn; lia|]).
        lia. }
      lia.
Qed.

(** * The cascade of the cached hook *)

Section CachedCascadeFacts.

Import Loader.

Variable env : Env.


End CachedCascadeFacts.


(** X29.  The cached hook does not guard its warm-up and does not check
    the mock model.  When the model found in a cache fails the dummy
    prediction, [loadModel] drops it without trying any other source (no call
    of [fetch]): it ends at stage "error" with whatever [createMockModel]
    returns installed, be it without [predict], under the message "Using
    mock model ..."; when [createMockModel] throws, the model stays as it
    was and the error is the "Complete failure" message with both causes. *)
Theorem cached_hook_warmup_failure (warmUp : Model -> result unit)
    (env : Loader.Env) (w : Loader.World) (m : Model) (e : string) :
  Loader.tf_ready env = Ok tt ->
  Loader.configureBackend env = Ok tt ->
  Loader.loadIndexedDB env = Ok m
  \/ ((exists e1, Loader.loadIndexedDB env = Throw e1)
      /\ Loader.loadLocalStorage env = Ok m) ->
  warmUp m = Throw e ->
  let w' := CachedCascade.loadModel warmUp env w in
  Loader.modelLoadingStage w' = "error"
  /\ Loader.isLoading w' = false
  /\ Loader.fetches w' = Loader.fetches w
  /\ match Loader.createMockModel env (Loader.mockModels w) with
     | Ok mock =>
         Loader.model w' = Some mock
         /\ Loader.error w'
            = Some "Using mock model for demonstration purposes. The actual model failed to load."
     | Throw mockError =>
         Loader.model w' = Loader.model w
         /\ Loader.error w'
            = Some ("Complete failure: " +:+ e +:+ ". Mock model also failed: "
                      +:+ mockError)
     end.
Proof.
  intros Hready Hbackend Hcached Hwarm w'. subst w'.
  unfold CachedCascade.loadModel, CachedCascade.tryLoadModel,
    CachedCascade.acquire, CachedCascade.cacheSource, CachedCascade.recover,
    Cascade.mockModel.
  destruct Hcached as [Hidb|[[e1 Hidb] Hls]];
    cbv beta iota delta [Loader.bind Loader.modify Loader.lift Loader.read
                         Loader.tryCatch Loader.throw negb USE_MOCK_MODEL];
    rewrite Hready, Hbackend, Hidb; try rewrite Hls; rewrite Hwarm;
    cbn [Loader.mockModels Loader.setError Loader.setModelLoadingStage
         Loader.setIsLoading Loader.countMockModel];
    destruct (Loader.createMockModel env (Loader.mockModels w)) as [mock|mockError];
    by repeat split.
Qed.

Lemma cached_hook_warmup_failure_witness :
  let warmUp := fun _ : Model => @Throw unit "Input tensor shape mismatch" in
  let w' := CachedCascade.loadModel warmUp SampleServer.cached
              (Loader.initialWorld ∅) in
  Loader.modelLoadingStage w' = "error"
  /\ Loader.model w' = Some SampleEnv.mock
  /\ Loader.fetches w' = 0.
Proof.
  intros warmUp w'.
  assert (Hcached :
    Loader.loadIndexedDB SampleServer.cached
    = Ok (Sample.constantModel [0.1; 0.9]%float)
    \/ ((exists e1, Loader.loadIndexedDB SampleServer.cached = Throw e1)
        /\ Loader.loadLocalStorage SampleServer.cached
           = Ok (Sample.constantModel [0.1; 0.9]%float))) by (by left).
  assert (Hwarm : warmUp (Sample.constantModel [0.1; 0.9]%float)
                  = Throw "Input tensor shape mismatch") by reflexivity.
  destruct (cached_hook_warmup_failure warmUp SampleServer.cached
              (Loader.initialWorld ∅) (Sample.constantModel [0.1; 0.9]%float)
              "Input tensor shape mismatch" eq_refl eq_refl Hcached Hwarm)
    as (Hstage & _ & Hfetches & Hmodel & _).
  exact (conj Hstage (conj Hmodel Hfetches)).
Defined.

Section LocalOnlyFacts.

Import Loader.



End LocalOnlyFacts.


(** X30.  However the environment answers, [loadModel] of the cached hook
    ends with the loading flag cleared and in one of three states: stage
    "ready" with a model installed that passed the warm-up; stage "error"
    with what [createMockModel] returned installed and the error "Using
    mock model for demonstration purposes. The actual model failed to
    load."; or stage "error" with the model left as it was and an error that
    starts with "Complete failure: ".  A model that fails the warm-up is
    never the one shown at stage "ready". *)
Theorem cached_loadModel_outcomes (warmUp : Model -> result unit)
    (env : Loader.Env) (w : Loader.World) :
  let w' := CachedCascade.loadModel warmUp env w in
  Loader.isLoading w' = false
  /\ ((Loader.modelLoadingStage w' = "ready"
       /\ exists m, Loader.model w' = Some m /\ warmUp m = Ok tt)
      \/ (Loader.modelLoadingStage w' = "error"
          /\ (exists mock, Loader.model w' = Some mock)
          /\ Loader.error w'
             = Some "Using mock model for demonstration purposes. The actual model failed to load.")
      \/ (Loader.modelLoadingStage w' = "error"
          /\ Loader.model w' = Loader.model w
          /\ exists msg, Loader.error w' = Some msg
                         /\ String.prefix "Complete failure: " msg = true)).
Proof.
  intros w'. subst w'.
  unfold CachedCascade.loadModel, Loader.tryCatch.
  assert (Htry :
    match CachedCascade.tryLoadModel warmUp env w with
    | (w1, Ok _) =>
        Loader.modelLoadingStage w1 = "ready"
        /\ exists m, Loader.model w1 = Some m /\ warmUp m = Ok tt
    | (w1, Throw _) => Loader.model w1 = Loader.model w
    end).
  { unfold CachedCascade.tryLoadModel.
    cbv beta iota delta [Loader.bind Loader.modify Loader.lift USE_MOCK_MODEL].
    destruct (Loader.tf_ready env) as [[]|e]; [|reflexivity].
    destruct (Loader.configureBackend env) as [[]|e]; [|reflexivity].
    pose proof (cached_acquire_modelKept env
                  (Loader.setModelLoadingStage "initializing"
                     (Loader.setIsLoading true w))) as Hmodel.
    unfold Frame.modelKept in Hmodel.
    destruct (CachedCascade.acquire env
                (Loader.setModelLoadingStage "initializing"
                   (Loader.setIsLoading true w)))
      as [wa [m|e]]; cbn [fst] in Hmodel; [|exact Hmodel].
    destruct (warmUp m) as [[]|e] eqn:Hwarm; [|exact Hmodel].
    split; [reflexivity|]. by exists m. }
  destruct (CachedCascade.tryLoadModel warmUp env w) as [w1 [[]|e]].
  - split; [reflexivity|]. left. exact Htry.
  - unfold CachedCascade.recover, Cascade.mockModel.
    cbv beta iota delta [Loader.bind Loader.modify Loader.read Loader.lift
                         Loader.tryCatch negb USE_MOCK_MODEL].
    cbn [Loader.mockModels Loader.setError Loader.setModelLoadingStage
         Loader.countMockModel].
    destruct (Loader.createMockModel env (Loader.mockModels w1))
      as [mock|mockError].
    + split; [reflexivity|]. right. left.
      split; [reflexivity|]. split; [by exists mock | reflexivity].
    + split; [reflexivity|]. right. right.
      split; [reflexivity|]. split; [exact Htry|].
      eexists. split; [reflexivity | apply prefix_append].
Qed.
